(** * BetterClaw plugin: event triage pipeline, context store, event log,
      pattern engine and proactive engine.

    A shallow embedding of the TypeScript sources ([src/context.ts],
    [src/filter.ts], [src/judgment.ts], [src/pipeline.ts], [src/events.ts],
    [src/patterns.ts], [src/triggers.ts], [src/index.ts]) and the
    properties the specification states about them, followed by further
    properties of the same code.

    Conventions of the embedding.
    - A JavaScript [number] is a value of [JS.num]: NaN, the two infinities,
      or a finite value carried as an exact rational.  Rounding to binary64,
      overflow and the sign of zero are not modelled.
    - A JavaScript string is a [string] of bytes.
    - An object used as a record is a Rocq record; [T | null] is [option T].
      An object whose property order is observable (it is serialised with
      [JSON.stringify]) is an association list in property order; a [Map]
      or a [Record] that is only looked up and updated is a [gmap].
    - Property lookup on an object literal sees the members inherited
      from [Object.prototype] where the key comes from the outside
      ([DEDUP_COOLDOWN[event.subscriptionId]], see [JS.inherited]).  The
      other lookups use keys written in the source, none of them such a
      member, and read own properties only.  Properties added to
      [Object.prototype] by other code of the process are not modelled.
    - Mutation of [this.context] and of the files is explicit state
      passing; what the environment decides (the clock, the time zone, the
      LLM run, the delivery command) is an input of the function that
      consults it.  Reads and writes of the state files are taken to
      succeed, except where the code itself handles their failure.
    - One function runs at a time: the interleaving of [processEvent], the
      pattern engine and the proactive engine at their [await]s is not
      modelled. *)

From Stdlib Require Import ZArith QArith Qabs Qround Bool List Ascii String Lia.
From Stdlib Require Import DecimalString.
From stdpp Require Import gmap strings.
Import ListNotations.

Set Warnings "-register-all".

Local Open Scope list_scope.
Local Open Scope string_scope.

(** ** JavaScript numbers *)

Module JS.

Inductive num : Type :=
| NaN
| PInf
| NInf
| Fin (q : Q).

Definition ofZ (z : Z) : num := Fin (inject_Z z).

Definition isFinite (x : num) : bool :=
  match x with Fin _ => true | _ => false end.

Definition isNaN (x : num) : bool :=
  match x with NaN => true | _ => false end.

(** [Qsign q] is the sign of a rational: -1, 0 or 1. *)
Definition Qsign (q : Q) : Z := Z.sgn (Qnum q).

Definition Qltb (a b : Q) : bool :=
  match (a ?= b)%Q with Lt => true | _ => false end.

Definition Qeqb (a b : Q) : bool :=
  match (a ?= b)%Q with Eq => true | _ => false end.

Definition neg (x : num) : num :=
  match x with
  | NaN => NaN
  | PInf => NInf
  | NInf => PInf
  | Fin q => Fin (- q)%Q
  end.

Definition add (x y : num) : num :=
  match x, y with
  | NaN, _ | _, NaN => NaN
  | PInf, NInf | NInf, PInf => NaN
  | PInf, _ | _, PInf => PInf
  | NInf, _ | _, NInf => NInf
  | Fin a, Fin b => Fin (a + b)%Q
  end.

Definition sub (x y : num) : num := add x (neg y).

Definition inf_of_sign (s : Z) : num :=
  match s with
  | Z0 => NaN
  | Zpos _ => PInf
  | Zneg _ => NInf
  end.

Definition sign (x : num) : Z :=
  match x with
  | NaN => 0
  | PInf => 1
  | NInf => -1
  | Fin q => Qsign q
  end.

Definition mul (x y : num) : num :=
  match x, y with
  | NaN, _ | _, NaN => NaN
  | Fin a, Fin b => Fin (a * b)%Q
  | _, _ => inf_of_sign (sign x * sign y)
  end.

(** Division: a finite value over zero is an infinity of the sign of the
    numerator (the divisor being read as +0), and 0/0 is NaN. *)
Definition div (x y : num) : num :=
  match x, y with
  | NaN, _ | _, NaN => NaN
  | Fin a, Fin b =>
      if Qeqb b 0 then inf_of_sign (Qsign a) else Fin (a / b)%Q
  | Fin _, _ => Fin 0
  | _, Fin b => if Qeqb b 0 then x else inf_of_sign (sign x * Qsign b)
  | _, _ => NaN
  end.

Definition abs (x : num) : num :=
  match x with
  | NaN => NaN
  | PInf | NInf => PInf
  | Fin q => Fin (Qabs q)
  end.

(** [Math.floor] *)
Definition floor (x : num) : num :=
  match x with
  | Fin q => ofZ (Qfloor q)
  | _ => x
  end.

(** [Math.round]: the nearest integer, ties towards +Infinity. *)
Definition round (x : num) : num :=
  match x with
  | Fin q => ofZ (Qfloor (q + (1 # 2))%Q)
  | _ => x
  end.

(** [x % y]: the remainder has the sign of the dividend. *)
Definition rem (x y : num) : num :=
  match x, y with
  | Fin a, Fin b =>
      if Qeqb b 0 then NaN
      else
        let k := (a / b)%Q in
        let t := if (Qnum k <? 0)%Z then Qceiling k else Qfloor k in
        Fin (a - b * inject_Z t)%Q
  | Fin _, (PInf | NInf) => x
  | _, _ => NaN
  end.

(** [x < y]; every comparison with NaN is false. *)
Definition lt (x y : num) : bool :=
  match x, y with
  | NaN, _ | _, NaN => false
  | _, NInf => false
  | NInf, _ => true
  | PInf, _ => false
  | _, PInf => true
  | Fin a, Fin b => Qltb a b
  end.

(** [x === y] on numbers. *)
Definition strict_eq (x y : num) : bool :=
  match x, y with
  | PInf, PInf | NInf, NInf => true
  | Fin a, Fin b => Qeqb a b
  | _, _ => false
  end.

Definition gt (x y : num) : bool := lt y x.
Definition le (x y : num) : bool := lt x y || strict_eq x y.
Definition ge (x y : num) : bool := le y x.

(** [Math.max(x, y)] *)
Definition max (x y : num) : num :=
  match x, y with
  | NaN, _ | _, NaN => NaN
  | _, _ => if lt x y then y else x
  end.

(** Truthiness of a number: false for 0 and NaN. *)
Definition truthy (x : num) : bool :=
  match x with
  | NaN => false
  | Fin q => negb (Qeqb q 0)
  | _ => true
  end.

(** [x ?? y] *)
Definition nullish {A : Type} (x : option A) (y : A) : A :=
  match x with Some v => v | None => y end.

Definition nullish_opt {A : Type} (x y : option A) : option A :=
  match x with Some v => Some v | None => y end.

(** The properties of [Object.prototype], which every object literal
    inherits: eleven functions, and under [__proto__] the prototype
    itself. *)
Definition objectPrototype : list string :=
  [ "constructor"; "__defineGetter__"; "__defineSetter__"; "hasOwnProperty";
    "__lookupGetter__"; "__lookupSetter__"; "isPrototypeOf";
    "propertyIsEnumerable"; "toString"; "valueOf"; "__proto__"; "toLocaleString" ].

(** Does the key name a member inherited from [Object.prototype]? *)
Definition inherited (k : string) : bool := existsb (String.eqb k) objectPrototype.

End JS.

Abbreviation num := JS.num.

(** ** Strings *)

Module Str.

Definition dquote : ascii := ascii_of_N 34.
Definition backslash : ascii := ascii_of_N 92.
Definition newline : ascii := ascii_of_N 10.
Definition backtick : ascii := ascii_of_N 96.

Definition str (c : ascii) : string := String c EmptyString.

(** [hay.includes(needle)] *)
Fixpoint contains (needle hay : string) : bool :=
  String.prefix needle hay
  || match hay with
     | EmptyString => false
     | String _ rest => contains needle rest
     end.

(** [s.startsWith(p)] *)
Definition startsWith (p s : string) : bool := String.prefix p s.

(** [l.join(sep)] *)
Fixpoint join (sep : string) (l : list string) : string :=
  match l with
  | [] => EmptyString
  | [x] => x
  | x :: rest => x ++ sep ++ join sep rest
  end.

Fixpoint chars (s : string) : list ascii :=
  match s with
  | EmptyString => []
  | String c rest => c :: chars rest
  end.

Fixpoint rev_acc (s acc : string) : string :=
  match s with
  | EmptyString => acc
  | String c rest => rev_acc rest (String c acc)
  end.

Definition rev (s : string) : string := rev_acc s EmptyString.

(** The white space of [\s] and of [trim] that fits in a byte. *)
Definition is_space (c : ascii) : bool :=
  let n := N_of_ascii c in
  ((9 <=? n) && (n <=? 13))%N || (n =? 32)%N.

Fixpoint trimStart (s : string) : string :=
  match s with
  | String c rest => if is_space c then trimStart rest else s
  | EmptyString => EmptyString
  end.

Definition trimEnd (s : string) : string := rev (trimStart (rev s)).

(** [s.trim()] *)
Definition trim (s : string) : string := trimEnd (trimStart s).

Definition lower (c : ascii) : ascii :=
  let n := N_of_ascii c in
  if ((65 <=? n) && (n <=? 90))%N then ascii_of_N (n + 32) else c.

Fixpoint lowercase (s : string) : string :=
  match s with
  | EmptyString => EmptyString
  | String c rest => String (lower c) (lowercase rest)
  end.

(** [s.slice(n)], dropping the first [n] characters. *)
Fixpoint drop (n : nat) (s : string) : string :=
  match n, s with
  | O, _ => s
  | S k, String _ rest => drop k rest
  | S _, EmptyString => EmptyString
  end.

(** [s.split(sep)] for a one-character separator. *)
Fixpoint split_acc (sep : ascii) (cur : string) (s : string) : list string :=
  match s with
  | EmptyString => [rev cur]
  | String c rest =>
      if Ascii.eqb c sep then rev cur :: split_acc sep EmptyString rest
      else split_acc sep (String c cur) rest
  end.

Definition split (sep : ascii) (s : string) : list string :=
  split_acc sep EmptyString s.

Definition isEmpty (s : string) : bool :=
  match s with EmptyString => true | _ => false end.

(** [s.padStart(2, "0")] *)
Definition padStart2 (s : string) : string :=
  match String.length s with
  | O => "00"
  | S O => "0" ++ s
  | _ => s
  end.

End Str.

(** ** Objects in property order *)

(** [o[k]] on an object kept as the list of its properties. *)
Fixpoint prop {A : Type} (k : string) (o : list (string * A)) : option A :=
  match o with
  | [] => None
  | (k', v) :: rest => if String.eqb k k' then Some v else prop k rest
  end.

(** ** [Number.prototype.toString] and [JSON.stringify] *)

Module Number.

Definition digits (n : Z) : string :=
  NilZero.string_of_uint (N.to_uint (Z.to_N n)).

Definition digit_char (d : Z) : ascii := ascii_of_N (48 + Z.to_N d).

(** The decimal expansion of [n / d] for [0 <= n < d], cut when it
    terminates or after [fuel] digits. *)
Fixpoint frac_digits (fuel : nat) (n : Z) (d : Z) : string :=
  match fuel with
  | O => EmptyString
  | S k =>
      if (n =? 0)%Z then EmptyString
      else String (digit_char (n * 10 / d)) (frac_digits k ((n * 10) mod d) d)
  end.

(** [String(x)]: an integer prints as its decimal digits and any other
    finite value as its decimal expansion, cut after 17 fractional
    digits.  The exponent forms of very large and very small values are
    not modelled. *)
Definition toString (x : num) : string :=
  match x with
  | JS.NaN => "NaN"
  | JS.PInf => "Infinity"
  | JS.NInf => "-Infinity"
  | JS.Fin q =>
      let n := Qnum q in
      let d := Zpos (Qden q) in
      let a := Z.abs n in
      (if (n <? 0)%Z then "-" else EmptyString)
      ++ digits (a / d)
      ++ (if (a mod d =? 0)%Z then EmptyString
          else "." ++ frac_digits 17 (a mod d) d)
  end.

Definition is_digit (c : ascii) : bool :=
  let n := N_of_ascii c in ((48 <=? n) && (n <=? 57))%N.

Fixpoint digitsValue (acc : Z) (s : string) : option Z :=
  match s with
  | EmptyString => Some acc
  | String c rest =>
      if is_digit c
      then digitsValue (acc * 10 + Z.of_N (N_of_ascii c - 48)) rest
      else None
  end.

(** [Number(s)] for the decimal literals: white space around, an
    optional sign, digits and an optional fraction; the empty string is
    0.  Every other text is read as NaN (the exponent, hexadecimal and
    [Infinity] literals are not modelled). *)
Definition ofString (s : string) : num :=
  let s := Str.trim s in
  if Str.isEmpty s then JS.ofZ 0
  else
    let (negative, body) :=
      match s with
      | String c rest =>
          if Ascii.eqb c "-" then (true, rest)
          else if Ascii.eqb c "+" then (false, rest)
          else (false, s)
      | EmptyString => (false, s)
      end in
    let magnitude :=
      match Str.split "." body with
      | [i] =>
          if Str.isEmpty i then None
          else option_map inject_Z (digitsValue 0 i)
      | [i; f] =>
          if Str.isEmpty i && Str.isEmpty f then None
          else
            match digitsValue 0 i, digitsValue 0 f with
            | Some a, Some b =>
                Some (inject_Z a + inject_Z b / inject_Z (10 ^ Z.of_nat (String.length f)))%Q
            | _, _ => None
            end
      | _ => None
      end in
    match magnitude with
    | Some q => JS.Fin (if negative then - q else q)%Q
    | None => JS.NaN
    end.

(** [x.toFixed(1)] *)
Definition toFixed1 (x : num) : string :=
  match x with
  | JS.Fin q =>
      let r := Qfloor (Qabs q * 10 + (1 # 2))%Q in
      (if (Qnum q <? 0)%Z then "-" else EmptyString)
      ++ digits (r / 10) ++ "." ++ digits (r mod 10)
  | _ => toString x
  end.

End Number.

Module JSON.

Inductive value : Type :=
| Null
| Bool (b : bool)
| Num (n : num)
| Str (s : string)
| Arr (items : list value)
| Obj (fields : list (string * value)).

Definition hex_digit (n : N) : ascii :=
  if (n <? 10)%N then ascii_of_N (48 + n) else ascii_of_N (87 + n).

(** The escape of one character inside a JSON string. *)
Definition escape_char (c : ascii) : string :=
  let n := N_of_ascii c in
  if (n =? 34)%N then String Str.backslash (Str.str Str.dquote)
  else if (n =? 92)%N then String Str.backslash (Str.str Str.backslash)
  else if (n =? 8)%N then String Str.backslash "b"
  else if (n =? 9)%N then String Str.backslash "t"
  else if (n =? 10)%N then String Str.backslash "n"
  else if (n =? 12)%N then String Str.backslash "f"
  else if (n =? 13)%N then String Str.backslash "r"
  else if (n <? 32)%N then
    String Str.backslash
      ("u00" ++ String (hex_digit (n / 16)) (Str.str (hex_digit (n mod 16))))
  else Str.str c.

Fixpoint escape (s : string) : string :=
  match s with
  | EmptyString => EmptyString
  | String c rest => escape_char c ++ escape rest
  end.

(** [JSON.stringify(s)] for a string [s]. *)
Definition quote (s : string) : string :=
  String Str.dquote (escape s ++ Str.str Str.dquote).

Definition number (n : num) : string :=
  if JS.isFinite n then Number.toString n else "null".

(** [JSON.stringify(v)], without indentation. *)
Fixpoint stringify (v : value) : string :=
  match v with
  | Null => "null"
  | Bool true => "true"
  | Bool false => "false"
  | Num n => number n
  | Str s => quote s
  | Arr items => "[" ++ Str.join "," (map stringify items) ++ "]"
  | Obj fields =>
      "{" ++ Str.join ","
               (map (fun kv => quote (fst kv) ++ ":" ++ stringify (snd kv)) fields)
          ++ "}"
  end.

Definition ofOption {A : Type} (f : A -> value) (o : option A) : value :=
  match o with Some a => f a | None => Null end.

(** [v[k]] for a parsed value: a property of an object, [undefined]
    (here [None]) on anything else that is not [null]. *)
Definition field (k : string) (v : value) : option value :=
  match v with
  | Obj fields => prop k fields
  | _ => None
  end.

End JSON.

(** ** Data model ([src/types.ts]) *)

Record DeviceEvent : Type := mkEvent {
  subscriptionId : string;
  source : string;
  data : list (string * num);
  metadata : option (list (string * string));
  firedAt : num
}.

Module BatteryState.
Record t : Type := mk {
  level : num;
  state : string;
  isLowPowerMode : bool;
  updatedAt : num
}.
End BatteryState.

Module LocationState.
Record t : Type := mk {
  latitude : num;
  longitude : num;
  horizontalAccuracy : num;
  label : option string;
  updatedAt : num
}.
End LocationState.

Module HealthState.
Record t : Type := mk {
  stepsToday : option num;
  distanceMeters : option num;
  heartRateAvg : option num;
  restingHeartRate : option num;
  hrv : option num;
  activeEnergyKcal : option num;
  sleepDurationSeconds : option num;
  updatedAt : num
}.
End HealthState.

Module Transition.
Record t : Type := mk {
  from : option string;
  to : option string;
  at_ : num
}.
End Transition.

Module ActivityState.
Record t : Type := mk {
  currentZone : option string;
  zoneEnteredAt : option num;
  lastTransition : option Transition.t;
  isStationary : bool;
  stationarySince : option num
}.
End ActivityState.

Module ContextMeta.
Record t : Type := mk {
  lastEventAt : num;
  eventsToday : num;
  lastAgentPushAt : num;
  pushesToday : num
}.
End ContextMeta.

Module Device.
Record t : Type := mk {
  battery : option BatteryState.t;
  location : option LocationState.t;
  health : option HealthState.t
}.
End Device.

Record DeviceContext : Type := mkContext {
  device : Device.t;
  activity : ActivityState.t;
  meta : ContextMeta.t
}.

Inductive Action : Type := Push | Drop | Defer | Ambiguous.

Module FilterDecision.
Record t : Type := mk {
  action : Action;
  reason : string
}.
End FilterDecision.

(** An entry of the event log; [decision] is never [Ambiguous] there. *)
Module EventLogEntry.
Record t : Type := mk {
  event : DeviceEvent;
  decision : Action;
  reason : string;
  timestamp : num
}.
End EventLogEntry.

(** ** Context store ([src/context.ts]) *)

Module ContextManager.

Definition empty : DeviceContext :=
  {| device := {| Device.battery := None;
                  Device.location := None;
                  Device.health := None |};
     activity := {| ActivityState.currentZone := None;
                    ActivityState.zoneEnteredAt := None;
                    ActivityState.lastTransition := None;
                    ActivityState.isStationary := true;
                    ActivityState.stationarySince := None |};
     meta := {| ContextMeta.lastEventAt := JS.ofZ 0;
                ContextMeta.eventsToday := JS.ofZ 0;
                ContextMeta.lastAgentPushAt := JS.ofZ 0;
                ContextMeta.pushesToday := JS.ofZ 0 |} |}.

(** The UTC day of an instant in seconds: [Math.floor(t / 86400)]. *)
Definition utcDay (t : num) : num := JS.floor (JS.div t (JS.ofZ 86400)).

(** The guard of the daily reset:
    [lastDay !== currentDay && this.context.meta.lastEventAt > 0]. *)
Definition rollover (lastEventAt now : num) : bool :=
  negb (JS.strict_eq (utcDay lastEventAt) (utcDay now))
  && JS.gt lastEventAt (JS.ofZ 0).

Definition updateMeta (now : num) (m : ContextMeta.t) : ContextMeta.t :=
  let reset := rollover (ContextMeta.lastEventAt m) now in
  let eventsToday := if reset then JS.ofZ 0 else ContextMeta.eventsToday m in
  let pushesToday := if reset then JS.ofZ 0 else ContextMeta.pushesToday m in
  {| ContextMeta.lastEventAt := now;
     ContextMeta.eventsToday := JS.add eventsToday (JS.ofZ 1);
     ContextMeta.lastAgentPushAt := ContextMeta.lastAgentPushAt m;
     ContextMeta.pushesToday := pushesToday |}.

(** The [device.battery] case. *)
Definition mergeBattery (data : list (string * num)) (now : num)
    (prior : option BatteryState.t) : BatteryState.t :=
  {| BatteryState.level :=
       JS.nullish
         (JS.nullish_opt (prop "level" data) (option_map BatteryState.level prior))
         (JS.ofZ 0);
     BatteryState.state :=
       JS.nullish (option_map BatteryState.state prior) "unknown";
     BatteryState.isLowPowerMode :=
       JS.strict_eq (JS.nullish (prop "isLowPowerMode" data) (JS.ofZ 0)) (JS.ofZ 1);
     BatteryState.updatedAt := JS.nullish (prop "updatedAt" data) now |}.

(** [data.type === 1 ? "enter" : "exit"] *)
Definition isEnter (data : list (string * num)) : bool :=
  match prop "type" data with
  | Some t => JS.strict_eq t (JS.ofZ 1)
  | None => false
  end.

(** [event.metadata?.zoneName ?? null] *)
Definition zoneNameOf (event : DeviceEvent) : option string :=
  match metadata event with
  | Some md => prop "zoneName" md
  | None => None
  end.

(** The enter/exit state machine of the [geofence.triggered] case. *)
Definition applyTransition (event : DeviceEvent) (a : ActivityState.t)
    : ActivityState.t :=
  let now := firedAt event in
  let zoneName := zoneNameOf event in
  let prevZone := ActivityState.currentZone a in
  if isEnter (data event) then
    {| ActivityState.currentZone := zoneName;
       ActivityState.zoneEnteredAt := Some now;
       ActivityState.lastTransition :=
         Some {| Transition.from := prevZone;
                 Transition.to := zoneName;
                 Transition.at_ := now |};
       ActivityState.isStationary := true;
       ActivityState.stationarySince := Some now |}
  else
    {| ActivityState.currentZone := None;
       ActivityState.zoneEnteredAt := None;
       ActivityState.lastTransition :=
         Some {| Transition.from := prevZone;
                 Transition.to := None;
                 Transition.at_ := now |};
       ActivityState.isStationary := false;
       ActivityState.stationarySince := None |}.

(** The refresh of [device.location] in the [geofence.triggered] case;
    [zone] is [activity.currentZone] after the transition. *)
Definition mergeLocation (data : list (string * num)) (now : num)
    (zone : option string) (prior : option LocationState.t) : LocationState.t :=
  {| LocationState.latitude :=
       JS.nullish
         (JS.nullish_opt (prop "latitude" data)
            (option_map LocationState.latitude prior))
         (JS.ofZ 0);
     LocationState.longitude :=
       JS.nullish
         (JS.nullish_opt (prop "longitude" data)
            (option_map LocationState.longitude prior))
         (JS.ofZ 0);
     LocationState.horizontalAccuracy :=
       JS.nullish (option_map LocationState.horizontalAccuracy prior) (JS.ofZ 0);
     LocationState.label := zone;
     LocationState.updatedAt := JS.nullish (prop "timestamp" data) now |}.

(** [data.f ?? this.context.device.health?.f ?? null] *)
Definition mergeMetric (k : string) (get : HealthState.t -> option num)
    (data : list (string * num)) (prior : option HealthState.t) : option num :=
  JS.nullish_opt (prop k data)
    (match prior with Some h => get h | None => None end).

(** The health case of the default branch. *)
Definition mergeHealth (data : list (string * num)) (now : num)
    (prior : option HealthState.t) : HealthState.t :=
  {| HealthState.stepsToday :=
       mergeMetric "stepsToday" HealthState.stepsToday data prior;
     HealthState.distanceMeters :=
       mergeMetric "distanceMeters" HealthState.distanceMeters data prior;
     HealthState.heartRateAvg :=
       mergeMetric "heartRateAvg" HealthState.heartRateAvg data prior;
     HealthState.restingHeartRate :=
       mergeMetric "restingHeartRate" HealthState.restingHeartRate data prior;
     HealthState.hrv := mergeMetric "hrv" HealthState.hrv data prior;
     HealthState.activeEnergyKcal :=
       mergeMetric "activeEnergyKcal" HealthState.activeEnergyKcal data prior;
     HealthState.sleepDurationSeconds :=
       mergeMetric "sleepDurationSeconds" HealthState.sleepDurationSeconds data prior;
     HealthState.updatedAt := JS.nullish (prop "updatedAt" data) now |}.

(** [updateFromEvent(event)]: the context after the event. *)
Definition updateFromEvent (event : DeviceEvent) (context : DeviceContext)
    : DeviceContext :=
  let now := firedAt event in
  let data := data event in
  let meta' := updateMeta now (meta context) in
  let dev := device context in
  if String.eqb (source event) "device.battery" then
    {| device := {| Device.battery := Some (mergeBattery data now (Device.battery dev));
                    Device.location := Device.location dev;
                    Device.health := Device.health dev |};
       activity := activity context;
       meta := meta' |}
  else if String.eqb (source event) "geofence.triggered" then
    let activity' := applyTransition event (activity context) in
    {| device := {| Device.battery := Device.battery dev;
                    Device.location :=
                      Some (mergeLocation data now
                              (ActivityState.currentZone activity')
                              (Device.location dev));
                    Device.health := Device.health dev |};
       activity := activity';
       meta := meta' |}
  else if Str.startsWith "health" (source event) then
    {| device := {| Device.battery := Device.battery dev;
                    Device.location := Device.location dev;
                    Device.health := Some (mergeHealth data now (Device.health dev)) |};
       activity := activity context;
       meta := meta' |}
  else
    {| device := dev; activity := activity context; meta := meta' |}.

(** [recordPush()], with [now] the reading of [Date.now() / 1000]. *)
Definition recordPush (now : num) (context : DeviceContext) : DeviceContext :=
  {| device := device context;
     activity := activity context;
     meta := {| ContextMeta.lastEventAt := ContextMeta.lastEventAt (meta context);
                ContextMeta.eventsToday := ContextMeta.eventsToday (meta context);
                ContextMeta.lastAgentPushAt := now;
                ContextMeta.pushesToday :=
                  JS.add (ContextMeta.pushesToday (meta context)) (JS.ofZ 1) |} |}.

End ContextManager.

(** ** Local time of a [Date] *)

Module Date.

(** The offset of local time from UTC, in milliseconds, at an instant
    given in milliseconds since the epoch.  It belongs to the host. *)
Definition TimeZone : Type := Z -> Z.

Definition UTC : TimeZone := fun _ => 0%Z.

Definition Qtrunc (q : Q) : Z :=
  if (Qnum q <? 0)%Z then Qceiling q else Qfloor q.

(** The time value of [new Date(t)]: [None] for an invalid date. *)
Definition timeClip (t : num) : option Z :=
  match t with
  | JS.Fin q =>
      let z := Qtrunc q in
      if (Z.abs z <=? 8640000000000000)%Z then Some z else None
  | _ => None
  end.

Definition localTime (tz : TimeZone) (ms : Z) : Z := (ms + tz ms)%Z.

Definition getHours (tz : TimeZone) (t : num) : num :=
  match timeClip t with
  | Some ms => JS.ofZ ((localTime tz ms mod 86400000) / 3600000)
  | None => JS.NaN
  end.

Definition getMinutes (tz : TimeZone) (t : num) : num :=
  match timeClip t with
  | Some ms => JS.ofZ ((localTime tz ms mod 3600000) / 60000)
  | None => JS.NaN
  end.

(** Day of the week, 0 for Sunday; the epoch fell on a Thursday. *)
Definition getDay (tz : TimeZone) (t : num) : num :=
  match timeClip t with
  | Some ms => JS.ofZ ((localTime tz ms / 86400000 + 4) mod 7)
  | None => JS.NaN
  end.

End Date.

(** ** Rules engine ([src/filter.ts]) *)

Module RulesEngine.

(** [DEDUP_COOLDOWN], in seconds. *)
Definition DEDUP_COOLDOWN : list (string * num) :=
  [ ("default.battery-low", JS.ofZ 3600);
    ("default.battery-critical", JS.ofZ 1800);
    ("default.daily-health", JS.ofZ 82800);
    ("default.geofence", JS.ofZ 300) ].

Definition DEFAULT_COOLDOWN : num := JS.ofZ 1800.

(** [DEDUP_COOLDOWN[subscriptionId] ?? DEFAULT_COOLDOWN], as the number
    that the comparison of the dedup guard reads.  The table is an object
    literal: for a subscription that names a member inherited from
    [Object.prototype] the lookup gives a function or an object, which is
    not nullish, so that the default does not apply, and which [<]
    converts to NaN. *)
Definition cooldownOf (subscriptionId : string) : num :=
  match prop subscriptionId DEDUP_COOLDOWN with
  | Some cooldown => cooldown
  | None => if JS.inherited subscriptionId then JS.NaN else DEFAULT_COOLDOWN
  end.

Record t : Type := mk {
  lastFired : gmap string num;
  pushBudget : num
}.

(** [new RulesEngine(pushBudget)] *)
Definition create (pushBudget : num) : t :=
  {| lastFired := ∅; pushBudget := pushBudget |}.

(** [event.data._debugFired === 1.0] *)
Definition isDebug (event : DeviceEvent) : bool :=
  match prop "_debugFired" (data event) with
  | Some v => JS.strict_eq v (JS.ofZ 1)
  | None => false
  end.

(** The guard of the dedup rule, for a recorded [lastFiredAt]:
    [lastFiredAt && event.firedAt - lastFiredAt < cooldown]. *)
Definition inCooldown (event : DeviceEvent) (lastFiredAt : num) : bool :=
  JS.truthy lastFiredAt
  && JS.lt (JS.sub (firedAt event) lastFiredAt) (cooldownOf (subscriptionId event)).

(** The reason of a dedup drop.  It is built only when the guard holds,
    and then the cooldown is a number. *)
Definition dedupReason (event : DeviceEvent) (lastFiredAt : num) : string :=
  "dedup: " ++ subscriptionId event ++ " fired "
  ++ Number.toString (JS.round (JS.sub (firedAt event) lastFiredAt))
  ++ "s ago (cooldown: "
  ++ Number.toString (cooldownOf (subscriptionId event)) ++ "s)".

(** The battery-low rule: has the level moved by 0.02 or more? *)
Definition levelUnchanged (currentLevel lastLevel : option num) : bool :=
  match lastLevel, currentLevel with
  | Some l, Some c => JS.lt (JS.abs (JS.sub c l)) (JS.Fin (2 # 100))
  | _, _ => false
  end.

(** The rules after the dedup check, in their order. *)
Definition evaluateRules (tz : Date.TimeZone) (self : t)
    (event : DeviceEvent) (context : DeviceContext) : FilterDecision.t :=
  if String.eqb (subscriptionId event) "default.battery-critical" then
    FilterDecision.mk Push "critical battery — always push"
  else if String.eqb (source event) "geofence.triggered" then
    FilterDecision.mk Push "geofence event — always push"
  else if String.eqb (subscriptionId event) "default.battery-low" then
    let currentLevel := prop "level" (data event) in
    let lastLevel := option_map BatteryState.level (Device.battery (device context)) in
    if levelUnchanged currentLevel lastLevel then
      FilterDecision.mk Drop "battery-low: level unchanged since last push"
    else FilterDecision.mk Push "battery low — level changed"
  else if String.eqb (subscriptionId event) "default.daily-health" then
    let hour := Date.getHours tz (JS.mul (firedAt event) (JS.ofZ 1000)) in
    if JS.ge hour (JS.ofZ 6) && JS.le hour (JS.ofZ 10) then
      FilterDecision.mk Push "daily health summary — within morning window"
    else FilterDecision.mk Defer "daily health summary — outside morning window"
  else if JS.ge (ContextMeta.pushesToday (meta context)) (pushBudget self) then
    FilterDecision.mk Drop
      ("push budget exhausted ("
       ++ Number.toString (ContextMeta.pushesToday (meta context)) ++ "/"
       ++ Number.toString (pushBudget self) ++ " today)")
  else FilterDecision.mk Ambiguous "no rule matched — forward to LLM judgment".

(** [evaluate(event, context)] *)
Definition evaluate (tz : Date.TimeZone) (self : t)
    (event : DeviceEvent) (context : DeviceContext) : FilterDecision.t :=
  if isDebug event then FilterDecision.mk Push "debug event — always push"
  else
    match lastFired self !! subscriptionId event with
    | Some lastFiredAt =>
        if inCooldown event lastFiredAt then
          FilterDecision.mk Drop (dedupReason event lastFiredAt)
        else evaluateRules tz self event context
    | None => evaluateRules tz self event context
    end.

(** [recordFired(subscriptionId, firedAt)] *)
Definition recordFired (subscriptionId : string) (firedAt : num) (self : t) : t :=
  {| lastFired := <[subscriptionId := firedAt]> (lastFired self);
     pushBudget := pushBudget self |}.

(** One step of the loop of [restoreCooldowns]. *)
Definition restoreOne (self : t) (entry : string * num) : t :=
  let (subscriptionId, firedAt) := entry in
  match lastFired self !! subscriptionId with
  | Some existing =>
      if negb (JS.truthy existing) || JS.gt firedAt existing
      then recordFired subscriptionId firedAt self
      else self
  | None => recordFired subscriptionId firedAt self
  end.

(** [restoreCooldowns(entries)] *)
Definition restoreCooldowns (entries : list (string * num)) (self : t) : t :=
  fold_left restoreOne entries self.

End RulesEngine.

(** ** Serialisation of the context and of an event *)

Module Encode.

Definition optNum (o : option num) : JSON.value := JSON.ofOption JSON.Num o.
Definition optStr (o : option string) : JSON.value := JSON.ofOption JSON.Str o.

Definition battery (b : BatteryState.t) : JSON.value :=
  JSON.Obj [ ("level", JSON.Num (BatteryState.level b));
             ("state", JSON.Str (BatteryState.state b));
             ("isLowPowerMode", JSON.Bool (BatteryState.isLowPowerMode b));
             ("updatedAt", JSON.Num (BatteryState.updatedAt b)) ].

Definition location (l : LocationState.t) : JSON.value :=
  JSON.Obj [ ("latitude", JSON.Num (LocationState.latitude l));
             ("longitude", JSON.Num (LocationState.longitude l));
             ("horizontalAccuracy", JSON.Num (LocationState.horizontalAccuracy l));
             ("label", optStr (LocationState.label l));
             ("updatedAt", JSON.Num (LocationState.updatedAt l)) ].

Definition health (h : HealthState.t) : JSON.value :=
  JSON.Obj [ ("stepsToday", optNum (HealthState.stepsToday h));
             ("distanceMeters", optNum (HealthState.distanceMeters h));
             ("heartRateAvg", optNum (HealthState.heartRateAvg h));
             ("restingHeartRate", optNum (HealthState.restingHeartRate h));
             ("hrv", optNum (HealthState.hrv h));
             ("activeEnergyKcal", optNum (HealthState.activeEnergyKcal h));
             ("sleepDurationSeconds", optNum (HealthState.sleepDurationSeconds h));
             ("updatedAt", JSON.Num (HealthState.updatedAt h)) ].

Definition transition (t : Transition.t) : JSON.value :=
  JSON.Obj [ ("from", optStr (Transition.from t));
             ("to", optStr (Transition.to t));
             ("at", JSON.Num (Transition.at_ t)) ].

Definition activityState (a : ActivityState.t) : JSON.value :=
  JSON.Obj [ ("currentZone", optStr (ActivityState.currentZone a));
             ("zoneEnteredAt", optNum (ActivityState.zoneEnteredAt a));
             ("lastTransition", JSON.ofOption transition (ActivityState.lastTransition a));
             ("isStationary", JSON.Bool (ActivityState.isStationary a));
             ("stationarySince", optNum (ActivityState.stationarySince a)) ].

Definition contextMeta (m : ContextMeta.t) : JSON.value :=
  JSON.Obj [ ("lastEventAt", JSON.Num (ContextMeta.lastEventAt m));
             ("eventsToday", JSON.Num (ContextMeta.eventsToday m));
             ("lastAgentPushAt", JSON.Num (ContextMeta.lastAgentPushAt m));
             ("pushesToday", JSON.Num (ContextMeta.pushesToday m)) ].

(** A context whose [device.location] is encoded by [loc]. *)
Definition contextWith (loc : LocationState.t -> JSON.value) (c : DeviceContext)
    : JSON.value :=
  JSON.Obj
    [ ("device",
        JSON.Obj [ ("battery", JSON.ofOption battery (Device.battery (device c)));
                   ("location", JSON.ofOption loc (Device.location (device c)));
                   ("health", JSON.ofOption health (Device.health (device c))) ]);
      ("activity", activityState (activity c));
      ("meta", contextMeta (meta c)) ].

Definition context : DeviceContext -> JSON.value := contextWith location.

Definition numbers (o : list (string * num)) : JSON.value :=
  JSON.Obj (map (fun kv => (fst kv, JSON.Num (snd kv))) o).

Definition strings (o : list (string * string)) : JSON.value :=
  JSON.Obj (map (fun kv => (fst kv, JSON.Str (snd kv))) o).

(** An event; an [undefined] [metadata] is left out by [JSON.stringify]. *)
Definition deviceEvent (e : DeviceEvent) : JSON.value :=
  JSON.Obj
    ([ ("subscriptionId", JSON.Str (subscriptionId e));
       ("source", JSON.Str (source e));
       ("data", numbers (data e)) ]
     ++ match metadata e with
        | Some md => [ ("metadata", strings md) ]
        | None => []
        end
     ++ [ ("firedAt", JSON.Num (firedAt e)) ])%list.

End Encode.

(** ** Logging *)

Inductive LogLine : Type :=
| LogInfo (message : string)
| LogWarn (message : string)
| LogError (message : string).

(** ** Judgment layer ([src/judgment.ts]) *)

Module JudgmentLayer.

Record JudgmentResult : Type := mkResult {
  push : bool;
  reason : string
}.

(** A string literal between double quotes, as it stands in the source. *)
Definition lit (s : string) : string :=
  String Str.dquote (s ++ Str.str Str.dquote).

(** The privacy filter of [buildPrompt]: a location keeps its label
    ([?? "Unknown"]) and [updatedAt] only. *)
Definition sanitizedLocation (l : LocationState.t) : JSON.value :=
  JSON.Obj [ ("label", JSON.Str (JS.nullish (LocationState.label l) "Unknown"));
             ("updatedAt", JSON.Num (LocationState.updatedAt l)) ].

Definition sanitizedContext : DeviceContext -> JSON.value :=
  Encode.contextWith sanitizedLocation.

(** [buildPrompt(event, context, pushesToday, budget)]; [isoNow] is
    [new Date().toISOString()] at the call. *)
Definition buildPrompt (isoNow : string) (event : DeviceEvent)
    (context : DeviceContext) (pushesToday budget : num) : string :=
  Str.join (Str.str Str.newline)
    [ "You are an event triage system for a personal AI assistant.";
      "Given the device context and a new event, decide: should the AI assistant be told about this?";
      EmptyString;
      "Respond with ONLY valid JSON: {" ++ lit "push" ++ ": true/false, "
        ++ lit "reason" ++ ": " ++ lit "one sentence" ++ "}";
      EmptyString;
      "Context: " ++ JSON.stringify (sanitizedContext context);
      "Event: " ++ JSON.stringify (Encode.deviceEvent event);
      "Pushes today: " ++ Number.toString pushesToday ++ " of ~"
        ++ Number.toString budget ++ " budget";
      "Time: " ++ isoNow ].

(** The inner loop of [extractText] over [p.content]. *)
Fixpoint firstText (content : list JSON.value) : option string :=
  match content with
  | [] => None
  | c :: rest =>
      match JSON.field "text" c with
      | Some (JSON.Str s) => Some s
      | _ => firstText rest
      end
  end.

(** What one payload contributes to [extractText]. *)
Definition payloadText (p : JSON.value) : option string :=
  match p with
  | JSON.Str s => Some s
  | JSON.Obj fields =>
      match prop "text" fields with
      | Some (JSON.Str s) => Some s
      | _ =>
          match prop "content" fields with
          | Some (JSON.Arr content) => firstText content
          | _ => None
          end
      end
  | _ => None
  end.

(** [extractText(payloads)] *)
Fixpoint extractText (payloads : list JSON.value) : string :=
  match payloads with
  | [] => EmptyString
  | p :: rest =>
      match payloadText p with
      | Some s => s
      | None => extractText rest
      end
  end.

Definition fence : string :=
  String Str.backtick (String Str.backtick (Str.str Str.backtick)).

(** The first [replace] of the reply, of [/^```(?:json)?\s*/i] by the
    empty string: an opening fence, an optional [json] in any case and
    the white space after it. *)
Definition stripOpeningFence (text : string) : string :=
  if String.prefix fence text then
    let rest := Str.drop 3 text in
    let rest :=
      if String.prefix "json" (Str.lowercase (String.substring 0 4 rest))
      then Str.drop 4 rest else rest in
    Str.trimStart rest
  else text.

(** The second [replace], of [/\s*```$/i] by the empty string: a fence
    that ends the text, and the white space before it. *)
Definition stripClosingFence (text : string) : string :=
  let r := Str.rev text in
  if String.prefix fence r then Str.rev (Str.trimStart (Str.drop 3 r))
  else text.

Definition cleanReply (text : string) : string :=
  Str.trim (stripClosingFence (stripOpeningFence text)).

(** What happens between [fs.mkdtemp] and the [await] of
    [runEmbeddedPiAgent]: a step throws (the message of the error is
    kept), or the run resolves with its [payloads], absent or a list. *)
Inductive LlmRun : Type :=
| MkdtempThrows (message : string)
| LoaderThrows (message : string)
| RunThrows (message : string)
| RunResolves (payloads : option (list JSON.value)).

(** The LLM transport: the outcome for a prompt, a provider and a model. *)
Definition Runner : Type := string -> string -> string -> LlmRun.

Record Config : Type := mkConfig {
  llmModel : string;
  pushBudgetPerDay : num
}.

(** [const [provider, ...modelParts] = llmModel.split("/")] *)
Definition provider (llmModel : string) : string :=
  hd EmptyString (Str.split "/" llmModel).

(** [modelParts.join("/")] *)
Definition model (llmModel : string) : string :=
  Str.join "/" (tl (Str.split "/" llmModel)).

Definition failOpen (r : string) : JudgmentResult :=
  {| push := true; reason := r |}.

Section Evaluate.

(** [JSON.parse]: [None] when it throws a [SyntaxError]. *)
Variable JSON_parse : string -> option JSON.value.

(** The inner [try] block: parse the cleaned reply and read [push]
    and [reason]; reading a property of [null] throws inside it. *)
Definition readReply (cleaned : string) : option JudgmentResult :=
  match JSON_parse cleaned with
  | None => None
  | Some JSON.Null => None
  | Some parsed =>
      Some {| push :=
                match JSON.field "push" parsed with
                | Some (JSON.Bool true) => true
                | _ => false
                end;
              reason :=
                match JSON.field "reason" parsed with
                | Some (JSON.Str r) => r
                | _ => "no reason given"
                end |}
  end.

(** [evaluate(event, context)], with the lines it logs. *)
Definition evaluate (config : Config) (run : Runner) (isoNow : string)
    (event : DeviceEvent) (context : DeviceContext)
    : JudgmentResult * list LogLine :=
  let prompt :=
    buildPrompt isoNow event context
      (ContextMeta.pushesToday (meta context)) (pushBudgetPerDay config) in
  let provider := provider (llmModel config) in
  let model := model (llmModel config) in
  if Str.isEmpty provider || Str.isEmpty model then
    (failOpen "llm model not configured — fail open",
     [LogWarn "betterclaw: invalid llmModel config, defaulting to push"])
  else
    match run prompt provider model with
    | MkdtempThrows msg | LoaderThrows msg | RunThrows msg =>
        (failOpen "llm call failed — fail open",
         [LogError ("betterclaw: judgment call failed: " ++ msg)])
    | RunResolves payloads =>
        let text := extractText (JS.nullish payloads []) in
        if Str.isEmpty text then
          (failOpen "llm returned empty — fail open",
           [LogWarn "betterclaw: LLM returned empty output, defaulting to push"])
        else
          match readReply (cleanReply text) with
          | Some result => (result, [])
          | None =>
              (failOpen "llm returned invalid json — fail open",
               [LogWarn ("betterclaw: LLM returned invalid JSON: "
                         ++ String.substring 0 200 text)])
          end
    end.

End Evaluate.

End JudgmentLayer.

(** ** Pipeline ([src/pipeline.ts]) *)

Module Pipeline.

(** The outcome of [runCommandWithTimeout]: it resolves with an exit
    code and what was read on [stderr], or it throws. *)
Inductive CommandOutcome : Type :=
| Exited (code : num) (stderr : option string)
| CommandThrows (message : string).

(** What a run does to the world outside the process state, in order. *)
Inductive Effect : Type :=
| AppendLog (entry : EventLogEntry.t)
| RunCommand (argv : list string)
| SaveContext (context : DeviceContext)
| Logged (line : LogLine).

(** [["openclaw", "agent", "--session-id", "main", "--deliver",
     "--channel", "telegram", "--message", message]] *)
Definition deliveryCommand (message : string) : list string :=
  [ "openclaw"; "agent"; "--session-id"; "main"; "--deliver";
    "--channel"; "telegram"; "--message"; message ].

(** The message of the error raised for a command that resolved. *)
Definition exitError (code : num) (stderr : option string) : string :=
  "agent command exited " ++ Number.toString code ++ ": "
  ++ match stderr with
     | Some e => String.substring 0 200 e
     | None => "undefined"
     end.

(** [None] when the command exited with code 0, else the message of
    the error that reaches the [catch]. *)
Definition deliveryError (o : CommandOutcome) : option string :=
  match o with
  | Exited code stderr =>
      if JS.strict_eq code (JS.ofZ 0) then None else Some (exitError code stderr)
  | CommandThrows msg => Some msg
  end.

Definition actionName (a : Action) : string :=
  match a with
  | Push => "push"
  | Drop => "drop"
  | Defer => "defer"
  | Ambiguous => "ambiguous"
  end.

(** What the host and the outside world decide during one run. *)
Record Env : Type := mkEnv {
  tz : Date.TimeZone;
  isoNow : string;                      (* [new Date().toISOString()] *)
  run : JudgmentLayer.Runner;
  nowAppend : num;                      (* [Date.now() / 1000] at the append *)
  nowPush : num;                        (* [Date.now() / 1000] in [recordPush] *)
  deliver : list string -> CommandOutcome
}.

(** The state the pipeline owns: the context store and the rules engine. *)
Record State : Type := mkState {
  context : DeviceContext;
  rules : RulesEngine.t
}.

Section ProcessEvent.

Variable JSON_parse : string -> option JSON.value.
Variable config : JudgmentLayer.Config.

(** [formatEnrichedMessage(event, context)]: the text handed to the
    agent.  Its wording is kept abstract. *)
Variable formatEnrichedMessage : DeviceEvent -> DeviceContext -> string.

(** Steps 2 and 3: the rules, then the judgment of an ambiguous event.
    [context] is the context after [updateFromEvent]. *)
Definition decide (env : Env) (rules : RulesEngine.t) (event : DeviceEvent)
    (context : DeviceContext) : FilterDecision.t * list LogLine :=
  let decision := RulesEngine.evaluate (tz env) rules event context in
  match FilterDecision.action decision with
  | Ambiguous =>
      let (result, logs) :=
        JudgmentLayer.evaluate JSON_parse config (run env) (isoNow env)
          event context in
      (FilterDecision.mk
         (if JudgmentLayer.push result then Push else Drop)
         ("llm: " ++ JudgmentLayer.reason result),
       logs)
  | _ => (decision, [])
  end.

(** The decision as the log keeps it. *)
Definition logged (a : Action) : Action :=
  match a with
  | Push => Push
  | Defer => Defer
  | _ => Drop
  end.

(** [processEvent(deps, event)] *)
Definition processEvent (env : Env) (st : State) (event : DeviceEvent)
    : State * list Effect :=
  let context1 := ContextManager.updateFromEvent event (context st) in
  let (decision, judgmentLogs) := decide env (rules st) event context1 in
  let entry :=
    {| EventLogEntry.event := event;
       EventLogEntry.decision := logged (FilterDecision.action decision);
       EventLogEntry.reason := FilterDecision.reason decision;
       EventLogEntry.timestamp := nowAppend env |} in
  let before := (map Logged judgmentLogs ++ [AppendLog entry])%list in
  match FilterDecision.action decision with
  | Push =>
      let rules' :=
        RulesEngine.recordFired (subscriptionId event) (firedAt event) (rules st) in
      let context2 := ContextManager.recordPush (nowPush env) context1 in
      let argv := deliveryCommand (formatEnrichedMessage event context2) in
      let line :=
        match deliveryError (deliver env argv) with
        | None =>
            LogInfo ("betterclaw: pushed event " ++ subscriptionId event
                     ++ " to agent")
        | Some msg => LogError ("betterclaw: failed to push to agent: " ++ msg)
        end in
      ({| context := context2; rules := rules' |},
       (before ++ [RunCommand argv; Logged line; SaveContext context2])%list)
  | a =>
      ({| context := context1; rules := rules st |},
       (before
        ++ [Logged (LogInfo ("betterclaw: " ++ actionName a ++ " event "
                             ++ subscriptionId event ++ ": "
                             ++ FilterDecision.reason decision));
            SaveContext context1])%list)
  end.

End ProcessEvent.

End Pipeline.

(** ** Event log ([src/events.ts]) *)

Module EventLog.

Definition MAX_LINES : N := 10000.
Definition MAX_AGE_MS : num := JS.ofZ (30 * 24 * 60 * 60 * 1000).

Definition encodeEntry (e : EventLogEntry.t) : JSON.value :=
  JSON.Obj [ ("event", Encode.deviceEvent (EventLogEntry.event e));
             ("decision", JSON.Str (Pipeline.actionName (EventLogEntry.decision e)));
             ("reason", JSON.Str (EventLogEntry.reason e));
             ("timestamp", JSON.Num (EventLogEntry.timestamp e)) ].

(** [JSON.stringify(entry)] *)
Definition stringifyEntry (e : EventLogEntry.t) : string :=
  JSON.stringify (encodeEntry e).

(** The file [events.jsonl]: absent, or its text. *)
Definition File : Type := option string.

Definition lineBreak : string := Str.str Str.newline.

(** [raw.trim().split("\n").filter((line) => line.length > 0)] *)
Definition linesOf (raw : string) : list string :=
  List.filter (fun line => negb (Str.isEmpty line))
    (Str.split Str.newline (Str.trim raw)).

(** [append(entry)]: the file after the call. *)
Definition append (entry : EventLogEntry.t) (file : File) : File :=
  Some (JS.nullish file EmptyString ++ stringifyEntry entry ++ lineBreak).

(** [count()] *)
Definition count (file : File) : nat :=
  match file with
  | Some raw => length (linesOf raw)
  | None => 0
  end.

(** [entries.slice(-n)] *)
Definition lastN {A : Type} (n : nat) (l : list A) : list A :=
  skipn (length l - n) l.

Section Reading.

(** [JSON.parse(line) as EventLogEntry]: [None] when it throws.  A
    line that parses is taken to have the declared type. *)
Variable parseEntry : string -> option EventLogEntry.t.

Fixpoint parseLines (lines : list string) : option (list EventLogEntry.t) :=
  match lines with
  | [] => Some []
  | line :: rest =>
      match parseEntry line with
      | Some e =>
          match parseLines rest with
          | Some es => Some (e :: es)
          | None => None
          end
      | None => None
      end
  end.

(** [readAll()]: no entries when the file cannot be read or a line
    does not parse. *)
Definition readAll (file : File) : list EventLogEntry.t :=
  match file with
  | Some raw => JS.nullish (parseLines (linesOf raw)) []
  | None => []
  end.

(** [readSince(sinceEpoch)] *)
Definition readSince (sinceEpoch : num) (file : File) : list EventLogEntry.t :=
  List.filter (fun e => JS.ge (EventLogEntry.timestamp e) sinceEpoch)
    (readAll file).

(** [Date.now() / 1000 - MAX_AGE_MS / 1000], for [nowMs] the reading
    of [Date.now()]. *)
Definition cutoff (nowMs : num) : num :=
  JS.sub (JS.div nowMs (JS.ofZ 1000)) (JS.div MAX_AGE_MS (JS.ofZ 1000)).

Definition kept (nowMs : num) (entries : list EventLogEntry.t)
    : list EventLogEntry.t :=
  lastN (N.to_nat MAX_LINES)
    (List.filter (fun e => JS.ge (EventLogEntry.timestamp e) (cutoff nowMs))
       entries).

(** [kept.map((e) => JSON.stringify(e)).join("\n") + "\n"] *)
Definition render (entries : list EventLogEntry.t) : string :=
  Str.join lineBreak (map stringifyEntry entries) ++ lineBreak.

(** [rotate()]: the number it returns and the file after the call. *)
Definition rotate (nowMs : num) (file : File) : nat * File :=
  let entries := readAll file in
  if (N.of_nat (length entries) <=? MAX_LINES)%N then (0, file)
  else
    let kept := kept nowMs entries in
    (length entries - length kept, Some (render kept)).

End Reading.

End EventLog.

(** ** Patterns ([src/types.ts], [src/patterns.ts]) *)

Inductive Trend : Type := Improving | Stable | Declining.

Module LocationRoutine.
Record t : Type := mk {
  zone : string;
  typicalLeave : option string;
  typicalArrive : option string
}.
End LocationRoutine.

Module HealthTrends.
Record t : Type := mk {
  stepsAvg7d : option num;
  stepsAvg30d : option num;
  stepsTrend : option Trend;
  sleepAvg7d : option num;
  sleepTrend : option Trend;
  restingHrAvg7d : option num;
  restingHrTrend : option Trend
}.
End HealthTrends.

Module BatteryPatterns.
Record t : Type := mk {
  avgDrainPerHour : option num;
  typicalChargeTime : option string;
  lowBatteryFrequency : option num
}.
End BatteryPatterns.

Module EventStats.
Record t : Type := mk {
  eventsPerDay7d : num;
  pushesPerDay7d : num;
  dropRate7d : num;
  topSources : list string
}.
End EventStats.

Module Routines.
Record t : Type := mk {
  weekday : list LocationRoutine.t;
  weekend : list LocationRoutine.t
}.
End Routines.

Record Patterns : Type := mkPatterns {
  locationRoutines : Routines.t;
  healthTrends : HealthTrends.t;
  batteryPatterns : BatteryPatterns.t;
  eventStats : EventStats.t;
  triggerCooldowns : gmap string num;
  computedAt : num
}.

(** [emptyPatterns()] *)
Definition emptyPatterns : Patterns :=
  {| locationRoutines := {| Routines.weekday := []; Routines.weekend := [] |};
     healthTrends :=
       {| HealthTrends.stepsAvg7d := None;
          HealthTrends.stepsAvg30d := None;
          HealthTrends.stepsTrend := None;
          HealthTrends.sleepAvg7d := None;
          HealthTrends.sleepTrend := None;
          HealthTrends.restingHrAvg7d := None;
          HealthTrends.restingHrTrend := None |};
     batteryPatterns :=
       {| BatteryPatterns.avgDrainPerHour := None;
          BatteryPatterns.typicalChargeTime := None;
          BatteryPatterns.lowBatteryFrequency := None |};
     eventStats :=
       {| EventStats.eventsPerDay7d := JS.ofZ 0;
          EventStats.pushesPerDay7d := JS.ofZ 0;
          EventStats.dropRate7d := JS.ofZ 0;
          EventStats.topSources := [] |};
     triggerCooldowns := ∅;
     computedAt := JS.ofZ 0 |}.

(** The state directory: the event log and [patterns.json].  The patterns
    document is kept as the value that [JSON.parse] gives back; [None]
    is a file that is absent or does not parse. *)
Record Files : Type := mkFiles {
  eventsFile : EventLog.File;
  patternsFile : option Patterns
}.

Module PatternEngine.

Definition zero : num := JS.ofZ 0.

(** [values.reduce((a, b) => a + b, 0) / values.length], or [null]. *)
Definition average (values : list num) : option num :=
  match values with
  | [] => None
  | _ =>
      Some (JS.div (fold_left JS.add values zero)
                   (JS.ofZ (Z.of_nat (length values))))
  end.

Fixpoint insertBy {A : Type} (cmp : A -> A -> num) (x : A) (l : list A) : list A :=
  match l with
  | [] => [x]
  | y :: rest =>
      if JS.lt (cmp x y) zero then x :: l else y :: insertBy cmp x rest
  end.

(** [l.sort(cmp)], a stable sort. *)
Definition sortBy {A : Type} (cmp : A -> A -> num) (l : list A) : list A :=
  fold_left (fun acc x => insertBy cmp x acc) l [].

(** An element of an array of numbers, [undefined] read as NaN by the
    arithmetic that follows. *)
Definition at_ (l : list num) (i : Z) : num :=
  if (i <? 0)%Z then JS.NaN else nth (Z.to_nat i) l JS.NaN.

Definition median (values : list num) : num :=
  let sorted := sortBy (fun a b => JS.sub a b) values in
  let len := Z.of_nat (length sorted) in
  let mid := (len / 2)%Z in
  if (len mod 2 =? 0)%Z
  then JS.div (JS.add (at_ sorted (mid - 1)) (at_ sorted mid)) (JS.ofZ 2)
  else at_ sorted mid.

Definition formatHour (h : num) : string :=
  let hours := JS.floor h in
  let mins := JS.round (JS.mul (JS.sub h hours) (JS.ofZ 60)) in
  Str.padStart2 (Number.toString hours) ++ ":" ++ Str.padStart2 (Number.toString mins).

Definition computeTrend (recent baseline : option num) : option Trend :=
  match recent, baseline with
  | Some r, Some b =>
      let ratio := JS.div r b in
      if JS.gt ratio (JS.Fin (11 # 10)) then Some Improving
      else if JS.lt ratio (JS.Fin (9 # 10)) then Some Declining
      else Some Stable
  | _, _ => None
  end.

Definition computeInverseTrend (recent baseline : option num) : option Trend :=
  match recent, baseline with
  | Some r, Some b =>
      let ratio := JS.div r b in
      if JS.lt ratio (JS.Fin (9 # 10)) then Some Improving
      else if JS.gt ratio (JS.Fin (11 # 10)) then Some Declining
      else Some Stable
  | _, _ => None
  end.

(** A [Map] from zone to its arrival and departure hours, in insertion
    order. *)
Definition Zones : Type := list (string * (list num * list num)).

Fixpoint record (zone : string) (enter : bool) (hour : num) (zones : Zones) : Zones :=
  match zones with
  | [] => [(zone, if enter then ([hour], []) else ([], [hour]))]
  | (z, (arrives, leaves)) :: rest =>
      if String.eqb z zone
      then (z, if enter then ((arrives ++ [hour])%list, leaves)
               else (arrives, (leaves ++ [hour])%list)) :: rest
      else (z, (arrives, leaves)) :: record zone enter hour rest
  end.

Definition formatRoutines (zones : Zones) : list LocationRoutine.t :=
  map (fun zd =>
         let '(zone, (arrives, leaves)) := zd in
         {| LocationRoutine.zone := zone;
            LocationRoutine.typicalArrive :=
              match arrives with [] => None | _ => Some (formatHour (median arrives)) end;
            LocationRoutine.typicalLeave :=
              match leaves with [] => None | _ => Some (formatHour (median leaves)) end |})
      zones.

Definition isGeofence (e : EventLogEntry.t) : bool :=
  String.eqb (source (EventLogEntry.event e)) "geofence.triggered".

Definition isHealth (e : EventLogEntry.t) : bool :=
  Str.startsWith "health" (source (EventLogEntry.event e)).

Definition computeLocationRoutines (tz : Date.TimeZone)
    (entries : list EventLogEntry.t) : Routines.t :=
  let step (acc : Zones * Zones) (entry : EventLogEntry.t) : Zones * Zones :=
    let ev := EventLogEntry.event entry in
    let date := JS.mul (firedAt ev) (JS.ofZ 1000) in
    let day := Date.getDay tz date in
    let isWeekend := JS.strict_eq day (JS.ofZ 0) || JS.strict_eq day (JS.ofZ 6) in
    let hour := JS.add (Date.getHours tz date)
                       (JS.div (Date.getMinutes tz date) (JS.ofZ 60)) in
    let enter := ContextManager.isEnter (data ev) in
    let zone :=
      JS.nullish (match metadata ev with Some md => prop "zoneName" md | None => None end)
                 "Unknown" in
    let (weekdayZones, weekendZones) := acc in
    if isWeekend then (weekdayZones, record zone enter hour weekendZones)
    else (record zone enter hour weekdayZones, weekendZones) in
  let (weekdayZones, weekendZones) :=
    fold_left step (List.filter isGeofence entries) ([], []) in
  {| Routines.weekday := formatRoutines weekdayZones;
     Routines.weekend := formatRoutines weekendZones |}.

(** [events.map((e) => e.event.data[k]).filter((v) => v != null)] *)
Definition metricValues (k : string) (events : list EventLogEntry.t) : list num :=
  omap (fun e => prop k (data (EventLogEntry.event e))) events.

(** [now] is the reading of [Date.now() / 1000]. *)
Definition computeHealthTrends (now : num) (entries : list EventLogEntry.t)
    : HealthTrends.t :=
  let healthEvents := List.filter isHealth entries in
  let since := JS.sub now (JS.ofZ (7 * 86400)) in
  let last7d :=
    List.filter (fun e => JS.ge (firedAt (EventLogEntry.event e)) since) healthEvents in
  let last30d := healthEvents in
  let stepsAvg7d := average (metricValues "stepsToday" last7d) in
  let stepsAvg30d := average (metricValues "stepsToday" last30d) in
  let sleepAvg7d := average (metricValues "sleepDurationSeconds" last7d) in
  let sleepAvg30d := average (metricValues "sleepDurationSeconds" last30d) in
  let rhrAvg7d := average (metricValues "restingHeartRate" last7d) in
  let rhrAvg30d := average (metricValues "restingHeartRate" last30d) in
  {| HealthTrends.stepsAvg7d := stepsAvg7d;
     HealthTrends.stepsAvg30d := stepsAvg30d;
     HealthTrends.stepsTrend := computeTrend stepsAvg7d stepsAvg30d;
     HealthTrends.sleepAvg7d := sleepAvg7d;
     HealthTrends.sleepTrend := computeTrend sleepAvg7d sleepAvg30d;
     HealthTrends.restingHrAvg7d := rhrAvg7d;
     HealthTrends.restingHrTrend := computeInverseTrend rhrAvg7d rhrAvg30d |}.

Definition isLowBattery (e : EventLogEntry.t) : bool :=
  String.eqb (subscriptionId (EventLogEntry.event e)) "default.battery-low"
  || String.eqb (subscriptionId (EventLogEntry.event e)) "default.battery-critical".

Definition computeBatteryPatterns (entries : list EventLogEntry.t)
    : BatteryPatterns.t :=
  let daySpan :=
    match entries with
    | [] => JS.ofZ 1
    | first :: _ =>
        JS.max (JS.ofZ 1)
          (JS.div (JS.sub (EventLogEntry.timestamp (List.last entries first))
                          (EventLogEntry.timestamp first))
                  (JS.ofZ 86400))
    end in
  {| BatteryPatterns.avgDrainPerHour := None;
     BatteryPatterns.typicalChargeTime := None;
     BatteryPatterns.lowBatteryFrequency :=
       Some (JS.div (JS.ofZ (Z.of_nat (length (List.filter isLowBattery entries))))
                    daySpan) |}.

(** The count of each source, in the order of first occurrence. *)
Fixpoint bump (src : string) (counts : list (string * Z)) : list (string * Z) :=
  match counts with
  | [] => [(src, 1%Z)]
  | (s, n) :: rest =>
      if String.eqb s src then (s, (n + 1)%Z) :: rest else (s, n) :: bump src rest
  end.

Definition isDecision (a : Action) (e : EventLogEntry.t) : bool :=
  match a, EventLogEntry.decision e with
  | Push, Push | Drop, Drop | Defer, Defer | Ambiguous, Ambiguous => true
  | _, _ => false
  end.

Definition computeEventStats (now : num) (entries : list EventLogEntry.t)
    : EventStats.t :=
  let since := JS.sub now (JS.ofZ (7 * 86400)) in
  let last7d := List.filter (fun e => JS.ge (EventLogEntry.timestamp e) since) entries in
  let days := JS.max (JS.ofZ 1) (JS.ofZ 7) in
  let pushes := List.filter (isDecision Push) last7d in
  let drops := List.filter (isDecision Drop) last7d in
  let sourceCounts :=
    fold_left (fun acc e => bump (source (EventLogEntry.event e)) acc) last7d [] in
  let topSources :=
    map fst
      (firstn 5
         (sortBy (fun a b => JS.sub (JS.ofZ (snd b)) (JS.ofZ (snd a))) sourceCounts)) in
  let size (l : list EventLogEntry.t) := JS.ofZ (Z.of_nat (length l)) in
  {| EventStats.eventsPerDay7d := JS.div (size last7d) days;
     EventStats.pushesPerDay7d := JS.div (size pushes) days;
     EventStats.dropRate7d :=
       match last7d with
       | [] => JS.ofZ 0
       | _ => JS.div (size drops) (size last7d)
       end;
     EventStats.topSources := topSources |}.

(** The readings of [Date.now()], in milliseconds, during one
    [compute], and the zone of the host. *)
Record Env : Type := mkEnv {
  tz : Date.TimeZone;
  nowWindow : num;
  nowHealth : num;
  nowStats : num;
  nowComputed : num;
  nowRotate : num
}.

Definition seconds (nowMs : num) : num := JS.div nowMs (JS.ofZ 1000).

Section Compute.

Variable parseEntry : string -> option EventLogEntry.t.
Variable windowDays : num.

(** The document that [compute] builds from the entries of the window
    and the document it read. *)
Definition build (env : Env) (entries : list EventLogEntry.t)
    (existing : Patterns) : Patterns :=
  {| locationRoutines := computeLocationRoutines (tz env) entries;
     healthTrends := computeHealthTrends (seconds (nowHealth env)) entries;
     batteryPatterns := computeBatteryPatterns entries;
     eventStats := computeEventStats (seconds (nowStats env)) entries;
     triggerCooldowns := triggerCooldowns existing;
     computedAt := seconds (nowComputed env) |}.

(** [compute()]: the document it writes and returns, and the files
    after the write and the rotation of the log. *)
Definition compute (env : Env) (files : Files) : Patterns * Files :=
  let windowStart :=
    JS.sub (seconds (nowWindow env)) (JS.mul windowDays (JS.ofZ 86400)) in
  let entries := EventLog.readSince parseEntry windowStart (eventsFile files) in
  let existing := JS.nullish (patternsFile files) emptyPatterns in
  let patterns := build env entries existing in
  let (_, eventsFile') :=
    EventLog.rotate parseEntry (nowRotate env) (eventsFile files) in
  (patterns, {| eventsFile := eventsFile'; patternsFile := Some patterns |}).

End Compute.

End PatternEngine.

(** ** Proactive engine ([src/triggers.ts]) *)

Module ProactiveEngine.

Inductive Priority : Type := Low | Normal | High.

Record TriggerResult : Type := mkResult {
  id : string;
  message : string;
  priority : Priority
}.

(** What a check reads from the host: the zone, the time value of
    [new Date()] in milliseconds (one reading for a check) and
    [Number.prototype.toLocaleString] of the host's locale. *)
Record Host : Type := mkHost {
  tz : Date.TimeZone;
  now : num;
  toLocaleString : num -> string
}.

Definition TriggerCheck : Type :=
  Host -> DeviceContext -> Patterns -> option TriggerResult.

Inductive Schedule : Type := Hourly | Daily | Weekly.

Record Trigger : Type := mkTrigger {
  trigger_id : string;
  schedule : Schedule;
  check : TriggerCheck
}.

(** [TRIGGER_COOLDOWNS], in seconds. *)
Definition TRIGGER_COOLDOWNS : list (string * num) :=
  [ ("low-battery-away", JS.ofZ (4 * 3600));
    ("unusual-inactivity", JS.ofZ (6 * 3600));
    ("sleep-deficit", JS.ofZ (24 * 3600));
    ("routine-deviation", JS.ofZ (4 * 3600));
    ("health-weekly-digest", JS.ofZ (7 * 86400)) ].

Definition show : num -> string := Number.toString.

Definition lowBatteryAway : TriggerCheck := fun host ctx patterns =>
  match Device.battery (device ctx) with
  | None => None
  | Some battery =>
      let level := BatteryState.level battery in
      if JS.ge level (JS.Fin (3 # 10)) then None
      else if match ActivityState.currentZone (activity ctx) with
              | Some z => String.eqb z "Home"
              | None => false
              end then None
      else
        let drain :=
          JS.nullish (BatteryPatterns.avgDrainPerHour (batteryPatterns patterns))
                     (JS.Fin (4 # 100)) in
        let hoursRemaining :=
          if JS.gt drain (JS.ofZ 0) then JS.round (JS.div level drain) else JS.ofZ 0 in
        Some {| id := "low-battery-away";
                message :=
                  "🔋 Battery at " ++ show (JS.round (JS.mul level (JS.ofZ 100)))
                  ++ "%, draining ~" ++ show (JS.round (JS.mul drain (JS.ofZ 100)))
                  ++ "%/hr. You're away from home — estimated "
                  ++ show hoursRemaining ++ "h remaining. Consider charging.";
                priority := if JS.lt level (JS.Fin (15 # 100)) then High else Normal |}
  end.

Definition unusualInactivity : TriggerCheck := fun host ctx patterns =>
  let hour := Date.getHours (tz host) (now host) in
  if JS.lt hour (JS.ofZ 12) then None
  else
    match
      match Device.health (device ctx) with
      | Some h => HealthState.stepsToday h
      | None => None
      end,
      HealthTrends.stepsAvg7d (healthTrends patterns)
    with
    | Some steps, Some avg =>
        let expectedByNow := JS.mul avg (JS.div hour (JS.ofZ 24)) in
        if JS.ge steps (JS.mul expectedByNow (JS.Fin (1 # 2))) then None
        else
          Some {| id := "unusual-inactivity";
                  message :=
                    "🚶 It's " ++ show hour ++ ":00 and you've done "
                    ++ toLocaleString host (JS.round steps) ++ " steps (usually ~"
                    ++ toLocaleString host (JS.round expectedByNow)
                    ++ " by now). Everything okay?";
                  priority := Low |}
    | _, _ => None
    end.

(** [h]h[m]m for a duration in seconds, as the sleep messages print it. *)
Definition hoursMinutes (secs : num) : string :=
  show (JS.floor (JS.div secs (JS.ofZ 3600))) ++ "h"
  ++ show (JS.round (JS.div (JS.rem secs (JS.ofZ 3600)) (JS.ofZ 60))) ++ "m".

Definition sleepDeficit : TriggerCheck := fun host ctx patterns =>
  let hour := Date.getHours (tz host) (now host) in
  if JS.lt hour (JS.ofZ 7) || JS.gt hour (JS.ofZ 10) then None
  else
    match
      match Device.health (device ctx) with
      | Some h => HealthState.sleepDurationSeconds h
      | None => None
      end,
      HealthTrends.sleepAvg7d (healthTrends patterns)
    with
    | Some sleep, Some avg =>
        let deficit := JS.sub avg sleep in
        if JS.lt deficit (JS.ofZ 3600) then None
        else
          Some {| id := "sleep-deficit";
                  message :=
                    "😴 You slept " ++ hoursMinutes sleep
                    ++ " last night (your average is " ++ hoursMinutes avg
                    ++ "). Might want to take it easy today.";
                  priority := Low |}
    | _, _ => None
    end.

Definition dayNames : list string :=
  ["Sun"; "Mon"; "Tue"; "Wed"; "Thu"; "Fri"; "Sat"].

(** [const [h, m] = routine.typicalLeave.split(":").map(Number)] and
    [h + m / 60]. *)
Definition leaveHour (typicalLeave : string) : num :=
  let parts := map Number.ofString (Str.split ":" typicalLeave) in
  JS.add (nth 0 parts JS.NaN) (JS.div (nth 1 parts JS.NaN) (JS.ofZ 60)).

Definition dayName (day : num) : string :=
  match day with
  | JS.Fin q => nth (Z.to_nat (Qfloor q)) dayNames "undefined"
  | _ => "undefined"
  end.

(** The loop of [routine-deviation] over the weekday routines. *)
Fixpoint firstDeviation (host : Host) (currentZone : option string) (hour : num)
    (routines : list LocationRoutine.t) : option TriggerResult :=
  match routines with
  | [] => None
  | routine :: rest =>
      match LocationRoutine.typicalLeave routine with
      | Some typicalLeave =>
          if Str.isEmpty typicalLeave then firstDeviation host currentZone hour rest
          else if match currentZone with
                  | Some z => String.eqb z (LocationRoutine.zone routine)
                  | None => false
                  end
                  && JS.gt hour (JS.add (leaveHour typicalLeave) (JS.Fin (3 # 2)))
          then
            Some {| id := "routine-deviation";
                    message :=
                      "📅 It's " ++ show (Date.getHours (tz host) (now host)) ++ ":"
                      ++ Str.padStart2 (show (Date.getMinutes (tz host) (now host)))
                      ++ " on " ++ dayName (Date.getDay (tz host) (now host))
                      ++ " and you haven't left " ++ LocationRoutine.zone routine
                      ++ " (usually leave at " ++ typicalLeave
                      ++ "). Just noting in case.";
                    priority := Low |}
          else firstDeviation host currentZone hour rest
      | None => firstDeviation host currentZone hour rest
      end
  end.

Definition routineDeviation : TriggerCheck := fun host ctx patterns =>
  let day := Date.getDay (tz host) (now host) in
  if negb (JS.ge day (JS.ofZ 1) && JS.le day (JS.ofZ 5)) then None
  else
    let hour := JS.add (Date.getHours (tz host) (now host))
                       (JS.div (Date.getMinutes (tz host) (now host)) (JS.ofZ 60)) in
    firstDeviation host (ActivityState.currentZone (activity ctx)) hour
      (Routines.weekday (locationRoutines patterns)).

Definition trendName (t : Trend) : string :=
  match t with
  | Improving => "improving"
  | Stable => "stable"
  | Declining => "declining"
  end.

Definition healthWeeklyDigest : TriggerCheck := fun host ctx patterns =>
  if negb (JS.strict_eq (Date.getDay (tz host) (now host)) (JS.ofZ 0)) then None
  else
    let hour := Date.getHours (tz host) (now host) in
    if JS.lt hour (JS.ofZ 9) || JS.gt hour (JS.ofZ 11) then None
    else
      let trends := healthTrends patterns in
      let stats := eventStats patterns in
      let steps :=
        match HealthTrends.stepsAvg7d trends with
        | Some avg =>
            [ "Avg steps: " ++ toLocaleString host (JS.round avg) ++ "/day"
              ++ match HealthTrends.stepsTrend trends with
                 | Some t => " (" ++ trendName t ++ ")"
                 | None => EmptyString
                 end ]
        | None => []
        end in
      let sleep :=
        match HealthTrends.sleepAvg7d trends with
        | Some avg => [ "Avg sleep: " ++ hoursMinutes avg ]
        | None => []
        end in
      let resting :=
        match HealthTrends.restingHrAvg7d trends with
        | Some avg => [ "Resting HR: " ++ show (JS.round avg) ++ "bpm" ]
        | None => []
        end in
      let events :=
        [ "Events: " ++ Number.toFixed1 (EventStats.eventsPerDay7d stats) ++ "/day, "
          ++ show (JS.round (JS.mul (EventStats.dropRate7d stats) (JS.ofZ 100)))
          ++ "% filtered" ] in
      Some {| id := "health-weekly-digest";
              message :=
                "📊 Weekly health digest" ++ EventLog.lineBreak ++ EventLog.lineBreak
                ++ Str.join EventLog.lineBreak (steps ++ sleep ++ resting ++ events)%list;
              priority := Low |}.

(** The trigger table, in its declared order. *)
Definition triggers : list Trigger :=
  [ mkTrigger "low-battery-away" Hourly lowBatteryAway;
    mkTrigger "unusual-inactivity" Hourly unusualInactivity;
    mkTrigger "sleep-deficit" Daily sleepDeficit;
    mkTrigger "routine-deviation" Hourly routineDeviation;
    mkTrigger "health-weekly-digest" Weekly healthWeeklyDigest ].

(** What [checkAll] does to the outside world, in order. *)
Inductive Effect : Type :=
| Logged (line : LogLine)
| WritePatterns (patterns : Patterns)
| RunCommand (argv : list string).

(** What the outside world decides during one [checkAll]: for the
    trigger of each id, the readings of [Date.now()] in the cooldown
    guard and at the firing, the host as the check sees it, and the
    outcome of each delivery command. *)
Record Env : Type := mkEnv {
  nowGuard : string -> num;
  hostAt : string -> Host;
  nowFired : string -> num;
  deliver : list string -> Pipeline.CommandOutcome
}.

Definition seconds (nowMs : num) : num := JS.div nowMs (JS.ofZ 1000).

(** [Date.now() / 1000 - lastFired < cooldown] *)
Definition coolingDown (env : Env) (patterns : Patterns) (id : string) : bool :=
  let lastFired := JS.nullish (triggerCooldowns patterns !! id) (JS.ofZ 0) in
  let cooldown := JS.nullish (prop id TRIGGER_COOLDOWNS) (JS.ofZ 3600) in
  JS.lt (JS.sub (seconds (nowGuard env id)) lastFired) cooldown.

(** [patterns.triggerCooldowns[trigger.id] = Date.now() / 1000] *)
Definition stamp (env : Env) (id : string) (patterns : Patterns) : Patterns :=
  {| locationRoutines := locationRoutines patterns;
     healthTrends := healthTrends patterns;
     batteryPatterns := batteryPatterns patterns;
     eventStats := eventStats patterns;
     triggerCooldowns := <[id := seconds (nowFired env id)]> (triggerCooldowns patterns);
     computedAt := computedAt patterns |}.

Definition insight (result : TriggerResult) : string :=
  "[BetterClaw proactive insight — combined signal analysis]"
  ++ EventLog.lineBreak ++ EventLog.lineBreak ++ message result.

(** What a firing does: the log line, the write of the stamped document,
    the delivery command, and the error line when the delivery fails. *)
Definition fire (env : Env) (t : Trigger) (result : TriggerResult)
    (patterns : Patterns) : list Effect :=
  let argv := Pipeline.deliveryCommand (insight result) in
  [ Logged (LogInfo ("betterclaw: proactive trigger fired: " ++ trigger_id t));
    WritePatterns (stamp env (trigger_id t) patterns);
    RunCommand argv ]
  ++ match Pipeline.deliveryError (deliver env argv) with
     | Some msg => [ Logged (LogError ("betterclaw: trigger push failed: " ++ msg)) ]
     | None => []
     end.

(** Does the trigger fire in this pass, and with which result? *)
Definition firing (env : Env) (ctx : DeviceContext) (patterns : Patterns)
    (t : Trigger) : option TriggerResult :=
  if coolingDown env patterns (trigger_id t) then None
  else check t (hostAt env (trigger_id t)) ctx patterns.

(** The loop of [checkAll] over a trigger table; [patterns] is the
    document in memory, shared by all the iterations. *)
Fixpoint scan (env : Env) (ctx : DeviceContext) (table : list Trigger)
    (patterns : Patterns) : Patterns * list Effect :=
  match table with
  | [] => (patterns, [])
  | t :: rest =>
      match firing env ctx patterns t with
      | Some result =>
          let patterns' := stamp env (trigger_id t) patterns in
          let (final, effects) := scan env ctx rest patterns' in
          (final, (fire env t result patterns ++ effects)%list)
      | None => scan env ctx rest patterns
      end
  end.

(** The file [patterns.json] after a list of effects. *)
Definition written (effects : list Effect) (before : option Patterns)
    : option Patterns :=
  fold_left (fun file e =>
               match e with
               | WritePatterns p => Some p
               | _ => file
               end) effects before.

(** [checkAll()]: its effects in order and the files after it. *)
Definition checkAll (env : Env) (ctx : DeviceContext) (files : Files)
    : Files * list Effect :=
  let patterns := JS.nullish (patternsFile files) emptyPatterns in
  let (_, effects) := scan env ctx triggers patterns in
  ({| eventsFile := eventsFile files;
      patternsFile := written effects (patternsFile files) |},
   effects).

End ProactiveEngine.

(** ** Plugin entry ([src/index.ts]) *)

Module Plugin.

Record PluginConfig : Type := mkConfig {
  llmModel : string;
  pushBudgetPerDay : num;
  patternWindowDays : num;
  proactiveEnabled : bool
}.

Definition DEFAULT_CONFIG : PluginConfig :=
  {| llmModel := "openai/gpt-4o-mini";
     pushBudgetPerDay := JS.ofZ 10;
     patternWindowDays := JS.ofZ 14;
     proactiveEnabled := true |}.

(** [raw?.k], for [raw] the configuration of the plugin: [undefined]
    (here [None]) or a value. *)
Definition rawField (k : string) (raw : option JSON.value) : option JSON.value :=
  match raw with
  | Some v => JSON.field k v
  | None => None
  end.

(** [resolveConfig(raw)] *)
Definition resolveConfig (raw : option JSON.value) : PluginConfig :=
  {| llmModel :=
       match rawField "llmModel" raw with
       | Some (JSON.Str s) =>
           if Str.isEmpty (Str.trim s) then llmModel DEFAULT_CONFIG else Str.trim s
       | _ => llmModel DEFAULT_CONFIG
       end;
     pushBudgetPerDay :=
       match rawField "pushBudgetPerDay" raw with
       | Some (JSON.Num n) =>
           if JS.gt n (JS.ofZ 0) then n else pushBudgetPerDay DEFAULT_CONFIG
       | _ => pushBudgetPerDay DEFAULT_CONFIG
       end;
     patternWindowDays :=
       match rawField "patternWindowDays" raw with
       | Some (JSON.Num n) =>
           if JS.gt n (JS.ofZ 0) then n else patternWindowDays DEFAULT_CONFIG
       | _ => patternWindowDays DEFAULT_CONFIG
       end;
     proactiveEnabled :=
       match rawField "proactiveEnabled" raw with
       | Some (JSON.Bool b) => b
       | _ => proactiveEnabled DEFAULT_CONFIG
       end |}.

(** The part of the configuration that the judgment layer keeps. *)
Definition judgmentConfig (config : PluginConfig) : JudgmentLayer.Config :=
  JudgmentLayer.mkConfig (llmModel config) (pushBudgetPerDay config).

Section Init.

Variable parseEntry : string -> option EventLogEntry.t.

(** What the initialisation hands to [restoreCooldowns]: the
    subscription and the instant of each push among the entries of the
    last 24 hours; [nowMs] is the reading of [Date.now()]. *)
Definition recentPushes (nowMs : num) (file : EventLog.File) : list (string * num) :=
  map (fun e => (subscriptionId (EventLogEntry.event e), firedAt (EventLogEntry.event e)))
    (List.filter (PatternEngine.isDecision Push)
       (EventLog.readSince parseEntry
          (JS.sub (JS.div nowMs (JS.ofZ 1000)) (JS.ofZ 86400)) file)).

(** The state of the pipeline when [initPromise] resolves: the context
    read from [context.json] ([loaded] is [None] when the file cannot be
    read or does not parse), and a rules engine with the configured
    budget and the cooldowns restored from the log. *)
Definition init (raw : option JSON.value) (loaded : option DeviceContext)
    (nowMs : num) (file : EventLog.File) : Pipeline.State :=
  {| Pipeline.context := JS.nullish loaded ContextManager.empty;
     Pipeline.rules :=
       RulesEngine.restoreCooldowns (recentPushes nowMs file)
         (RulesEngine.create (pushBudgetPerDay (resolveConfig raw))) |}.

End Init.

End Plugin.

(** * Vocabulary of the statements *)

(** ** Texts *)

Module Chars.

Fixpoint all (P : ascii -> bool) (s : string) : bool :=
  match s with
  | EmptyString => true
  | String c rest => P c && all P rest
  end.

(** The characters [String(x)] can print. *)
Definition numeric (c : ascii) : bool :=
  Number.is_digit c || Str.contains (Str.str c) "-.NaNInfinity".

End Chars.

(** Any character but the line break. *)
Definition notNewline (c : ascii) : bool := negb (Ascii.eqb c Str.newline).

(** The characters that [JSON.stringify] copies as they are. *)
Definition plain (c : ascii) : bool :=
  let n := N_of_ascii c in
  ((32 <=? n) && negb (n =? 34) && negb (n =? 92))%N.

(** A text between braces, as [JSON.stringify] writes an object. *)
Definition braced (s : string) : Prop := exists m, s = String "{" (m ++ "}").

(** [q] occurs in [s] as a block. *)
Definition embeds (q s : string) : Prop := exists pre post, s = pre ++ q ++ post.

(** ** Context store *)

(** The context after a sequence of events, the oldest first. *)
Definition applyAll (events : list DeviceEvent) (start : DeviceContext) : DeviceContext :=
  fold_left (fun context event => ContextManager.updateFromEvent event context)
    events start.

Definition isGeofenceEvent (event : DeviceEvent) : bool :=
  String.eqb (source event) "geofence.triggered".

(** The most recent [geofence.triggered] event of a sequence. *)
Definition lastGeofence (events : list DeviceEvent) : option DeviceEvent :=
  List.find isGeofenceEvent (rev events).

(** [data.k ?? prior], for a field with a prior value. *)
Definition merged {A : Type} (fromEvent : option A) (prior : A) : A :=
  match fromEvent with
  | Some v => v
  | None => prior
  end.

(** ** Judgment layer *)

(** The failure modes of the triage layer: the configured model has an
    empty provider or model part, the invocation throws, the output is
    empty, or the cleaned output does not parse as JSON. *)
Definition triageFailure (JSON_parse : string -> option JSON.value)
    (config : JudgmentLayer.Config) (run : JudgmentLayer.Runner) (isoNow : string)
    (event : DeviceEvent) (context : DeviceContext) : Prop :=
  let provider := JudgmentLayer.provider (JudgmentLayer.llmModel config) in
  let model := JudgmentLayer.model (JudgmentLayer.llmModel config) in
  let prompt :=
    JudgmentLayer.buildPrompt isoNow event context
      (ContextMeta.pushesToday (meta context)) (JudgmentLayer.pushBudgetPerDay config) in
  provider = EmptyString
  \/ model = EmptyString
  \/ match run prompt provider model with
     | JudgmentLayer.RunResolves payloads =>
         let text := JudgmentLayer.extractText (JS.nullish payloads []) in
         text = EmptyString \/ JSON_parse (JudgmentLayer.cleanReply text) = None
     | _ => True
     end.

(** Two contexts that differ in nothing but the latitude, the longitude
    and the horizontal accuracy of their location. *)
Definition sameButCoordinates (c1 c2 : DeviceContext) : Prop :=
  Device.battery (device c1) = Device.battery (device c2)
  /\ Device.health (device c1) = Device.health (device c2)
  /\ activity c1 = activity c2
  /\ meta c1 = meta c2
  /\ match Device.location (device c1), Device.location (device c2) with
     | Some l1, Some l2 =>
         LocationState.label l1 = LocationState.label l2
         /\ LocationState.updatedAt l1 = LocationState.updatedAt l2
     | None, None => True
     | _, _ => False
     end.

(** ** Pipeline *)

(** No dedup cooldown is running for the event. *)
Definition noCooldown (rules : RulesEngine.t) (event : DeviceEvent) : Prop :=
  match RulesEngine.lastFired rules !! subscriptionId event with
  | Some lastFiredAt => RulesEngine.inCooldown event lastFiredAt = false
  | None => True
  end.

Definition levelUnchangedReason : string :=
  "battery-low: level unchanged since last push".

(** ** Proactive engine *)

(** The documents written by a run, in order. *)
Definition writes (effects : list ProactiveEngine.Effect) : list Patterns :=
  omap (fun e => match e with
                 | ProactiveEngine.WritePatterns p => Some p
                 | _ => None
                 end) effects.

(** The commands run, in order. *)
Definition commands (effects : list ProactiveEngine.Effect) : list (list string) :=
  omap (fun e => match e with
                 | ProactiveEngine.RunCommand argv => Some argv
                 | _ => None
                 end) effects.

(** The same world with another outcome for every delivery. *)
Definition withDeliver (deliver : list string -> Pipeline.CommandOutcome)
    (env : ProactiveEngine.Env) : ProactiveEngine.Env :=
  {| ProactiveEngine.nowGuard := ProactiveEngine.nowGuard env;
     ProactiveEngine.hostAt := ProactiveEngine.hostAt env;
     ProactiveEngine.nowFired := ProactiveEngine.nowFired env;
     ProactiveEngine.deliver := deliver |}.

(** A delivery command is what immediately follows the write of a
    document that holds the cooldown of the trigger that fired. *)
Definition writtenJustBefore (env : ProactiveEngine.Env)
    (table : list ProactiveEngine.Trigger)
    (pre : list ProactiveEngine.Effect) (argv : list string) : Prop :=
  exists pre' patterns t result,
    pre = (pre' ++ [ProactiveEngine.WritePatterns patterns])%list
    /\ In t table
    /\ triggerCooldowns patterns !! ProactiveEngine.trigger_id t
       = Some (ProactiveEngine.seconds
                 (ProactiveEngine.nowFired env (ProactiveEngine.trigger_id t)))
    /\ argv = Pipeline.deliveryCommand (ProactiveEngine.insight result).

(** The document in memory when the scan reaches the trigger that
    follows [before] in the table. *)
Definition reached (env : ProactiveEngine.Env) (ctx : DeviceContext) (files : Files)
    (before : list ProactiveEngine.Trigger) : Patterns :=
  fst (ProactiveEngine.scan env ctx before
         (JS.nullish (patternsFile files) emptyPatterns)).

(** ** Pipeline runs *)

(** The entries appended to the event log by a run, in order. *)
Definition logEntries (effects : list Pipeline.Effect) : list EventLogEntry.t :=
  omap (fun e => match e with
                 | Pipeline.AppendLog entry => Some entry
                 | _ => None
                 end) effects.

(** The delivery commands of a run, in order. *)
Definition deliveries (effects : list Pipeline.Effect) : list (list string) :=
  omap (fun e => match e with
                 | Pipeline.RunCommand argv => Some argv
                 | _ => None
                 end) effects.

(** The contexts written to [context.json] by a run, in order. *)
Definition saves (effects : list Pipeline.Effect) : list DeviceContext :=
  omap (fun e => match e with
                 | Pipeline.SaveContext context => Some context
                 | _ => None
                 end) effects.

(** The same world with another LLM transport. *)
Definition withRunner (run : JudgmentLayer.Runner) (env : Pipeline.Env) : Pipeline.Env :=
  {| Pipeline.tz := Pipeline.tz env;
     Pipeline.isoNow := Pipeline.isoNow env;
     Pipeline.run := run;
     Pipeline.nowAppend := Pipeline.nowAppend env;
     Pipeline.nowPush := Pipeline.nowPush env;
     Pipeline.deliver := Pipeline.deliver env |}.

(** The same world with another outcome for the delivery command. *)
Definition withDelivery (deliver : list string -> Pipeline.CommandOutcome)
    (env : Pipeline.Env) : Pipeline.Env :=
  {| Pipeline.tz := Pipeline.tz env;
     Pipeline.isoNow := Pipeline.isoNow env;
     Pipeline.run := Pipeline.run env;
     Pipeline.nowAppend := Pipeline.nowAppend env;
     Pipeline.nowPush := Pipeline.nowPush env;
     Pipeline.deliver := deliver |}.

(** The event is named by one of the rules that push or defer whatever
    the budget: debug, critical battery, geofence, battery low, daily
    health. *)
Definition namedByRule (event : DeviceEvent) : Prop :=
  RulesEngine.isDebug event = true
  \/ subscriptionId event = "default.battery-critical"
  \/ source event = "geofence.triggered"
  \/ subscriptionId event = "default.battery-low"
  \/ subscriptionId event = "default.daily-health".

(** ** Rules engine *)

(** What [restoreCooldowns] leaves for a subscription, from an engine
    without cooldowns: the latest of its instants, when they are all
    truthy. *)
Definition latestOf (entries : list (string * num)) (sub : string)
    (recorded : option num) : Prop :=
  match recorded with
  | Some latest =>
      In (sub, latest) entries
      /\ forall at_, In (sub, at_) entries -> JS.le at_ latest = true
  | None => forall at_, ~ In (sub, at_) entries
  end.

(** ** Pipeline: what a run decided *)

(** The decision a run wrote to the event log. *)
Definition loggedDecision (effects : list Pipeline.Effect) : option Action :=
  option_map EventLogEntry.decision (head (logEntries effects)).

(** ** Context store: what the state machine keeps *)

(** How the activity and the location of a context hang together. *)
Definition coherent (c : DeviceContext) : Prop :=
  let a := activity c in
  ActivityState.zoneEnteredAt a = ActivityState.stationarySince a
  /\ (ActivityState.currentZone a <> None -> ActivityState.zoneEnteredAt a <> None)
  /\ (ActivityState.zoneEnteredAt a <> None -> ActivityState.isStationary a = true)
  /\ match ActivityState.lastTransition a with
     | Some t =>
         Transition.to t = ActivityState.currentZone a
         /\ (ActivityState.zoneEnteredAt a = Some (Transition.at_ t)
             \/ ActivityState.zoneEnteredAt a = None
                /\ ActivityState.isStationary a = false)
     | None =>
         ActivityState.currentZone a = None
         /\ ActivityState.zoneEnteredAt a = None
         /\ ActivityState.isStationary a = true
     end
  /\ match Device.location (device c) with
     | Some l =>
         LocationState.label l = ActivityState.currentZone a
         /\ ActivityState.lastTransition a <> None
     | None => ActivityState.lastTransition a = None
     end.

(** The fields that no event fills in. *)
Definition unfilled (c : DeviceContext) : Prop :=
  match Device.battery (device c) with
  | Some b => BatteryState.state b = "unknown"
  | None => True
  end
  /\ match Device.location (device c) with
     | Some l => LocationState.horizontalAccuracy l = JS.ofZ 0
     | None => True
     end.

(** The state after a sequence of runs of the pipeline, each in its own
    world, the oldest first. *)
Definition runAll (JSON_parse : string -> option JSON.value)
    (config : JudgmentLayer.Config)
    (formatEnrichedMessage : DeviceEvent -> DeviceContext -> string)
    (runs : list (Pipeline.Env * DeviceEvent)) (start : Pipeline.State)
    : Pipeline.State :=
  fold_left
    (fun st run =>
       fst (Pipeline.processEvent JSON_parse config formatEnrichedMessage
              (fst run) st (snd run)))
    runs start.

(** The counters of the day are finite and there are no more pushes than
    events. *)
Definition pushesWithinEvents (m : ContextMeta.t) : Prop :=
  exists p e : Q,
    ContextMeta.pushesToday m = JS.Fin p
    /\ ContextMeta.eventsToday m = JS.Fin e
    /\ (0 <= p)%Q /\ (p <= e)%Q.

(** ** Event log *)

(** The file after the entries are appended, the oldest first. *)
Definition appendAll (entries : list EventLogEntry.t) (file : EventLog.File)
    : EventLog.File :=
  fold_left (fun file entry => EventLog.append entry file) entries file.

(** [JSON.parse] gives back the entry from the line written for it. *)
Definition readsBack (parseEntry : string -> option EventLogEntry.t)
    (entry : EventLogEntry.t) : Prop :=
  parseEntry (EventLog.stringifyEntry entry) = Some entry.

(** ** Judgment layer: the reply and the model *)

(** Any character but the slash. *)
Definition notSlash (c : ascii) : bool := negb (Ascii.eqb c "/").

(** A reply between an optional opening fence with its tag and an
    optional closing fence, with white space around it. *)
Definition fenced (opened closed : bool) (tag ws1 reply ws2 : string) : string :=
  (if opened then JudgmentLayer.fence ++ tag else EmptyString)
  ++ ws1 ++ reply ++ ws2
  ++ (if closed then JudgmentLayer.fence else EmptyString).

(** ** Patterns *)

(** The trend read the other way round. *)
Definition inverse (t : Trend) : Trend :=
  match t with
  | Improving => Declining
  | Stable => Stable
  | Declining => Improving
  end.

(** A list in ascending order of a rational key. *)
Fixpoint ascending {A : Type} (key : A -> Q) (l : list A) : Prop :=
  match l with
  | [] => True
  | x :: rest => Forall (fun y => key x <= key y)%Q rest /\ ascending key rest
  end.

(** The entries of the last 7 days, as [computeEventStats] takes them. *)
Definition last7d (now : num) (entries : list EventLogEntry.t) : list EventLogEntry.t :=
  List.filter
    (fun e => JS.ge (EventLogEntry.timestamp e) (JS.sub now (JS.ofZ (7 * 86400))))
    entries.

(** How many of the entries come from a source. *)
Definition occurrences (src : string) (entries : list EventLogEntry.t) : nat :=
  length (List.filter (fun e => String.eqb (source (EventLogEntry.event e)) src) entries).

(** The zone an entry of the log stands for in the location routines. *)
Definition zoneOf (e : EventLogEntry.t) : string :=
  JS.nullish (ContextManager.zoneNameOf (EventLogEntry.event e)) "Unknown".

(** A list of routines names each zone once, each with an arrival or a
    departure, and only zones of geofence entries. *)
Definition routinesOf (entries : list EventLogEntry.t) (l : list LocationRoutine.t)
    : Prop :=
  List.NoDup (map LocationRoutine.zone l)
  /\ Forall (fun r =>
               (LocationRoutine.typicalArrive r <> None
                \/ LocationRoutine.typicalLeave r <> None)
               /\ exists e, In e entries
                            /\ PatternEngine.isGeofence e = true
                            /\ LocationRoutine.zone r = zoneOf e) l.

(** What the loop of [computeLocationRoutines] keeps of a map of zones. *)
Definition zonesOf (entries : list EventLogEntry.t) (zones : PatternEngine.Zones) : Prop :=
  List.NoDup (map fst zones)
  /\ Forall (fun zd =>
               (fst (snd zd) <> [] \/ snd (snd zd) <> [])
               /\ exists e, In e entries
                            /\ PatternEngine.isGeofence e = true
                            /\ fst zd = zoneOf e) zones.

(** ** Hours as the routines print them *)

(** [getHours() + getMinutes() / 60] for a time of day. *)
Definition hourOfDay (hours minutes : Z) : num :=
  JS.add (JS.ofZ hours) (JS.div (JS.ofZ minutes) (JS.ofZ 60)).

(** Padded to two characters, the decimal digits of [n] have no colon
    and [Number] reads [n] back from them. *)
Definition twoDigits (n : Z) : bool :=
  let s := Str.padStart2 (Number.toString (JS.ofZ n)) in
  Chars.all (fun c => negb (Ascii.eqb c ":")) s
  && (String.length s =? 2)%nat
  && match Number.ofString s with
     | JS.Fin (Qmake a 1) => (a =? n)%Z
     | _ => false
     end.

(** ** Proactive engine: what a pass may change *)

(** Two documents with the same analysis: all but the cooldowns. *)
Definition sameAnalysis (p q : Patterns) : Prop :=
  locationRoutines p = locationRoutines q
  /\ healthTrends p = healthTrends q
  /\ batteryPatterns p = batteryPatterns q
  /\ eventStats p = eventStats q
  /\ computedAt p = computedAt q.

(** The ids of a trigger table. *)
Definition idsOf (table : list ProactiveEngine.Trigger) : list string :=
  map ProactiveEngine.trigger_id table.

(** The cooldown of a trigger, in seconds. *)
Definition triggerCooldown (id : string) : num :=
  JS.nullish (prop id ProactiveEngine.TRIGGER_COOLDOWNS) (JS.ofZ 3600).

(** ** Plugin entry *)

(** The pushes of a subscription that the initialisation finds in the
    log: entries of the last 24 hours, by the time they were logged. *)
Definition restorable (nowMs : num) (entries : list EventLogEntry.t) (sub : string)
    (e : EventLogEntry.t) : Prop :=
  In e entries
  /\ EventLogEntry.decision e = Push
  /\ JS.ge (EventLogEntry.timestamp e)
           (JS.sub (JS.div nowMs (JS.ofZ 1000)) (JS.ofZ 86400)) = true
  /\ subscriptionId (EventLogEntry.event e) = sub.

(** * Sample inputs, most of them from the test suite *)

Module Samples.

Definition k (z : Z) : num := JS.ofZ z.

(** The three battery events of "resets daily counters on day change". *)
Definition battery1 : DeviceEvent :=
  mkEvent "test" "device.battery"
    [("level", JS.Fin (5 # 10)); ("updatedAt", k 1740000000)] None (k 1740000000).
Definition battery2 : DeviceEvent :=
  mkEvent "test" "device.battery"
    [("level", JS.Fin (4 # 10)); ("updatedAt", k 1740000100)] None (k 1740000100).
Definition battery3 : DeviceEvent :=
  mkEvent "test" "device.battery"
    [("level", JS.Fin (3 # 10)); ("updatedAt", k 1740090000)] None (k 1740090000).

(** "updates zone name from geofence enter with metadata" and "clears
    zone name on geofence exit". *)
Definition enterHome : DeviceEvent :=
  mkEvent "default.geofence" "geofence.triggered"
    [("type", k 1); ("latitude", JS.Fin (481351 # 10000));
     ("longitude", JS.Fin (11582 # 1000)); ("timestamp", k 1740000000)]
    (Some [("zoneName", "Home"); ("transitionType", "enter")]) (k 1740000000).
Definition exitHome : DeviceEvent :=
  mkEvent "default.geofence" "geofence.triggered"
    [("type", k 0); ("latitude", JS.Fin (481351 # 10000));
     ("longitude", JS.Fin (11582 # 1000)); ("timestamp", k 1740000100)]
    (Some [("zoneName", "Home"); ("transitionType", "exit")]) (k 1740000100).

(** "updates activity from geofence enter": an enter without metadata. *)
Definition enterUnnamed : DeviceEvent :=
  mkEvent "default.geofence" "geofence.triggered"
    [("type", k 1); ("latitude", JS.Fin (481351 # 10000));
     ("longitude", JS.Fin (11582 # 1000)); ("timestamp", k 1740000000)]
    None (k 1740000000).

Definition batteryLow (level : num) (at_ : Z) : DeviceEvent :=
  mkEvent "default.battery-low" "device.battery" [("level", level)] None (k at_).

Definition custom : DeviceEvent :=
  mkEvent "custom.something" "custom.source" [("value", k 42)] None (k 1740000000).

End Samples.

Module RuleSamples.

(** Scenario S1. *)
Definition debug : DeviceEvent :=
  mkEvent "default.battery-low" "device.battery"
    [("level", JS.Fin (15 # 100)); ("_debugFired", JS.ofZ 1)] None (JS.ofZ 1740000000).

(** Scenario S2. *)
Definition critical : DeviceEvent :=
  mkEvent "default.battery-critical" "device.battery"
    [("level", JS.Fin (8 # 100))] None (JS.ofZ 1740000000).

(** Scenario S3: 2026-02-19T12:00:00Z. *)
Definition healthAtNoon : DeviceEvent :=
  mkEvent "default.daily-health" "health.summary"
    [("stepsToday", JS.ofZ 5000)] None (JS.ofZ 1771502400).

(** The empty context with [meta.pushesToday] set. *)
Definition pushed (n : Z) : DeviceContext :=
  {| device := device ContextManager.empty;
     activity := activity ContextManager.empty;
     meta := {| ContextMeta.lastEventAt := JS.ofZ 0;
                ContextMeta.eventsToday := JS.ofZ 0;
                ContextMeta.lastAgentPushAt := JS.ofZ 0;
                ContextMeta.pushesToday := JS.ofZ n |} |}.

End RuleSamples.

Module DedupSamples.

(** [rules.recordFired("default.battery-low", 1740000000)] on a fresh
    engine, as in "deduplicates within cooldown window". *)
Definition fired : RulesEngine.t :=
  RulesEngine.recordFired "default.battery-low" (JS.ofZ 1740000000)
    (RulesEngine.create (JS.ofZ 10)).

Definition after (seconds : Z) (extra : list (string * num)) : DeviceEvent :=
  mkEvent "default.battery-low" "device.battery"
    (("level", JS.Fin (15 # 100)) :: extra) None (JS.ofZ (1740000000 + seconds)).

Definition within : DeviceEvent := after 1800 [].
Definition later : DeviceEvent := after 3700 [].

(** An engine whose recorded entry is the instant 0. *)
Definition firedAtEpoch : RulesEngine.t :=
  RulesEngine.recordFired "default.battery-low" (JS.ofZ 0)
    (RulesEngine.create (JS.ofZ 10)).

Definition soonAfterEpoch : DeviceEvent :=
  mkEvent "default.battery-low" "device.battery"
    [("level", JS.Fin (15 # 100))] None (JS.ofZ 100).

(** A subscription named after a member of [Object.prototype]: an engine
    that recorded a push for it, and its next event 100 seconds later. *)
Definition firedConstructor : RulesEngine.t :=
  RulesEngine.recordFired "constructor" (JS.ofZ 1740000000)
    (RulesEngine.create (JS.ofZ 10)).

Definition constructorAgain : DeviceEvent :=
  mkEvent "constructor" "custom.source" [("value", JS.ofZ 42)] None
    (JS.ofZ 1740000100).

End DedupSamples.

Module JudgmentSamples.

Definition config : JudgmentLayer.Config :=
  JudgmentLayer.mkConfig "openai/gpt-4o-mini" (JS.ofZ 10).

(** A model name without a slash: the model part is empty. *)
Definition misconfigured : JudgmentLayer.Config :=
  JudgmentLayer.mkConfig "gpt-4o-mini" (JS.ofZ 10).

Definition reply : string :=
  "{" ++ JudgmentLayer.lit "push" ++ ": false, "
  ++ JudgmentLayer.lit "reason" ++ ": " ++ JudgmentLayer.lit "routine" ++ "}".

Definition fencedReply : string :=
  JudgmentLayer.fence ++ "json" ++ EventLog.lineBreak ++ reply
  ++ EventLog.lineBreak ++ JudgmentLayer.fence.

(** A stand-in for [JSON.parse] that knows the one reply above. *)
Definition parse (s : string) : option JSON.value :=
  if String.eqb s reply
  then Some (JSON.Obj [("push", JSON.Bool false); ("reason", JSON.Str "routine")])
  else None.

Definition answers (text : string) : JudgmentLayer.Runner :=
  fun _ _ _ => JudgmentLayer.RunResolves (Some [JSON.Obj [("text", JSON.Str text)]]).

Definition timesOut : JudgmentLayer.Runner :=
  fun _ _ _ => JudgmentLayer.RunThrows "timeout".

Definition silent : JudgmentLayer.Runner :=
  fun _ _ _ => JudgmentLayer.RunResolves None.

Definition isoNow : string := "2025-02-19T21:20:00.000Z".

End JudgmentSamples.

Module MergeSamples.

(** A battery event in low power mode, then one that reports nothing
    but the instant, then one that reports only a level. *)
Definition lowPower : DeviceEvent :=
  mkEvent "default.battery-low" "device.battery"
    [("level", JS.Fin (5 # 10)); ("isLowPowerMode", JS.ofZ 1)] None
    (JS.ofZ 1740000000).

Definition bare : DeviceEvent :=
  mkEvent "default.battery-low" "device.battery" [] None (JS.ofZ 1740000100).

Definition levelOnly : DeviceEvent :=
  mkEvent "default.battery-low" "device.battery"
    [("level", JS.Fin (4 # 10))] None (JS.ofZ 1740000100).

Definition stored : DeviceContext :=
  ContextManager.updateFromEvent lowPower ContextManager.empty.

(** The health event of "updates health from event", then one that
    reports only a distance. *)
Definition summary : DeviceEvent :=
  mkEvent "default.daily-health" "health.summary"
    [("stepsToday", JS.ofZ 8000); ("heartRateAvg", JS.ofZ 72);
     ("updatedAt", JS.ofZ 1740000000)] None (JS.ofZ 1740000000).

Definition distanceOnly : DeviceEvent :=
  mkEvent "default.daily-health" "health.summary"
    [("distanceMeters", JS.ofZ 1200)] None (JS.ofZ 1740003600).

(** A geofence exit that reports no coordinates. *)
Definition exitNowhere : DeviceEvent :=
  mkEvent "default.geofence" "geofence.triggered" [("type", JS.ofZ 0)]
    (Some [("zoneName", "Home")]) (JS.ofZ 1740000100).

End MergeSamples.

Module PromptSamples.

Definition located (latitude longitude accuracy : num) : DeviceContext :=
  {| device :=
       {| Device.battery := None;
          Device.location :=
            Some {| LocationState.latitude := latitude;
                    LocationState.longitude := longitude;
                    LocationState.horizontalAccuracy := accuracy;
                    LocationState.label := Some "Home";
                    LocationState.updatedAt := JS.ofZ 1740000000 |};
          Device.health := None |};
     activity := activity ContextManager.empty;
     meta := meta ContextManager.empty |}.

(** The context of "builds prompt with sanitized context". *)
Definition munich : DeviceContext :=
  located (JS.Fin (481351 # 10000)) (JS.Fin (11582 # 1000)) (JS.ofZ 15).

Definition elsewhere : DeviceContext :=
  located (JS.Fin (- 3387 # 100)) (JS.Fin (15121 # 100)) (JS.ofZ 5).

Definition customTest : DeviceEvent :=
  mkEvent "custom.test" "custom.source" [("value", JS.ofZ 42)] None
    (JS.ofZ 1740000000).

Definition isoNow : string := "2025-02-19T21:20:00.000Z".

End PromptSamples.

Module PipelineSamples.

Definition env : Pipeline.Env :=
  {| Pipeline.tz := Date.UTC;
     Pipeline.isoNow := "2025-02-19T21:20:00.000Z";
     Pipeline.run := JudgmentSamples.timesOut;
     Pipeline.nowAppend := JS.ofZ 1740000001;
     Pipeline.nowPush := JS.ofZ 1740000002;
     Pipeline.deliver := fun _ => Pipeline.Exited (JS.ofZ 0) None |}.

Definition format (event : DeviceEvent) (context : DeviceContext) : string :=
  "[BetterClaw device event] " ++ subscriptionId event.

Definition fresh : Pipeline.State :=
  {| Pipeline.context := ContextManager.empty;
     Pipeline.rules := RulesEngine.create (JS.ofZ 10) |}.

Definition lowBattery : DeviceEvent :=
  Samples.batteryLow (JS.Fin (15 # 100)) 1740000000.

(** The level a JSON text such as 1e999 parses to. *)
Definition infiniteLevel : DeviceEvent :=
  Samples.batteryLow JS.PInf 1740000000.

Definition processEvent : Pipeline.State -> DeviceEvent -> Pipeline.State * list Pipeline.Effect :=
  Pipeline.processEvent JudgmentSamples.parse JudgmentSamples.config format env.

End PipelineSamples.

Module ProactiveSamples.

(** Battery at 10%, outside any zone. *)
Definition away : DeviceContext :=
  ContextManager.updateFromEvent (Samples.batteryLow (JS.Fin (1 # 10)) 1740000000)
    ContextManager.empty.

Definition host : ProactiveEngine.Host :=
  {| ProactiveEngine.tz := Date.UTC;
     ProactiveEngine.now := JS.ofZ 1740000300000;
     ProactiveEngine.toLocaleString := Number.toString |}.

(** A world in which every delivery times out. *)
Definition env : ProactiveEngine.Env :=
  {| ProactiveEngine.nowGuard := fun _ => JS.ofZ 1740000300000;
     ProactiveEngine.hostAt := fun _ => host;
     ProactiveEngine.nowFired := fun _ => JS.ofZ 1740000300500;
     ProactiveEngine.deliver := fun _ => Pipeline.CommandThrows "timed out" |}.

Definition noFiles : Files := {| eventsFile := None; patternsFile := None |}.

Definition effects : list ProactiveEngine.Effect :=
  snd (ProactiveEngine.checkAll env away noFiles).

End ProactiveSamples.

Module PatternSamples.

Definition now : Z := 1740000000.

(** The entries of "computes sleep and resting HR trends": one a day
    for 30 days, the newest first. *)
Definition healthEntry (i : Z) : EventLogEntry.t :=
  let recent := (i <? 7)%Z in
  let at_ := JS.ofZ (now - i * 86400) in
  {| EventLogEntry.event :=
       mkEvent "default.daily-health" "health.summary"
         [ ("stepsToday", JS.ofZ (if recent then 10000 else 7000));
           ("sleepDurationSeconds", JS.ofZ (if recent then 28800 else 25200));
           ("restingHeartRate", JS.ofZ (if recent then 55 else 65));
           ("updatedAt", at_) ] None at_;
     EventLogEntry.decision := Push;
     EventLogEntry.reason := "test";
     EventLogEntry.timestamp := at_ |}.

Definition entries : list EventLogEntry.t :=
  map (fun i => healthEntry (Z.of_nat i)) (seq 0 30).

Definition log : EventLog.File :=
  fold_left (fun file e => EventLog.append e file) entries None.

(** A stand-in for [JSON.parse] that knows the lines of this log. *)
Definition parseEntry (line : string) : option EventLogEntry.t :=
  List.find (fun e => String.eqb (EventLog.stringifyEntry e) line) entries.

Definition prior : Patterns :=
  ProactiveEngine.stamp ProactiveSamples.env "low-battery-away" emptyPatterns.

Definition env : PatternEngine.Env :=
  let nowMs := JS.ofZ (now * 1000 + 250) in
  {| PatternEngine.tz := Date.UTC;
     PatternEngine.nowWindow := nowMs;
     PatternEngine.nowHealth := nowMs;
     PatternEngine.nowStats := nowMs;
     PatternEngine.nowComputed := nowMs;
     PatternEngine.nowRotate := nowMs |}.

Definition computed : Patterns :=
  fst (PatternEngine.compute parseEntry (JS.ofZ 30) env
         {| eventsFile := log; patternsFile := Some prior |}).

End PatternSamples.

Module RotateSamples.

Definition nowMs : num := JS.ofZ 1740000000000.

Definition entryAt (timestamp : Z) : EventLogEntry.t :=
  {| EventLogEntry.event := Samples.custom;
     EventLogEntry.decision := Drop;
     EventLogEntry.reason := "test";
     EventLogEntry.timestamp := JS.ofZ timestamp |}.

(** 40 days before the clock, and one hour before it. *)
Definition stale : EventLogEntry.t := entryAt (1740000000 - 40 * 86400).
Definition fresh : EventLogEntry.t := entryAt (1740000000 - 3600).

Definition staleLine : string := Eval vm_compute in EventLog.stringifyEntry stale.
Definition freshLine : string := Eval vm_compute in EventLog.stringifyEntry fresh.

(** A stand-in for [JSON.parse] that knows the two lines of this log. *)
Definition parseEntry (line : string) : option EventLogEntry.t :=
  if String.eqb line staleLine then Some stale
  else if String.eqb line freshLine then Some fresh
  else None.

Definition short : EventLog.File :=
  fold_left (fun file e => EventLog.append e file) [stale; fresh; fresh] None.

(** Three stale entries followed by 10,005 fresh ones, one per line. *)
Definition long : EventLog.File :=
  Some (Str.join EventLog.lineBreak
          (repeat staleLine 3 ++ repeat freshLine (N.to_nat 10005))%list
        ++ EventLog.lineBreak).

End RotateSamples.

Module BudgetSamples.

(** Five pushes today against a budget of five. *)
Definition exhausted : Pipeline.State :=
  {| Pipeline.context := RuleSamples.pushed 5;
     Pipeline.rules := RulesEngine.create (JS.ofZ 5) |}.

(** The world a minute after [PipelineSamples.env]. *)
Definition later : Pipeline.Env :=
  {| Pipeline.tz := Date.UTC;
     Pipeline.isoNow := "2025-02-19T21:21:00.000Z";
     Pipeline.run := JudgmentSamples.timesOut;
     Pipeline.nowAppend := JS.ofZ 1740000061;
     Pipeline.nowPush := JS.ofZ 1740000062;
     Pipeline.deliver := fun _ => Pipeline.CommandThrows "timed out" |}.

(** A second entry into the zone, one minute after [Samples.enterHome]. *)
Definition enterAgain : DeviceEvent :=
  mkEvent "default.geofence" "geofence.triggered"
    [("type", JS.ofZ 1); ("timestamp", JS.ofZ 1740000060)]
    (Some [("zoneName", "Home")]) (JS.ofZ 1740000060).

End BudgetSamples.

Module LogSamples.

(** A log whose second line was cut short. *)
Definition corrupt : string :=
  RotateSamples.staleLine ++ EventLog.lineBreak ++ "{" ++ EventLog.lineBreak
  ++ RotateSamples.freshLine ++ EventLog.lineBreak.

End LogSamples.

Module CooldownSamples.

(** The world an hour after [ProactiveSamples.env], the delivery
    working again. *)
Definition hourLater : ProactiveEngine.Env :=
  {| ProactiveEngine.nowGuard := fun _ => JS.ofZ 1740003900000;
     ProactiveEngine.hostAt :=
       fun _ => {| ProactiveEngine.tz := Date.UTC;
                   ProactiveEngine.now := JS.ofZ 1740003900000;
                   ProactiveEngine.toLocaleString := Number.toString |};
     ProactiveEngine.nowFired := fun _ => JS.ofZ 1740003900500;
     ProactiveEngine.deliver := fun _ => Pipeline.Exited (JS.ofZ 0) None |}.

Definition lowBatteryAway : ProactiveEngine.Trigger :=
  ProactiveEngine.mkTrigger "low-battery-away" ProactiveEngine.Hourly
    ProactiveEngine.lowBatteryAway.

End CooldownSamples.

Module ConfigSamples.

(** A configuration that asks for no pushes at all and a window of a
    week. *)
Definition noPushes : option JSON.value :=
  Some (JSON.Obj [ ("pushBudgetPerDay", JSON.Num (JS.ofZ 0));
                   ("patternWindowDays", JSON.Num (JS.ofZ 7));
                   ("llmModel", JSON.Str "  ") ]).

End ConfigSamples.

Module RestartSamples.

(** A push and a drop of the same subscription, an hour before
    [RotateSamples.nowMs]. *)
Definition pushed : EventLogEntry.t :=
  {| EventLogEntry.event := Samples.enterHome;
     EventLogEntry.decision := Push;
     EventLogEntry.reason := "geofence event — always push";
     EventLogEntry.timestamp := JS.ofZ 1739996400 |}.

Definition pushedLine : string := Eval vm_compute in EventLog.stringifyEntry pushed.

Definition parseEntry (line : string) : option EventLogEntry.t :=
  if String.eqb line pushedLine then Some pushed
  else RotateSamples.parseEntry line.

Definition log : EventLog.File :=
  fold_left (fun file e => EventLog.append e file) [RotateSamples.fresh; pushed] None.

End RestartSamples.

(** * Properties *)

(** ** Printing *)

Example toString_samples :
  Number.toString (JS.Fin (15 # 100)) = "0.15"
  /\ Number.toString (JS.Fin (481351 # 10000)) = "48.1351"
  /\ Number.toString (JS.ofZ 1740000000) = "1740000000"
  /\ Number.toString (JS.ofZ 0) = "0"
  /\ Number.toString (JS.Fin (- 5 # 2)) = "-2.5".
Proof. vm_compute. repeat split. Qed.

Example stringify_sample :
  JSON.stringify (JSON.Obj [("a", JSON.Num (JS.ofZ 1)); ("b", JSON.Arr [JSON.Str "x"; JSON.Null])])
  = "{" ++ JSON.quote "a" ++ ":1," ++ JSON.quote "b" ++ ":[" ++ JSON.quote "x" ++ ",null]}".
Proof. vm_compute. reflexivity. Qed.

Example context_test_daily_reset :
  let c1 := ContextManager.updateFromEvent Samples.battery1 ContextManager.empty in
  let c2 := ContextManager.updateFromEvent Samples.battery2 c1 in
  let c3 := ContextManager.updateFromEvent Samples.battery3 c2 in
  ContextMeta.eventsToday (meta c1) = JS.ofZ 1
  /\ ContextMeta.eventsToday (meta c2) = JS.ofZ 2
  /\ ContextMeta.eventsToday (meta c3) = JS.ofZ 1
  /\ ContextMeta.pushesToday (meta c3) = JS.ofZ 0.
Proof. vm_compute. repeat split. Qed.

(** ** Daily counters (context store) *)

(** For finite instants the UTC day is the integer [floor(t / 86400)],
    and two days differ when these integers do. *)
Lemma utcDay_finite (t : Q) :
  ContextManager.utcDay (JS.Fin t) = JS.ofZ (Qfloor (t / 86400)).
Proof. reflexivity. Qed.

Lemma strict_eq_ofZ (a b : Z) : JS.strict_eq (JS.ofZ a) (JS.ofZ b) = (a =? b)%Z.
Proof.
  unfold JS.strict_eq, JS.ofZ, JS.Qeqb, Qcompare, inject_Z. cbn [Qnum Qden].
  rewrite !Z.mul_1_r.
  destruct (Z.compare_spec a b) as [-> | Hlt | Hgt].
  - symmetry. apply Z.eqb_refl.
  - symmetry. apply Z.eqb_neq. lia.
  - symmetry. apply Z.eqb_neq. lia.
Qed.

Lemma rollover_finite (lastEventAt now : Q) :
  ContextManager.rollover (JS.Fin lastEventAt) (JS.Fin now)
  = negb (Qfloor (lastEventAt / 86400) =? Qfloor (now / 86400))%Z
    && JS.Qltb 0 lastEventAt.
Proof.
  unfold ContextManager.rollover. rewrite !utcDay_finite, strict_eq_ofZ. reflexivity.
Qed.

(** C1. Every event applied by [updateFromEvent] sets [lastEventAt] to its
    [firedAt].  When the prior [lastEventAt] is positive and its UTC day
    differs from the UTC day of [firedAt], [eventsToday] becomes 1 and
    [pushesToday] becomes 0; otherwise [eventsToday] grows by 1 and
    [pushesToday] is kept. *)
Theorem updateFromEvent_daily_counters (event : DeviceEvent) (context : DeviceContext) :
  let before := meta context in
  let after := meta (ContextManager.updateFromEvent event context) in
  ContextMeta.lastEventAt after = firedAt event
  /\ if JS.gt (ContextMeta.lastEventAt before) (JS.ofZ 0)
        && negb (JS.strict_eq
                   (JS.floor (JS.div (ContextMeta.lastEventAt before) (JS.ofZ 86400)))
                   (JS.floor (JS.div (firedAt event) (JS.ofZ 86400))))
     then ContextMeta.eventsToday after = JS.ofZ 1
          /\ ContextMeta.pushesToday after = JS.ofZ 0
     else ContextMeta.eventsToday after
            = JS.add (ContextMeta.eventsToday before) (JS.ofZ 1)
          /\ ContextMeta.pushesToday after = ContextMeta.pushesToday before.
Proof.
  intros before after.
  assert (Hmeta : after
                  = ContextManager.updateMeta (firedAt event) before).
  { unfold after, before, ContextManager.updateFromEvent.
    destruct (String.eqb (source event) "device.battery"); [reflexivity|].
    destruct (String.eqb (source event) "geofence.triggered"); [reflexivity|].
    destruct (Str.startsWith "health" (source event)); reflexivity. }
  rewrite Hmeta. unfold ContextManager.updateMeta, ContextManager.rollover,
    ContextManager.utcDay. cbn [ContextMeta.lastEventAt ContextMeta.eventsToday
    ContextMeta.pushesToday].
  split; [reflexivity|].
  rewrite (andb_comm (JS.gt _ _)).
  destruct (negb _ && JS.gt _ _); split; reflexivity.
Qed.

(** ** Characters of printed numbers *)

Module CharFacts.
Import Chars.

Lemma all_app P (a b : string) : all P (a ++ b) = all P a && all P b.
Proof.
  induction a as [|c a IH]; simpl; [reflexivity|].
  rewrite IH. apply andb_assoc.
Qed.

Lemma all_impl (P Q : ascii -> bool) (s : string) :
  (forall c, P c = true -> Q c = true) -> all P s = true -> all Q s = true.
Proof.
  intros HPQ. induction s as [|c s IH]; simpl; [reflexivity|].
  intros H. apply andb_prop in H as [Hc Hs].
  rewrite (HPQ _ Hc), (IH Hs). reflexivity.
Qed.

Lemma digit_numeric c : Number.is_digit c = true -> numeric c = true.
Proof. intros H. unfold numeric. rewrite H. reflexivity. Qed.

Lemma uint_digits (d : Decimal.uint) :
  all Number.is_digit (NilEmpty.string_of_uint d) = true.
Proof. induction d; simpl; try rewrite IHd; reflexivity. Qed.

Lemma digits_all (n : Z) : all Number.is_digit (Number.digits n) = true.
Proof.
  unfold Number.digits, NilZero.string_of_uint.
  generalize (N.to_uint (Z.to_N n)). intros d.
  destruct d; [reflexivity | ..]; cbv iota; apply uint_digits.
Qed.

Lemma digit_char_digit (d : Z) :
  (0 <= d <= 9)%Z -> Number.is_digit (Number.digit_char d) = true.
Proof.
  intros H.
  assert (Hd : (d = 0 \/ d = 1 \/ d = 2 \/ d = 3 \/ d = 4 \/ d = 5 \/ d = 6
                \/ d = 7 \/ d = 8 \/ d = 9)%Z) by lia.
  do 9 (destruct Hd as [-> | Hd]; [reflexivity|]). subst. reflexivity.
Qed.

Lemma frac_digits_all (fuel : nat) (n d : Z) :
  (0 <= n < d)%Z -> all Number.is_digit (Number.frac_digits fuel n d) = true.
Proof.
  revert n. induction fuel as [|fuel IH]; intros n Hn; [reflexivity|].
  cbn [Number.frac_digits].
  destruct (n =? 0)%Z; [reflexivity|]. cbn [all].
  rewrite digit_char_digit, IH; [reflexivity | |].
  - apply Z.mod_pos_bound. lia.
  - split.
    + apply Z.div_pos; lia.
    + assert (n * 10 / d < 10)%Z; [|lia].
      apply Z.div_lt_upper_bound; lia.
Qed.

Lemma toString_numeric (x : num) : all numeric (Number.toString x) = true.
Proof.
  destruct x as [| | |q]; try reflexivity.
  unfold Number.toString.
  rewrite !all_app.
  assert (Hd : forall s, all Number.is_digit s = true -> all numeric s = true)
    by (intros s; apply all_impl, digit_numeric).
  rewrite (Hd _ (digits_all _)).
  assert (Hsign : all numeric (if (Qnum q <? 0)%Z then "-" else EmptyString) = true)
    by (destruct (Qnum q <? 0)%Z; reflexivity).
  rewrite Hsign.
  destruct (Z.abs (Qnum q) mod Z.pos (Qden q) =? 0)%Z; [reflexivity|].
  rewrite all_app, (Hd (Number.frac_digits _ _ _)); [reflexivity|].
  apply frac_digits_all, Z.mod_pos_bound; lia.
Qed.





End CharFacts.

(** ** Rules engine: the dedup window *)

Lemma append_cons (c : ascii) (s t : string) : String c s ++ t = String c (s ++ t).
Proof. reflexivity. Qed.

Lemma append_empty (t : string) : EmptyString ++ t = t.
Proof. reflexivity. Qed.





Lemma dedupReason_mentions_dedup (event : DeviceEvent) (lastFiredAt : num) :
  Str.contains "dedup" (RulesEngine.dedupReason event lastFiredAt) = true.
Proof. reflexivity. Qed.

Lemma inherited_not_in_table (subscriptionId : string) :
  JS.inherited subscriptionId = true ->
  prop subscriptionId RulesEngine.DEDUP_COOLDOWN = None.
Proof.
  unfold JS.inherited, JS.objectPrototype. cbn [existsb].
  intros H.
  repeat (apply orb_prop in H as [H | H];
          [apply String.eqb_eq in H; subst; reflexivity|]).
  discriminate.
Qed.

(** For a subscription that names no member of [Object.prototype] the
    cooldown is the entry of the table, or else 1800. *)
Lemma cooldownOf_own (subscriptionId : string) :
  JS.inherited subscriptionId = false ->
  RulesEngine.cooldownOf subscriptionId
  = JS.nullish (prop subscriptionId RulesEngine.DEDUP_COOLDOWN) (JS.ofZ 1800).
Proof.
  intros H. unfold RulesEngine.cooldownOf. rewrite H.
  destruct (prop subscriptionId RulesEngine.DEDUP_COOLDOWN); reflexivity.
Qed.

(** For one that does, the comparison reads NaN and is never true. *)
Lemma inCooldown_inherited (event : DeviceEvent) (lastFiredAt : num) :
  JS.inherited (subscriptionId event) = true ->
  RulesEngine.inCooldown event lastFiredAt = false.
Proof.
  intros H. unfold RulesEngine.inCooldown, RulesEngine.cooldownOf.
  rewrite (inherited_not_in_table _ H), H.
  destruct (JS.truthy lastFiredAt); [|reflexivity].
  destruct (JS.sub (firedAt event) lastFiredAt); reflexivity.
Qed.


Example filter_test_dedup :
  RulesEngine.evaluate Date.UTC DedupSamples.fired DedupSamples.within ContextManager.empty
  = FilterDecision.mk Drop
      "dedup: default.battery-low fired 1800s ago (cooldown: 3600s)"
  /\ FilterDecision.action
       (RulesEngine.evaluate Date.UTC DedupSamples.fired DedupSamples.later
          ContextManager.empty) = Push.
Proof. vm_compute. split; reflexivity. Qed.

(** Scenarios S1 to S3 and the budget tests of the rules engine. *)
Example filter_test_rules :
  let fresh := RulesEngine.create (JS.ofZ 10) in
  let decide (rules : RulesEngine.t) (event : DeviceEvent) (context : DeviceContext) :=
    FilterDecision.action (RulesEngine.evaluate Date.UTC rules event context) in
  RulesEngine.evaluate Date.UTC fresh RuleSamples.debug ContextManager.empty
  = FilterDecision.mk Push "debug event — always push"
  /\ decide fresh RuleSamples.critical ContextManager.empty = Push
  /\ decide fresh Samples.enterUnnamed ContextManager.empty = Push
  /\ decide fresh RuleSamples.healthAtNoon ContextManager.empty = Defer
  /\ decide fresh Samples.custom ContextManager.empty = Ambiguous
  /\ decide (RulesEngine.create (JS.ofZ 5)) Samples.custom (RuleSamples.pushed 5) = Drop
  /\ decide (RulesEngine.create (JS.ofZ 20)) Samples.custom (RuleSamples.pushed 15)
     = Ambiguous.
Proof. vm_compute. repeat split. Qed.



(** A subscription named [constructor] is never deduplicated: 100 seconds
    after its push, inside the default cooldown of 1800 seconds, its next
    event goes on to the later rules. *)
Example dedup_never_for_inherited_name :
  RulesEngine.lastFired DedupSamples.firedConstructor
    !! subscriptionId DedupSamples.constructorAgain = Some (JS.ofZ 1740000000)
  /\ prop (subscriptionId DedupSamples.constructorAgain) RulesEngine.DEDUP_COOLDOWN = None
  /\ JS.lt (JS.sub (firedAt DedupSamples.constructorAgain) (JS.ofZ 1740000000))
           (JS.ofZ 1800) = true
  /\ RulesEngine.evaluate Date.UTC DedupSamples.firedConstructor
       DedupSamples.constructorAgain ContextManager.empty
     = FilterDecision.mk Ambiguous "no rule matched — forward to LLM judgment".
Proof. vm_compute. repeat split. Qed.

(** A recorded entry that is the number 0 is read as no entry by the guard
    [lastFiredAt && ...]. *)
Example dedup_entry_zero :
  RulesEngine.lastFired DedupSamples.firedAtEpoch
    !! subscriptionId DedupSamples.soonAfterEpoch = Some (JS.ofZ 0)
  /\ FilterDecision.action
       (RulesEngine.evaluate Date.UTC DedupSamples.firedAtEpoch
          DedupSamples.soonAfterEpoch ContextManager.empty) = Push.
Proof. vm_compute. repeat split. Qed.

(** ** Judgment layer: fail-open *)

Lemma isEmpty_spec (s : string) : Str.isEmpty s = true <-> s = EmptyString.
Proof. destruct s; split; intros H; try reflexivity; discriminate. Qed.

(** C2. On every failure mode of the triage layer, [evaluate] answers
    [push: true] with a reason that contains "fail open". *)
Theorem judgment_fails_open (JSON_parse : string -> option JSON.value)
    (config : JudgmentLayer.Config) (run : JudgmentLayer.Runner) (isoNow : string)
    (event : DeviceEvent) (context : DeviceContext) :
  triageFailure JSON_parse config run isoNow event context ->
  let result :=
    fst (JudgmentLayer.evaluate JSON_parse config run isoNow event context) in
  JudgmentLayer.push result = true
  /\ Str.contains "fail open" (JudgmentLayer.reason result) = true.
Proof.
  unfold triageFailure, JudgmentLayer.evaluate.
  set (provider := JudgmentLayer.provider _).
  set (model := JudgmentLayer.model _).
  set (prompt := JudgmentLayer.buildPrompt _ _ _ _ _).
  intros Hfail.
  destruct (Str.isEmpty provider) eqn:Hp; [split; reflexivity|].
  destruct (Str.isEmpty model) eqn:Hm; [split; reflexivity|].
  cbn [orb].
  destruct Hfail as [Hfail | [Hfail | Hfail]].
  - apply isEmpty_spec in Hfail. congruence.
  - apply isEmpty_spec in Hfail. congruence.
  - destruct (run prompt provider model) as [msg | msg | msg | payloads];
      try (split; reflexivity).
    destruct (Str.isEmpty (JudgmentLayer.extractText (JS.nullish payloads [])))
      eqn:Ht; [split; reflexivity|].
    destruct Hfail as [Hfail | Hfail].
    + apply isEmpty_spec in Hfail. congruence.
    + unfold JudgmentLayer.readReply. rewrite Hfail. split; reflexivity.
Qed.

(** Conversely, [evaluate] answers [push: false] only when the run
    resolved with a text whose cleaned form parses to a value other than
    [null]. *)
Lemma judgment_refuses_only_on_reply (JSON_parse : string -> option JSON.value)
    (config : JudgmentLayer.Config) (run : JudgmentLayer.Runner) (isoNow : string)
    (event : DeviceEvent) (context : DeviceContext) :
  JudgmentLayer.push
    (fst (JudgmentLayer.evaluate JSON_parse config run isoNow event context)) = false ->
  exists payloads parsed,
    run (JudgmentLayer.buildPrompt isoNow event context
           (ContextMeta.pushesToday (meta context))
           (JudgmentLayer.pushBudgetPerDay config))
        (JudgmentLayer.provider (JudgmentLayer.llmModel config))
        (JudgmentLayer.model (JudgmentLayer.llmModel config))
    = JudgmentLayer.RunResolves payloads
    /\ JSON_parse
         (JudgmentLayer.cleanReply (JudgmentLayer.extractText (JS.nullish payloads [])))
       = Some parsed
    /\ parsed <> JSON.Null.
Proof.
  unfold JudgmentLayer.evaluate.
  destruct (Str.isEmpty _ || Str.isEmpty _); [discriminate|].
  destruct (run _ _ _) as [msg | msg | msg | payloads] eqn:Hrun; try discriminate.
  destruct (Str.isEmpty _); [discriminate|].
  unfold JudgmentLayer.readReply.
  destruct (JSON_parse _) as [parsed|] eqn:Hparse; [|discriminate].
  intros Hpush. exists payloads, parsed.
  split; [reflexivity | split; [exact Hparse|]].
  intros ->. discriminate Hpush.
Qed.

Example cleanReply_strips_fence :
  JudgmentLayer.cleanReply JudgmentSamples.fencedReply = JudgmentSamples.reply.
Proof. vm_compute. reflexivity. Qed.

(** A reply that parses is obeyed, also when it says not to push. *)
Example judgment_obeys_reply :
  fst (JudgmentLayer.evaluate JudgmentSamples.parse JudgmentSamples.config
         (JudgmentSamples.answers JudgmentSamples.fencedReply)
         JudgmentSamples.isoNow Samples.custom ContextManager.empty)
  = JudgmentLayer.mkResult false "routine".
Proof. vm_compute. reflexivity. Qed.

Lemma judgment_fails_open_witness :
  let failing (config : JudgmentLayer.Config) (run : JudgmentLayer.Runner) :=
    fst (JudgmentLayer.evaluate JudgmentSamples.parse config run
           JudgmentSamples.isoNow Samples.custom ContextManager.empty) in
  JudgmentLayer.push (failing JudgmentSamples.misconfigured JudgmentSamples.timesOut) = true
  /\ JudgmentLayer.push (failing JudgmentSamples.config JudgmentSamples.timesOut) = true
  /\ JudgmentLayer.push (failing JudgmentSamples.config JudgmentSamples.silent) = true
  /\ JudgmentLayer.push
       (failing JudgmentSamples.config (JudgmentSamples.answers "not json")) = true.
Proof.
  intros failing. unfold failing. split; [|split; [|split]].
  - refine (proj1 (judgment_fails_open JudgmentSamples.parse
                     JudgmentSamples.misconfigured JudgmentSamples.timesOut
                     JudgmentSamples.isoNow Samples.custom ContextManager.empty _)).
    right; left. vm_compute. reflexivity.
  - refine (proj1 (judgment_fails_open JudgmentSamples.parse
                     JudgmentSamples.config JudgmentSamples.timesOut
                     JudgmentSamples.isoNow Samples.custom ContextManager.empty _)).
    right; right. vm_compute. exact I.
  - refine (proj1 (judgment_fails_open JudgmentSamples.parse
                     JudgmentSamples.config JudgmentSamples.silent
                     JudgmentSamples.isoNow Samples.custom ContextManager.empty _)).
    right; right. vm_compute. left; reflexivity.
  - refine (proj1 (judgment_fails_open JudgmentSamples.parse
                     JudgmentSamples.config (JudgmentSamples.answers "not json")
                     JudgmentSamples.isoNow Samples.custom ContextManager.empty _)).
    right; right. vm_compute. right; reflexivity.
Defined.

(** ** Context store: the geofence state machine *)

Lemma applyAll_snoc (events : list DeviceEvent) (event : DeviceEvent)
    (start : DeviceContext) :
  applyAll (events ++ [event])%list start
  = ContextManager.updateFromEvent event (applyAll events start).
Proof. unfold applyAll. rewrite fold_left_app. reflexivity. Qed.

Lemma lastGeofence_snoc (events : list DeviceEvent) (event : DeviceEvent) :
  lastGeofence (events ++ [event])%list
  = if isGeofenceEvent event then Some event else lastGeofence events.
Proof. unfold lastGeofence. rewrite rev_unit. reflexivity. Qed.

(** Only a [geofence.triggered] event touches [activity]. *)
Lemma activity_after (event : DeviceEvent) (context : DeviceContext) :
  activity (ContextManager.updateFromEvent event context)
  = if isGeofenceEvent event
    then ContextManager.applyTransition event (activity context)
    else activity context.
Proof.
  unfold ContextManager.updateFromEvent, isGeofenceEvent.
  destruct (String.eqb (source event) "device.battery") eqn:Hb.
  - apply String.eqb_eq in Hb. rewrite Hb. reflexivity.
  - destruct (String.eqb (source event) "geofence.triggered"); [reflexivity|].
    destruct (Str.startsWith "health" (source event)); reflexivity.
Qed.

Lemma currentZone_after_transition (event : DeviceEvent) (a : ActivityState.t) :
  ActivityState.currentZone (ContextManager.applyTransition event a)
  = if ContextManager.isEnter (data event)
    then ContextManager.zoneNameOf event else None.
Proof.
  unfold ContextManager.applyTransition.
  destruct (ContextManager.isEnter (data event)); reflexivity.
Qed.

(** After any sequence of events the current zone is the one the most
    recent geofence event set, or the initial one when there was none. *)
Lemma currentZone_tracks_last_geofence (events : list DeviceEvent)
    (start : DeviceContext) :
  ActivityState.currentZone (activity (applyAll events start))
  = match lastGeofence events with
    | Some e =>
        if ContextManager.isEnter (data e) then ContextManager.zoneNameOf e else None
    | None => ActivityState.currentZone (activity start)
    end.
Proof.
  induction events as [|event events IH] using rev_ind; [reflexivity|].
  rewrite applyAll_snoc, lastGeofence_snoc, activity_after.
  destruct (isGeofenceEvent event); [|exact IH].
  apply currentZone_after_transition.
Qed.

(** C5, as the code has it.  After any sequence of events applied from
    any context, [currentZone] is what the most recent [geofence.triggered]
    event of the sequence set: the zone name of an enter ([data.type === 1])
    that carried [metadata.zoneName], null after an enter without one or
    after any other geofence event; it is the initial zone when the sequence
    has no geofence event.  So from the empty context [currentZone] is
    non-null exactly when the most recent geofence event was an enter that
    carried a zone name.  A geofence enter sets [isStationary] to true and
    [stationarySince] to [firedAt]; any other geofence event sets
    [isStationary] to false and [stationarySince] to null. *)
Theorem currentZone_iff_last_transition_named_enter (events : list DeviceEvent) :
  (forall start : DeviceContext,
     ActivityState.currentZone (activity (applyAll events start))
     = match lastGeofence events with
       | Some e =>
           if ContextManager.isEnter (data e) then ContextManager.zoneNameOf e else None
       | None => ActivityState.currentZone (activity start)
       end)
  /\ (ActivityState.currentZone (activity (applyAll events ContextManager.empty)) <> None
      <-> exists e, lastGeofence events = Some e
                    /\ ContextManager.isEnter (data e) = true
                    /\ ContextManager.zoneNameOf e <> None)
  /\ forall (event : DeviceEvent) (context : DeviceContext),
       source event = "geofence.triggered" ->
       let after := activity (ContextManager.updateFromEvent event context) in
       if ContextManager.isEnter (data event)
       then ActivityState.currentZone after = ContextManager.zoneNameOf event
            /\ ActivityState.isStationary after = true
            /\ ActivityState.stationarySince after = Some (firedAt event)
       else ActivityState.currentZone after = None
            /\ ActivityState.isStationary after = false
            /\ ActivityState.stationarySince after = None.
Proof.
  split; [|split].
  - intros start. apply currentZone_tracks_last_geofence.
  - rewrite currentZone_tracks_last_geofence.
    destruct (lastGeofence events) as [e|]; cbn [ContextManager.empty activity
      ActivityState.currentZone].
    + destruct (ContextManager.isEnter (data e)) eqn:He; split.
      * intros Hz. exists e. auto.
      * intros (e' & [= <-] & _ & Hz). exact Hz.
      * intros Hz. contradiction.
      * intros (e' & [= <-] & He' & _). congruence.
    + split; [intros Hz; contradiction | intros (e' & He' & _); discriminate].
  - intros event context Hsrc after. unfold after.
    rewrite activity_after. unfold isGeofenceEvent. rewrite Hsrc, String.eqb_refl.
    unfold ContextManager.applyTransition.
    destruct (ContextManager.isEnter (data event)); repeat split.
Qed.

Lemma currentZone_iff_last_transition_named_enter_witness :
  ActivityState.currentZone
    (activity (ContextManager.updateFromEvent Samples.enterHome ContextManager.empty))
  = Some "Home"
  /\ ActivityState.isStationary
       (activity (ContextManager.updateFromEvent Samples.exitHome
                    (ContextManager.updateFromEvent Samples.enterHome
                       ContextManager.empty)))
     = false.
Proof.
  split.
  - exact (proj1 (proj2 (proj2 (currentZone_iff_last_transition_named_enter []))
                    Samples.enterHome ContextManager.empty eq_refl)).
  - exact (proj1 (proj2 (proj2 (proj2 (currentZone_iff_last_transition_named_enter []))
                           Samples.exitHome
                           (ContextManager.updateFromEvent Samples.enterHome
                              ContextManager.empty) eq_refl))).
Defined.

Example context_test_enter_then_exit :
  let final := activity (applyAll [Samples.enterHome; Samples.exitHome]
                           ContextManager.empty) in
  ActivityState.currentZone final = None
  /\ ActivityState.isStationary final = false.
Proof. vm_compute. split; reflexivity. Qed.

(** C5 as it is worded fails on an enter that carries no zone name: the
    most recent geofence event is an enter, and [currentZone] is null. *)
Lemma currentZone_null_after_unnamed_enter :
  lastGeofence [Samples.enterUnnamed] = Some Samples.enterUnnamed
  /\ ContextManager.isEnter (data Samples.enterUnnamed) = true
  /\ ActivityState.currentZone
       (activity (applyAll [Samples.enterUnnamed] ContextManager.empty)) = None.
Proof. vm_compute. repeat split. Qed.

(** ** Context store: how an event is merged *)

Lemma health_source (s : string) :
  Str.startsWith "health" s = true ->
  String.eqb s "device.battery" = false /\ String.eqb s "geofence.triggered" = false.
Proof.
  intros H. split.
  - destruct (String.eqb s "device.battery") eqn:E; [|reflexivity].
    apply String.eqb_eq in E. subst. discriminate.
  - destruct (String.eqb s "geofence.triggered") eqn:E; [|reflexivity].
    apply String.eqb_eq in E. subst. discriminate.
Qed.

(** C4, as the code has it.  [updateFromEvent] merges field by field the
    battery level, the latitude and longitude, and the seven health
    metrics: a field present in [event.data] overwrites the stored value
    and an absent one keeps it (0, or null for a health metric, when
    nothing was stored).  The battery [state] and the location
    [horizontalAccuracy] are carried over from the stored object.
    [isLowPowerMode] is not merged: it is [(data.isLowPowerMode ?? 0) === 1],
    whatever was stored.  [updatedAt] is [data.updatedAt] ([data.timestamp]
    for a location), or else [firedAt].  The parts of [device] that the
    source of the event does not name are unchanged. *)
Theorem updateFromEvent_merges_fields (event : DeviceEvent) (context : DeviceContext) :
  let d := data event in
  let before := device context in
  let after := device (ContextManager.updateFromEvent event context) in
  (source event = "device.battery" ->
   exists b,
     Device.battery after = Some b
     /\ BatteryState.level b
        = merged (prop "level" d)
            (match Device.battery before with
             | Some p => BatteryState.level p
             | None => JS.ofZ 0
             end)
     /\ BatteryState.state b
        = match Device.battery before with
          | Some p => BatteryState.state p
          | None => "unknown"
          end
     /\ BatteryState.isLowPowerMode b
        = JS.strict_eq (merged (prop "isLowPowerMode" d) (JS.ofZ 0)) (JS.ofZ 1)
     /\ BatteryState.updatedAt b = merged (prop "updatedAt" d) (firedAt event)
     /\ Device.location after = Device.location before
     /\ Device.health after = Device.health before)
  /\ (source event = "geofence.triggered" ->
      exists l,
        Device.location after = Some l
        /\ LocationState.latitude l
           = merged (prop "latitude" d)
               (match Device.location before with
                | Some p => LocationState.latitude p
                | None => JS.ofZ 0
                end)
        /\ LocationState.longitude l
           = merged (prop "longitude" d)
               (match Device.location before with
                | Some p => LocationState.longitude p
                | None => JS.ofZ 0
                end)
        /\ LocationState.horizontalAccuracy l
           = match Device.location before with
             | Some p => LocationState.horizontalAccuracy p
             | None => JS.ofZ 0
             end
        /\ LocationState.updatedAt l = merged (prop "timestamp" d) (firedAt event)
        /\ Device.battery after = Device.battery before
        /\ Device.health after = Device.health before)
  /\ (Str.startsWith "health" (source event) = true ->
      exists h,
        Device.health after = Some h
        /\ (forall (k : string) (get : HealthState.t -> option num),
              In (k, get)
                 [ ("stepsToday", HealthState.stepsToday);
                   ("distanceMeters", HealthState.distanceMeters);
                   ("heartRateAvg", HealthState.heartRateAvg);
                   ("restingHeartRate", HealthState.restingHeartRate);
                   ("hrv", HealthState.hrv);
                   ("activeEnergyKcal", HealthState.activeEnergyKcal);
                   ("sleepDurationSeconds", HealthState.sleepDurationSeconds) ] ->
              get h
              = match prop k d with
                | Some v => Some v
                | None =>
                    match Device.health before with
                    | Some p => get p
                    | None => None
                    end
                end)
        /\ HealthState.updatedAt h = merged (prop "updatedAt" d) (firedAt event)
        /\ Device.battery after = Device.battery before
        /\ Device.location after = Device.location before)
  /\ (source event <> "device.battery" ->
      source event <> "geofence.triggered" ->
      Str.startsWith "health" (source event) = false ->
      after = before).
Proof.
  intros d before after. unfold after, before, d, ContextManager.updateFromEvent.
  split; [|split; [|split]].
  - intros ->. rewrite String.eqb_refl. cbn [device Device.battery Device.location
      Device.health]. eexists. split; [reflexivity|].
    unfold ContextManager.mergeBattery. cbn [BatteryState.level BatteryState.state
      BatteryState.isLowPowerMode BatteryState.updatedAt].
    destruct (Device.battery (device context)), (prop "level" (data event)),
      (prop "isLowPowerMode" (data event)), (prop "updatedAt" (data event));
      repeat split.
  - intros ->.
    change (String.eqb "geofence.triggered" "device.battery") with false.
    rewrite String.eqb_refl.
    cbn [device Device.battery Device.location Device.health].
    eexists. split; [reflexivity|].
    unfold ContextManager.mergeLocation. cbn [LocationState.latitude
      LocationState.longitude LocationState.horizontalAccuracy LocationState.updatedAt].
    destruct (Device.location (device context)), (prop "latitude" (data event)),
      (prop "longitude" (data event)), (prop "timestamp" (data event));
      repeat split.
  - intros Hh. destruct (health_source _ Hh) as [-> ->]. rewrite Hh.
    cbn [device Device.battery Device.location Device.health].
    eexists. split; [reflexivity|]. split; [|split; [|split; reflexivity]].
    + intros k get Hin. cbn [In] in Hin.
      repeat (destruct Hin as [[= <- <-] | Hin]; [reflexivity|]). contradiction.
    + unfold ContextManager.mergeHealth. cbn [HealthState.updatedAt].
      destruct (prop "updatedAt" (data event)); reflexivity.
  - intros Hb Hg Hh.
    apply String.eqb_neq in Hb, Hg. rewrite Hb, Hg, Hh.
    destruct (device context); reflexivity.
Qed.

Lemma updateFromEvent_merges_fields_witness :
  (exists b,
     Device.battery
       (device (ContextManager.updateFromEvent MergeSamples.bare MergeSamples.stored))
     = Some b
     /\ BatteryState.level b = JS.Fin (5 # 10))
  /\ (exists l,
        Device.location
          (device (ContextManager.updateFromEvent MergeSamples.exitNowhere
                     (ContextManager.updateFromEvent Samples.enterHome
                        ContextManager.empty)))
        = Some l
        /\ LocationState.latitude l = JS.Fin (481351 # 10000))
  /\ (exists h,
        Device.health
          (device (ContextManager.updateFromEvent MergeSamples.distanceOnly
                     (ContextManager.updateFromEvent MergeSamples.summary
                        ContextManager.empty)))
        = Some h
        /\ HealthState.stepsToday h = Some (JS.ofZ 8000)
        /\ HealthState.distanceMeters h = Some (JS.ofZ 1200)).
Proof.
  split; [|split].
  - destruct (proj1 (updateFromEvent_merges_fields MergeSamples.bare MergeSamples.stored)
                eq_refl) as (b & Hb & Hlevel & _).
    exists b. split; [exact Hb | exact Hlevel].
  - destruct (proj1 (proj2 (updateFromEvent_merges_fields MergeSamples.exitNowhere
                              (ContextManager.updateFromEvent Samples.enterHome
                                 ContextManager.empty)))
                eq_refl) as (l & Hl & Hlatitude & _).
    exists l. split; [exact Hl | exact Hlatitude].
  - destruct (proj1 (proj2 (proj2 (updateFromEvent_merges_fields
                                     MergeSamples.distanceOnly
                                     (ContextManager.updateFromEvent MergeSamples.summary
                                        ContextManager.empty))))
                eq_refl) as (h & Hh & Hmetric & _).
    exists h. split; [exact Hh|]. split.
    + exact (Hmetric "stepsToday" HealthState.stepsToday (or_introl eq_refl)).
    + exact (Hmetric "distanceMeters" HealthState.distanceMeters
               (or_intror (or_introl eq_refl))).
Defined.

(** C4 as it is worded fails on [isLowPowerMode]: the stored value is
    true, the event does not carry the field, and the value stored after
    the event is false. *)
Lemma isLowPowerMode_not_preserved :
  prop "isLowPowerMode" (data MergeSamples.levelOnly) = None
  /\ option_map BatteryState.isLowPowerMode
       (Device.battery (device MergeSamples.stored)) = Some true
  /\ option_map BatteryState.isLowPowerMode
       (Device.battery
          (device (ContextManager.updateFromEvent MergeSamples.levelOnly
                     MergeSamples.stored))) = Some false.
Proof. vm_compute. repeat split. Qed.

(** ** Judgment layer: the prompt and the coordinates *)

Lemma prefix_empty (s : string) : String.prefix EmptyString s = true.
Proof. destruct s; reflexivity. Qed.

Lemma prefix_append (p rest : string) : String.prefix p (p ++ rest) = true.
Proof.
  induction p as [|c p IH]; [apply prefix_empty|].
  rewrite append_cons. cbn [String.prefix].
  destruct (ascii_dec c c); [exact IH | congruence].
Qed.

Lemma prefix_before (p a b : string) :
  String.prefix p a = true -> String.prefix p (a ++ b) = true.
Proof.
  revert a. induction p as [|x p IH]; intros a H; [apply prefix_empty|].
  destruct a as [|c a]; [discriminate H|].
  rewrite append_cons. cbn [String.prefix] in H |- *.
  destruct (ascii_dec x c); [apply IH; exact H | discriminate H].
Qed.

Lemma contains_unfold (p : string) (c : ascii) (s : string) :
  Str.contains p (String c s) = String.prefix p (String c s) || Str.contains p s.
Proof. reflexivity. Qed.

Lemma contains_here (p rest : string) : Str.contains p (p ++ rest) = true.
Proof.
  destruct (p ++ rest) eqn:E.
  - unfold Str.contains. rewrite <- E, prefix_append. reflexivity.
  - rewrite contains_unfold, <- E, prefix_append. reflexivity.
Qed.

Lemma contains_after (p a b : string) :
  Str.contains p b = true -> Str.contains p (a ++ b) = true.
Proof.
  intros H. induction a as [|c a IH]; [exact H|].
  rewrite append_cons, contains_unfold, IH. apply orb_true_r.
Qed.

Lemma contains_before (p a b : string) :
  Str.contains p a = true -> Str.contains p (a ++ b) = true.
Proof.
  induction a as [|c a IH]; intros H.
  - destruct p; [|discriminate H]. destruct b; reflexivity.
  - rewrite append_cons, contains_unfold. rewrite contains_unfold in H.
    apply orb_true_iff in H as [H | H].
    + rewrite <- append_cons, (prefix_before _ _ _ H). reflexivity.
    + rewrite (IH H). apply orb_true_r.
Qed.

Lemma append_assoc (a b c : string) : (a ++ b) ++ c = a ++ b ++ c.
Proof. induction a as [|x a IH]; [reflexivity|]. rewrite !append_cons, IH. reflexivity. Qed.

Lemma append_empty_r (a : string) : a ++ EmptyString = a.
Proof. induction a as [|x a IH]; [reflexivity|]. rewrite append_cons, IH. reflexivity. Qed.

Lemma embeds_self (q : string) : embeds q q.
Proof. exists EmptyString, EmptyString. rewrite append_empty_r. reflexivity. Qed.

Lemma embeds_after (q a b : string) : embeds q b -> embeds q (a ++ b).
Proof.
  intros (pre & post & ->). exists (a ++ pre), post. rewrite append_assoc. reflexivity.
Qed.

Lemma embeds_before (q a b : string) : embeds q a -> embeds q (a ++ b).
Proof.
  intros (pre & post & ->). exists pre, (post ++ b).
  rewrite !append_assoc. reflexivity.
Qed.

Lemma embeds_contains (p q s : string) :
  embeds q s -> Str.contains p q = true -> Str.contains p s = true.
Proof.
  intros (pre & post & ->) H. apply contains_after, contains_before, H.
Qed.

Lemma escape_plain (s : string) : Chars.all plain s = true -> JSON.escape s = s.
Proof.
  induction s as [|c s IH]; [reflexivity|].
  cbn [Chars.all JSON.escape]. intros H. apply andb_prop in H as [Hc Hs].
  rewrite (IH Hs). unfold plain in Hc. unfold JSON.escape_char.
  apply andb_prop in Hc as [Hc H92]. apply andb_prop in Hc as [H32 H34].
  apply negb_true_iff in H34, H92. apply N.leb_le in H32.
  rewrite H34, H92.
  repeat match goal with
         | |- context [(N_of_ascii c =? ?k)%N] =>
             destruct (N.eqb_spec (N_of_ascii c) k); [lia|]
         end.
  destruct (N.ltb_spec (N_of_ascii c) 32); [lia|]. reflexivity.
Qed.

Lemma sanitizedContext_same (c1 c2 : DeviceContext) :
  sameButCoordinates c1 c2 ->
  JudgmentLayer.sanitizedContext c1 = JudgmentLayer.sanitizedContext c2.
Proof.
  intros (Hb & Hh & Ha & Hm & Hl).
  unfold JudgmentLayer.sanitizedContext, Encode.contextWith.
  rewrite Hb, Hh, Ha, Hm.
  destruct (Device.location (device c1)) as [l1|],
           (Device.location (device c2)) as [l2|]; try contradiction; [|reflexivity].
  destruct Hl as [Hlabel Hupdated].
  unfold JSON.ofOption, JudgmentLayer.sanitizedLocation.
  rewrite Hlabel, Hupdated. reflexivity.
Qed.

Lemma prompt_embeds_label (isoNow : string) (event : DeviceEvent)
    (context : DeviceContext) (pushesToday budget : num) (l : LocationState.t) :
  Device.location (device context) = Some l ->
  embeds (JSON.quote (JS.nullish (LocationState.label l) "Unknown"))
    (JudgmentLayer.buildPrompt isoNow event context pushesToday budget).
Proof.
  intros Hloc.
  unfold JudgmentLayer.buildPrompt. cbn [Str.join].
  do 10 apply embeds_after. apply embeds_before, embeds_after.
  unfold JudgmentLayer.sanitizedContext, Encode.contextWith.
  rewrite Hloc.
  cbn [JSON.stringify map fst snd Str.join JSON.ofOption JudgmentLayer.sanitizedLocation].
  apply embeds_after, embeds_before, embeds_before.
  do 3 apply embeds_after. apply embeds_before.
  do 2 apply embeds_after. apply embeds_before.
  do 3 apply embeds_after. do 2 apply embeds_before.
  do 2 apply embeds_after. apply embeds_self.
Qed.

(** C7, as the code has it.  The prompt does not depend on the latitude,
    the longitude or the horizontal accuracy of the context: two contexts
    that differ in nothing else give the same prompt.  When the context
    has a location the prompt contains its label as [JSON.stringify]
    writes it ("Unknown" for a null label), hence the label itself when
    none of its characters needs an escape. *)
Theorem buildPrompt_ignores_coordinates (isoNow : string) (event : DeviceEvent)
    (pushesToday budget : num) :
  (forall c1 c2 : DeviceContext,
     sameButCoordinates c1 c2 ->
     JudgmentLayer.buildPrompt isoNow event c1 pushesToday budget
     = JudgmentLayer.buildPrompt isoNow event c2 pushesToday budget)
  /\ forall (context : DeviceContext) (l : LocationState.t),
       Device.location (device context) = Some l ->
       let label := JS.nullish (LocationState.label l) "Unknown" in
       let prompt :=
         JudgmentLayer.buildPrompt isoNow event context pushesToday budget in
       Str.contains (JSON.quote label) prompt = true
       /\ (Chars.all plain label = true -> Str.contains label prompt = true).
Proof.
  split.
  - intros c1 c2 Hsame. unfold JudgmentLayer.buildPrompt.
    rewrite (sanitizedContext_same _ _ Hsame). reflexivity.
  - intros context l Hloc label prompt.
    pose proof (prompt_embeds_label isoNow event context pushesToday budget l Hloc)
      as Hembeds.
    fold label in Hembeds. fold prompt in Hembeds. split.
    + apply (embeds_contains _ _ _ Hembeds).
      rewrite <- (append_empty_r (JSON.quote label)) at 2. apply contains_here.
    + intros Hplain. apply (embeds_contains _ _ _ Hembeds).
      unfold JSON.quote. rewrite (escape_plain _ Hplain).
      rewrite contains_unfold, contains_here. apply orb_true_r.
Qed.

Example judgment_test_prompt :
  let prompt :=
    JudgmentLayer.buildPrompt PromptSamples.isoNow PromptSamples.customTest
      PromptSamples.munich (JS.ofZ 3) (JS.ofZ 10) in
  Str.contains "Home" prompt = true
  /\ Str.contains "48.1351" prompt = false
  /\ Str.contains "11.582" prompt = false
  /\ Str.contains "Pushes today: 3 of ~10" prompt = true.
Proof. vm_compute. repeat split. Qed.

Lemma buildPrompt_ignores_coordinates_witness :
  JudgmentLayer.buildPrompt PromptSamples.isoNow PromptSamples.customTest
    PromptSamples.munich (JS.ofZ 3) (JS.ofZ 10)
  = JudgmentLayer.buildPrompt PromptSamples.isoNow PromptSamples.customTest
      PromptSamples.elsewhere (JS.ofZ 3) (JS.ofZ 10)
  /\ Str.contains "Home"
       (JudgmentLayer.buildPrompt PromptSamples.isoNow PromptSamples.customTest
          PromptSamples.munich (JS.ofZ 3) (JS.ofZ 10)) = true.
Proof.
  split.
  - apply (proj1 (buildPrompt_ignores_coordinates PromptSamples.isoNow
                    PromptSamples.customTest (JS.ofZ 3) (JS.ofZ 10))).
    vm_compute. repeat split.
  - refine (proj2 (proj2 (buildPrompt_ignores_coordinates PromptSamples.isoNow
                            PromptSamples.customTest (JS.ofZ 3) (JS.ofZ 10))
                     PromptSamples.munich _ eq_refl) _).
    vm_compute. reflexivity.
Defined.

(** C7 as it is worded fails when the event itself carries the latitude:
    the raw event is part of the prompt, and with it the characters of
    the latitude of the context. *)
Lemma buildPrompt_prints_latitude_of_event :
  option_map LocationState.latitude (Device.location (device PromptSamples.munich))
  = Some (JS.Fin (481351 # 10000))
  /\ Number.toString (JS.Fin (481351 # 10000)) = "48.1351"
  /\ Str.contains "48.1351"
       (JudgmentLayer.buildPrompt PromptSamples.isoNow Samples.enterHome
          PromptSamples.munich (JS.ofZ 3) (JS.ofZ 10)) = true.
Proof. vm_compute. repeat split. Qed.

(** ** Pipeline: the battery-low rule after the context update *)

Lemma lt_abs_sub_self (q : Q) :
  JS.lt (JS.abs (JS.sub (JS.Fin q) (JS.Fin q))) (JS.Fin (2 # 100)) = true.
Proof.
  cbn [JS.sub JS.neg JS.add JS.abs JS.lt]. unfold JS.Qltb.
  assert (H : (Qabs (q + - q) < 2 # 100)%Q).
  { rewrite Qplus_opp_r. reflexivity. }
  pose proof (proj1 (Qlt_alt _ _) H) as Hcmp.
  unfold Qcompare in Hcmp |- *. rewrite Hcmp. reflexivity.
Qed.

(** After a [device.battery] event that carries a level, the level of the
    context is that of the event. *)
Lemma battery_level_after (event : DeviceEvent) (context : DeviceContext) (level : num) :
  source event = "device.battery" ->
  prop "level" (data event) = Some level ->
  option_map BatteryState.level
    (Device.battery (device (ContextManager.updateFromEvent event context)))
  = Some level.
Proof.
  intros Hsrc Hlevel. unfold ContextManager.updateFromEvent.
  rewrite Hsrc, String.eqb_refl.
  cbn [device Device.battery option_map ContextManager.mergeBattery BatteryState.level].
  rewrite Hlevel. reflexivity.
Qed.

(** C6, as the code has it.  [processEvent] updates the context before it
    runs the rules, so for a [default.battery-low] event of source
    [device.battery] with a finite [data.level], no debug flag and no
    running cooldown, the rule compares the level with itself: the event is
    logged as dropped with the reason "battery-low: level unchanged since
    last push", no command is run, and the rules engine is left as it
    was. *)
Theorem battery_low_level_always_unchanged
    (JSON_parse : string -> option JSON.value) (config : JudgmentLayer.Config)
    (formatEnrichedMessage : DeviceEvent -> DeviceContext -> string)
    (env : Pipeline.Env) (st : Pipeline.State) (event : DeviceEvent) (level : Q) :
  subscriptionId event = "default.battery-low" ->
  source event = "device.battery" ->
  prop "level" (data event) = Some (JS.Fin level) ->
  RulesEngine.isDebug event = false ->
  noCooldown (Pipeline.rules st) event ->
  let context1 := ContextManager.updateFromEvent event (Pipeline.context st) in
  Pipeline.processEvent JSON_parse config formatEnrichedMessage env st event
  = ({| Pipeline.context := context1; Pipeline.rules := Pipeline.rules st |},
     [ Pipeline.AppendLog
         {| EventLogEntry.event := event;
            EventLogEntry.decision := Drop;
            EventLogEntry.reason := levelUnchangedReason;
            EventLogEntry.timestamp := Pipeline.nowAppend env |};
       Pipeline.Logged
         (LogInfo ("betterclaw: drop event default.battery-low: "
                   ++ levelUnchangedReason));
       Pipeline.SaveContext context1 ]).
Proof.
  intros Hsub Hsrc Hlevel Hdebug Hcool context1.
  assert (Hrules : RulesEngine.evaluate (Pipeline.tz env) (Pipeline.rules st) event context1
                   = FilterDecision.mk Drop levelUnchangedReason).
  { assert (Hafter : RulesEngine.evaluateRules (Pipeline.tz env) (Pipeline.rules st)
                       event context1
                     = FilterDecision.mk Drop levelUnchangedReason).
    { unfold RulesEngine.evaluateRules. rewrite Hsub, Hsrc.
      change (String.eqb "default.battery-low" "default.battery-critical") with false.
      change (String.eqb "device.battery" "geofence.triggered") with false.
      rewrite String.eqb_refl. cbv zeta.
      unfold context1.
      rewrite (battery_level_after _ _ _ Hsrc Hlevel), Hlevel.
      unfold RulesEngine.levelUnchanged. rewrite lt_abs_sub_self. reflexivity. }
    unfold RulesEngine.evaluate. rewrite Hdebug.
    unfold noCooldown in Hcool.
    destruct (RulesEngine.lastFired (Pipeline.rules st) !! subscriptionId event);
      [rewrite Hcool|]; exact Hafter. }
  unfold Pipeline.processEvent, Pipeline.decide. fold context1.
  rewrite Hrules, Hsub. reflexivity.
Qed.

Lemma battery_low_level_always_unchanged_witness :
  map (fun e => match e with
                | Pipeline.AppendLog entry => Some (EventLogEntry.decision entry)
                | _ => None
                end)
      (snd (PipelineSamples.processEvent PipelineSamples.fresh PipelineSamples.lowBattery))
  = [Some Drop; None; None].
Proof.
  unfold PipelineSamples.processEvent.
  rewrite (battery_low_level_always_unchanged JudgmentSamples.parse
             JudgmentSamples.config PipelineSamples.format PipelineSamples.env
             PipelineSamples.fresh PipelineSamples.lowBattery (15 # 100));
    [reflexivity | reflexivity | reflexivity | reflexivity | reflexivity
     | vm_compute; exact I].
Defined.

(** The first battery-low event on an empty context is dropped too: the
    context it is compared with already holds its level. *)
Example pipeline_first_battery_low_dropped :
  fst (Pipeline.decide JudgmentSamples.parse JudgmentSamples.config PipelineSamples.env
         (Pipeline.rules PipelineSamples.fresh) PipelineSamples.lowBattery
         (ContextManager.updateFromEvent PipelineSamples.lowBattery ContextManager.empty))
  = FilterDecision.mk Drop levelUnchangedReason.
Proof. vm_compute. reflexivity. Qed.

(** Scenario S6: a geofence enter on the empty context is logged as a
    push, counted, and sets the zone. *)
Example pipeline_geofence_push :
  let (st, effects) :=
    PipelineSamples.processEvent PipelineSamples.fresh Samples.enterHome in
  ContextMeta.pushesToday (meta (Pipeline.context st)) = JS.ofZ 1
  /\ ActivityState.currentZone (activity (Pipeline.context st)) = Some "Home"
  /\ hd_error effects
     = Some (Pipeline.AppendLog
               (EventLogEntry.mk Samples.enterHome Push "geofence event — always push"
                  (JS.ofZ 1740000001))).
Proof. vm_compute. repeat split. Qed.

(** C6 as it is worded fails on a level that is not NaN and not finite:
    [Infinity - Infinity] is NaN, the comparison with 0.02 is false, and the
    event is pushed with the reason of the branch said to be unreachable. *)
Lemma battery_low_pushed_for_infinite_level :
  subscriptionId PipelineSamples.infiniteLevel = "default.battery-low"
  /\ source PipelineSamples.infiniteLevel = "device.battery"
  /\ prop "level" (data PipelineSamples.infiniteLevel) = Some JS.PInf
  /\ JS.isNaN JS.PInf = false
  /\ RulesEngine.isDebug PipelineSamples.infiniteLevel = false
  /\ noCooldown (Pipeline.rules PipelineSamples.fresh) PipelineSamples.infiniteLevel
  /\ fst (Pipeline.decide JudgmentSamples.parse JudgmentSamples.config
            PipelineSamples.env (Pipeline.rules PipelineSamples.fresh)
            PipelineSamples.infiniteLevel
            (ContextManager.updateFromEvent PipelineSamples.infiniteLevel
               ContextManager.empty))
     = FilterDecision.mk Push "battery low — level changed".
Proof. vm_compute. repeat split. Qed.

(** ** Proactive engine: the cooldown is written before the delivery *)

Section Scan.

Variable env : ProactiveEngine.Env.
Variable ctx : DeviceContext.

Lemma writtenJustBefore_later (t : ProactiveEngine.Trigger)
    (table : list ProactiveEngine.Trigger)
    (skipped pre : list ProactiveEngine.Effect) (argv : list string) :
  writtenJustBefore env table pre argv ->
  writtenJustBefore env (t :: table) (skipped ++ pre)%list argv.
Proof.
  intros (pre' & patterns & t' & result & -> & Hin & Hcool & Hargv).
  exists (skipped ++ pre')%list, patterns, t', result.
  rewrite <- app_assoc. auto using in_cons.
Qed.

Lemma fire_shape (t : ProactiveEngine.Trigger) (result : ProactiveEngine.TriggerResult)
    (patterns : Patterns) :
  exists failure,
    ProactiveEngine.fire env t result patterns
    = ([ ProactiveEngine.Logged
           (LogInfo ("betterclaw: proactive trigger fired: "
                     ++ ProactiveEngine.trigger_id t));
         ProactiveEngine.WritePatterns
           (ProactiveEngine.stamp env (ProactiveEngine.trigger_id t) patterns);
         ProactiveEngine.RunCommand
           (Pipeline.deliveryCommand (ProactiveEngine.insight result)) ]
       ++ failure)%list
    /\ (failure = [] \/ exists line, failure = [ProactiveEngine.Logged line]).
Proof.
  unfold ProactiveEngine.fire.
  destruct (Pipeline.deliveryError _) as [msg|]; eexists; split;
    try reflexivity; eauto.
Qed.

Lemma scan_step (t : ProactiveEngine.Trigger) (rest : list ProactiveEngine.Trigger)
    (patterns : Patterns) :
  snd (ProactiveEngine.scan env ctx (t :: rest) patterns)
  = match ProactiveEngine.firing env ctx patterns t with
    | Some result =>
        (ProactiveEngine.fire env t result patterns
         ++ snd (ProactiveEngine.scan env ctx rest
                   (ProactiveEngine.stamp env (ProactiveEngine.trigger_id t) patterns)))%list
    | None => snd (ProactiveEngine.scan env ctx rest patterns)
    end.
Proof.
  cbn [ProactiveEngine.scan].
  destruct (ProactiveEngine.firing env ctx patterns t); [|reflexivity].
  destruct (ProactiveEngine.scan env ctx rest _). reflexivity.
Qed.

Lemma scan_commands_follow_writes (table : list ProactiveEngine.Trigger) :
  forall (patterns : Patterns) (pre : list ProactiveEngine.Effect)
         (argv : list string) (post : list ProactiveEngine.Effect),
    snd (ProactiveEngine.scan env ctx table patterns)
    = (pre ++ ProactiveEngine.RunCommand argv :: post)%list ->
    writtenJustBefore env table pre argv.
Proof.
  induction table as [|t rest IH]; intros patterns pre argv post Heffects.
  - destruct pre; discriminate Heffects.
  - rewrite scan_step in Heffects.
    destruct (ProactiveEngine.firing env ctx patterns t) as [result|].
    2: { apply (writtenJustBefore_later t rest [] pre argv). eauto. }
    destruct (fire_shape t result patterns) as (failure & Hfire & Hfailure).
    rewrite Hfire in Heffects. cbn [app] in Heffects.
    destruct pre as [|e1 [|e2 [|e3 pre]]]; try discriminate Heffects.
    + (* the command of this firing *)
      injection Heffects as <- <- <- _.
      exists [ProactiveEngine.Logged
                (LogInfo ("betterclaw: proactive trigger fired: "
                          ++ ProactiveEngine.trigger_id t))],
             (ProactiveEngine.stamp env (ProactiveEngine.trigger_id t) patterns),
             t, result.
      repeat split; [left; reflexivity|].
      cbn [ProactiveEngine.stamp triggerCooldowns]. apply lookup_insert_eq.
    + (* a command of a later firing *)
      injection Heffects as <- <- <- Hrest.
      destruct Hfailure as [-> | [line ->]]; cbn [app] in Hrest.
      * apply (writtenJustBefore_later t rest [_; _; _] pre argv). eauto.
      * destruct pre as [|e4 pre]; [discriminate Hrest|].
        injection Hrest as <- Hrest.
        apply (writtenJustBefore_later t rest [_; _; _; _] pre argv). eauto.
Qed.

Lemma writes_fire (t : ProactiveEngine.Trigger) (result : ProactiveEngine.TriggerResult)
    (patterns : Patterns) :
  writes (ProactiveEngine.fire env t result patterns)
  = [ProactiveEngine.stamp env (ProactiveEngine.trigger_id t) patterns]
  /\ commands (ProactiveEngine.fire env t result patterns)
     = [Pipeline.deliveryCommand (ProactiveEngine.insight result)].
Proof.
  unfold ProactiveEngine.fire.
  destruct (Pipeline.deliveryError _); split; reflexivity.
Qed.

End Scan.

Lemma writes_app (a b : list ProactiveEngine.Effect) :
  writes (a ++ b)%list = (writes a ++ writes b)%list.
Proof. apply omap_app. Qed.

Lemma commands_app (a b : list ProactiveEngine.Effect) :
  commands (a ++ b)%list = (commands a ++ commands b)%list.
Proof. apply omap_app. Qed.

Lemma scan_writes_independent (deliver : list string -> Pipeline.CommandOutcome)
    (env : ProactiveEngine.Env) (ctx : DeviceContext)
    (table : list ProactiveEngine.Trigger) :
  forall patterns : Patterns,
    writes (snd (ProactiveEngine.scan (withDeliver deliver env) ctx table patterns))
    = writes (snd (ProactiveEngine.scan env ctx table patterns)).
Proof.
  induction table as [|t rest IH]; intros patterns; [reflexivity|].
  rewrite !scan_step.
  change (ProactiveEngine.firing (withDeliver deliver env) ctx patterns t)
    with (ProactiveEngine.firing env ctx patterns t).
  destruct (ProactiveEngine.firing env ctx patterns t) as [result|]; [|apply IH].
  rewrite !writes_app, IH.
  rewrite (proj1 (writes_fire _ _ _ _)), (proj1 (writes_fire _ _ _ _)). reflexivity.
Qed.

Lemma scan_one_write_per_command (env : ProactiveEngine.Env) (ctx : DeviceContext)
    (table : list ProactiveEngine.Trigger) :
  forall patterns : Patterns,
    length (writes (snd (ProactiveEngine.scan env ctx table patterns)))
    = length (commands (snd (ProactiveEngine.scan env ctx table patterns))).
Proof.
  induction table as [|t rest IH]; intros patterns; [reflexivity|].
  rewrite scan_step.
  destruct (ProactiveEngine.firing env ctx patterns t) as [result|]; [|apply IH].
  rewrite writes_app, commands_app, !length_app, IH.
  rewrite (proj1 (writes_fire _ _ _ _)), (proj2 (writes_fire _ _ _ _)). reflexivity.
Qed.

Lemma checkAll_effects (env : ProactiveEngine.Env) (ctx : DeviceContext) (files : Files) :
  snd (ProactiveEngine.checkAll env ctx files)
  = snd (ProactiveEngine.scan env ctx ProactiveEngine.triggers
           (JS.nullish (patternsFile files) emptyPatterns)).
Proof.
  unfold ProactiveEngine.checkAll.
  destruct (ProactiveEngine.scan env ctx ProactiveEngine.triggers _). reflexivity.
Qed.

Lemma scan_app (env : ProactiveEngine.Env) (ctx : DeviceContext)
    (before after : list ProactiveEngine.Trigger) :
  forall patterns : Patterns,
    snd (ProactiveEngine.scan env ctx (before ++ after)%list patterns)
    = (snd (ProactiveEngine.scan env ctx before patterns)
       ++ snd (ProactiveEngine.scan env ctx after
                 (fst (ProactiveEngine.scan env ctx before patterns))))%list.
Proof.
  induction before as [|t rest IH]; intros patterns; [reflexivity|].
  change ((t :: rest) ++ after)%list with (t :: (rest ++ after))%list.
  rewrite !scan_step. cbn [ProactiveEngine.scan].
  destruct (ProactiveEngine.firing env ctx patterns t) as [result|]; [|apply IH].
  rewrite IH, <- app_assoc.
  destruct (ProactiveEngine.scan env ctx rest _). reflexivity.
Qed.

(** C8. In every run of [checkAll]: a trigger of the table that fires
    has its stamped document written and then, as the very next effect,
    its delivery command run; each delivery command comes immediately
    after the write of a document that holds the cooldown stamp of a
    trigger of the table; the documents written do not depend on how the
    deliveries end; and there is one write for each command. *)
Theorem cooldown_written_before_delivery (env : ProactiveEngine.Env)
    (ctx : DeviceContext) (files : Files) :
  let effects := snd (ProactiveEngine.checkAll env ctx files) in
  (forall (before : list ProactiveEngine.Trigger) (t : ProactiveEngine.Trigger)
          (after : list ProactiveEngine.Trigger) (result : ProactiveEngine.TriggerResult),
     ProactiveEngine.triggers = (before ++ t :: after)%list ->
     ProactiveEngine.firing env ctx (reached env ctx files before) t = Some result ->
     exists pre post,
       effects
       = (pre
          ++ ProactiveEngine.WritePatterns
               (ProactiveEngine.stamp env (ProactiveEngine.trigger_id t)
                  (reached env ctx files before))
          :: ProactiveEngine.RunCommand
               (Pipeline.deliveryCommand (ProactiveEngine.insight result))
          :: post)%list)
  /\ (forall (pre : list ProactiveEngine.Effect) (argv : list string)
             (post : list ProactiveEngine.Effect),
        effects = (pre ++ ProactiveEngine.RunCommand argv :: post)%list ->
        writtenJustBefore env ProactiveEngine.triggers pre argv)
  /\ (forall deliver : list string -> Pipeline.CommandOutcome,
        writes (snd (ProactiveEngine.checkAll (withDeliver deliver env) ctx files))
        = writes effects)
  /\ length (writes effects) = length (commands effects).
Proof.
  intros effects. unfold effects. split; [|split; [|split]].
  - intros before t after result Htable Hfires.
    rewrite checkAll_effects, Htable, scan_app, scan_step.
    fold (reached env ctx files before). rewrite Hfires.
    destruct (fire_shape env t result (reached env ctx files before))
      as (failure & -> & _).
    match goal with
    | |- context [(?a ++ ([?l; _; _] ++ failure) ++ ?b)%list] =>
        exists (a ++ [l])%list, (failure ++ b)%list
    end.
    rewrite <- !app_assoc. reflexivity.
  - intros pre argv post. rewrite checkAll_effects.
    apply scan_commands_follow_writes.
  - intros deliver. rewrite !checkAll_effects. apply scan_writes_independent.
  - rewrite checkAll_effects. apply scan_one_write_per_command.
Qed.

Example proactive_low_battery_away :
  map (fun e => match e with
                | ProactiveEngine.Logged (LogInfo _) => "info"
                | ProactiveEngine.Logged _ => "error"
                | ProactiveEngine.WritePatterns _ => "write"
                | ProactiveEngine.RunCommand _ => "command"
                end) ProactiveSamples.effects
  = ["info"; "write"; "command"; "error"]
  /\ omap (fun p => triggerCooldowns p !! "low-battery-away")
       (writes ProactiveSamples.effects)
     = [JS.Fin (1740000300500 # 1000)].
Proof. vm_compute. split; reflexivity. Qed.

Lemma cooldown_written_before_delivery_witness :
  writtenJustBefore ProactiveSamples.env ProactiveEngine.triggers
    (firstn 2 ProactiveSamples.effects)
    (hd [] (commands ProactiveSamples.effects))
  /\ exists pre post result,
       ProactiveSamples.effects
       = (pre
          ++ ProactiveEngine.WritePatterns
               (ProactiveEngine.stamp ProactiveSamples.env "low-battery-away"
                  emptyPatterns)
          :: ProactiveEngine.RunCommand
               (Pipeline.deliveryCommand (ProactiveEngine.insight result))
          :: post)%list.
Proof.
  split.
  - apply (proj1 (proj2 (cooldown_written_before_delivery ProactiveSamples.env
                           ProactiveSamples.away ProactiveSamples.noFiles))
             (firstn 2 ProactiveSamples.effects)
             (hd [] (commands ProactiveSamples.effects))
             (skipn 3 ProactiveSamples.effects)).
    vm_compute. reflexivity.
  - destruct (ProactiveEngine.firing ProactiveSamples.env ProactiveSamples.away
                emptyPatterns (hd (ProactiveEngine.mkTrigger EmptyString
                                     ProactiveEngine.Hourly (fun _ _ _ => None))
                                  ProactiveEngine.triggers))
      as [result|] eqn:Hfires; [|discriminate Hfires].
    destruct (proj1 (cooldown_written_before_delivery ProactiveSamples.env
                       ProactiveSamples.away ProactiveSamples.noFiles)
                [] _ _ result eq_refl Hfires) as (pre & post & Heffects).
    exists pre, post, result. exact Heffects.
Defined.

(** ** Pattern engine: the trigger cooldowns are carried over *)

Lemma compute_document (parseEntry : string -> option EventLogEntry.t)
    (windowDays : num) (env : PatternEngine.Env) (files : Files) :
  PatternEngine.compute parseEntry windowDays env files
  = (PatternEngine.build env
       (EventLog.readSince parseEntry
          (JS.sub (PatternEngine.seconds (PatternEngine.nowWindow env))
                  (JS.mul windowDays (JS.ofZ 86400)))
          (eventsFile files))
       (JS.nullish (patternsFile files) emptyPatterns),
     {| eventsFile :=
          snd (EventLog.rotate parseEntry (PatternEngine.nowRotate env) (eventsFile files));
        patternsFile :=
          Some (PatternEngine.build env
                  (EventLog.readSince parseEntry
                     (JS.sub (PatternEngine.seconds (PatternEngine.nowWindow env))
                             (JS.mul windowDays (JS.ofZ 86400)))
                     (eventsFile files))
                  (JS.nullish (patternsFile files) emptyPatterns)) |}).
Proof.
  unfold PatternEngine.compute.
  destruct (EventLog.rotate parseEntry (PatternEngine.nowRotate env) (eventsFile files)).
  reflexivity.
Qed.

(** C10. The document that [compute] writes (and returns) has the
    [triggerCooldowns] of the document it read, or the empty mapping when
    there was none to read; the other fields are those computed from the
    entries of the window, and [computedAt] is the clock. *)
Theorem compute_preserves_triggerCooldowns
    (parseEntry : string -> option EventLogEntry.t) (windowDays : num)
    (env : PatternEngine.Env) (files : Files) :
  let result := PatternEngine.compute parseEntry windowDays env files in
  let entries :=
    EventLog.readSince parseEntry
      (JS.sub (JS.div (PatternEngine.nowWindow env) (JS.ofZ 1000))
              (JS.mul windowDays (JS.ofZ 86400)))
      (eventsFile files) in
  patternsFile (snd result) = Some (fst result)
  /\ triggerCooldowns (fst result)
     = match patternsFile files with
       | Some prior => triggerCooldowns prior
       | None => ∅
       end
  /\ locationRoutines (fst result)
     = PatternEngine.computeLocationRoutines (PatternEngine.tz env) entries
  /\ healthTrends (fst result)
     = PatternEngine.computeHealthTrends
         (JS.div (PatternEngine.nowHealth env) (JS.ofZ 1000)) entries
  /\ batteryPatterns (fst result) = PatternEngine.computeBatteryPatterns entries
  /\ eventStats (fst result)
     = PatternEngine.computeEventStats
         (JS.div (PatternEngine.nowStats env) (JS.ofZ 1000)) entries
  /\ computedAt (fst result) = JS.div (PatternEngine.nowComputed env) (JS.ofZ 1000).
Proof.
  intros result entries. unfold result. rewrite compute_document.
  cbn [fst snd patternsFile PatternEngine.build triggerCooldowns locationRoutines
       healthTrends batteryPatterns eventStats computedAt].
  repeat split. destruct (patternsFile files); reflexivity.
Qed.

(** A cooldown stamped by [checkAll] is still in the document after the
    next [compute]. *)
Lemma compute_after_checkAll
    (parseEntry : string -> option EventLogEntry.t) (windowDays : num)
    (penv : PatternEngine.Env) (env : ProactiveEngine.Env) (ctx : DeviceContext)
    (files : Files) (last : Patterns) :
  patternsFile (fst (ProactiveEngine.checkAll env ctx files)) = Some last ->
  triggerCooldowns
    (fst (PatternEngine.compute parseEntry windowDays penv
            (fst (ProactiveEngine.checkAll env ctx files))))
  = triggerCooldowns last.
Proof.
  intros Hlast. rewrite compute_document. cbn [fst PatternEngine.build triggerCooldowns].
  rewrite Hlast. reflexivity.
Qed.

Example patterns_test_trends :
  length (EventLog.readAll PatternSamples.parseEntry PatternSamples.log) = 30%nat
  /\ HealthTrends.stepsAvg7d (healthTrends PatternSamples.computed)
     = Some (JS.Fin (70000 # 7))
  /\ HealthTrends.stepsAvg30d (healthTrends PatternSamples.computed)
     = Some (JS.Fin (231000 # 30))
  /\ HealthTrends.stepsTrend (healthTrends PatternSamples.computed) = Some Improving
  /\ HealthTrends.sleepTrend (healthTrends PatternSamples.computed) = Some Improving
  /\ HealthTrends.restingHrTrend (healthTrends PatternSamples.computed) = Some Improving
  /\ triggerCooldowns PatternSamples.computed !! "low-battery-away"
     = Some (JS.Fin (1740000300500 # 1000)).
Proof. vm_compute. repeat split. Qed.

(** ** Event log: rotation *)

Lemma lastN_length {A : Type} (n : nat) (l : list A) :
  length (EventLog.lastN n l) <= n.
Proof. unfold EventLog.lastN. rewrite length_skipn. lia. Qed.

Lemma lastN_incl {A : Type} (n : nat) (l : list A) (x : A) :
  In x (EventLog.lastN n l) -> In x l.
Proof.
  unfold EventLog.lastN. intros H.
  rewrite <- (firstn_skipn (length l - n) l). apply in_or_app. right. exact H.
Qed.

(** What [rotate] keeps is a run of consecutive survivors of the age
    filter, in their order: the newest [MAX_LINES] of them. *)
Lemma kept_spec (nowMs : num) (entries : list EventLogEntry.t) :
  let kept := EventLog.kept nowMs entries in
  length kept <= N.to_nat EventLog.MAX_LINES
  /\ (forall e, In e kept ->
        In e entries
        /\ JS.ge (EventLogEntry.timestamp e) (EventLog.cutoff nowMs) = true)
  /\ exists older,
       List.filter
         (fun e => JS.ge (EventLogEntry.timestamp e) (EventLog.cutoff nowMs)) entries
       = (older ++ kept)%list.
Proof.
  unfold EventLog.kept. split; [apply lastN_length|]. split.
  - intros e He. apply lastN_incl in He. apply filter_In in He. exact He.
  - unfold EventLog.lastN. eexists. symmetry. apply firstn_skipn.
Qed.

(** *** The text that [rotate] writes *)

Lemma rev_acc_append (s acc : string) : Str.rev_acc s acc = Str.rev s ++ acc.
Proof.
  revert acc. induction s as [|c s IH]; intros acc; [reflexivity|].
  unfold Str.rev at 1. cbn [Str.rev_acc].
  rewrite (IH (String c acc)), (IH (String c EmptyString)), append_assoc. reflexivity.
Qed.

Lemma rev_cons (c : ascii) (s : string) : Str.rev (String c s) = Str.rev s ++ Str.str c.
Proof. unfold Str.rev at 1. cbn [Str.rev_acc]. apply rev_acc_append. Qed.

Lemma rev_append (a b : string) : Str.rev (a ++ b) = Str.rev b ++ Str.rev a.
Proof.
  induction a as [|c a IH].
  - rewrite append_empty. symmetry. apply append_empty_r.
  - rewrite append_cons, !rev_cons, IH, append_assoc. reflexivity.
Qed.

Lemma rev_involutive (s : string) : Str.rev (Str.rev s) = s.
Proof.
  induction s as [|c s IH]; [reflexivity|].
  rewrite rev_cons, rev_append, IH. reflexivity.
Qed.

Lemma trimEnd_newline (s : string) :
  Str.trimEnd (s ++ Str.str Str.newline) = Str.trimEnd s.
Proof. unfold Str.trimEnd. rewrite rev_append. reflexivity. Qed.

Lemma trimEnd_keeps (s : string) (c : ascii) :
  Str.is_space c = false -> Str.trimEnd (s ++ Str.str c) = s ++ Str.str c.
Proof.
  intros Hc. unfold Str.trimEnd. rewrite rev_append.
  change (Str.rev (Str.str c) ++ Str.rev s) with (String c (Str.rev s)).
  cbn [Str.trimStart]. rewrite Hc, rev_cons, rev_involutive. reflexivity.
Qed.

Lemma trim_braced_line (s : string) :
  braced s -> Str.trim (s ++ Str.str Str.newline) = s.
Proof.
  intros (m & ->). unfold Str.trim.
  rewrite append_cons. cbn [Str.trimStart].
  change (Str.is_space "{") with false. cbv iota.
  rewrite <- append_cons, trimEnd_newline.
  change (String "{" (m ++ "}")) with (String "{" m ++ Str.str "}").
  apply trimEnd_keeps. reflexivity.
Qed.

Lemma join_braced (s : string) (rest : list string) :
  braced s -> Forall braced rest -> braced (Str.join EventLog.lineBreak (s :: rest)).
Proof.
  revert s. induction rest as [|s' rest IH]; intros s Hs Hrest; [exact Hs|].
  change (Str.join EventLog.lineBreak (s :: s' :: rest))
    with (s ++ EventLog.lineBreak ++ Str.join EventLog.lineBreak (s' :: rest)).
  inversion Hrest as [|? ? Hs' Hrest']; subst.
  destruct (IH s' Hs' Hrest') as (m' & ->). destruct Hs as (m & ->).
  exists (m ++ "}" ++ EventLog.lineBreak ++ String "{" m').
  rewrite !append_cons, !append_assoc. reflexivity.
Qed.

Lemma split_acc_append (cur s rest : string) :
  Chars.all notNewline s = true ->
  Str.split_acc Str.newline cur (s ++ rest)
  = Str.split_acc Str.newline (Str.rev s ++ cur) rest.
Proof.
  revert cur. induction s as [|c s IH]; intros cur Hs; [reflexivity|].
  cbn [Chars.all] in Hs. apply andb_prop in Hs as [Hc Hs].
  rewrite append_cons. cbn [Str.split_acc].
  unfold notNewline in Hc. apply negb_true_iff in Hc. rewrite Hc.
  rewrite (IH _ Hs), rev_cons, append_assoc. reflexivity.
Qed.

Lemma split_join (s : string) (rest : list string) :
  Forall (fun x => Chars.all notNewline x = true) (s :: rest) ->
  Str.split Str.newline (Str.join EventLog.lineBreak (s :: rest)) = s :: rest.
Proof.
  unfold Str.split. revert s. induction rest as [|s' rest IH]; intros s Hall.
  - inversion Hall as [|? ? Hs _]; subst. cbn [Str.join].
    rewrite <- (append_empty_r s) at 1.
    rewrite (split_acc_append _ _ _ Hs), append_empty_r.
    cbn [Str.split_acc]. rewrite rev_involutive. reflexivity.
  - inversion Hall as [|? ? Hs Hrest]; subst.
    change (Str.join EventLog.lineBreak (s :: s' :: rest))
      with (s ++ String Str.newline (Str.join EventLog.lineBreak (s' :: rest))).
    rewrite (split_acc_append _ _ _ Hs), append_empty_r.
    cbn [Str.split_acc]. rewrite Ascii.eqb_refl, rev_involutive, (IH _ Hrest).
    reflexivity.
Qed.

Lemma escape_char_no_newline (c : ascii) :
  Chars.all notNewline (JSON.escape_char c) = true.
Proof. destruct c as [[] [] [] [] [] [] [] []]; vm_compute; reflexivity. Qed.

Lemma escape_no_newline (s : string) : Chars.all notNewline (JSON.escape s) = true.
Proof.
  induction s as [|c s IH]; [reflexivity|].
  cbn [JSON.escape]. rewrite CharFacts.all_app, escape_char_no_newline, IH. reflexivity.
Qed.

Lemma quote_no_newline (s : string) : Chars.all notNewline (JSON.quote s) = true.
Proof.
  unfold JSON.quote. cbn [Chars.all].
  rewrite CharFacts.all_app, escape_no_newline. reflexivity.
Qed.

Lemma numeric_not_newline (c : ascii) : Chars.numeric c = true -> notNewline c = true.
Proof.
  destruct c as [[] [] [] [] [] [] [] []]; vm_compute; intros H;
    first [reflexivity | discriminate H].
Qed.

Lemma number_no_newline (n : num) : Chars.all notNewline (JSON.number n) = true.
Proof.
  unfold JSON.number. destruct (JS.isFinite n); [|reflexivity].
  apply (CharFacts.all_impl Chars.numeric); [apply numeric_not_newline|].
  apply CharFacts.toString_numeric.
Qed.

Lemma join_no_newline (sep : string) (l : list string) :
  Chars.all notNewline sep = true ->
  Forall (fun x => Chars.all notNewline x = true) l ->
  Chars.all notNewline (Str.join sep l) = true.
Proof.
  intros Hsep Hl. induction Hl as [|x l Hx Hl IH]; [reflexivity|].
  destruct l as [|y l]; [exact Hx|].
  change (Str.join sep (x :: y :: l)) with (x ++ sep ++ Str.join sep (y :: l)).
  rewrite !CharFacts.all_app, Hx, Hsep, IH. reflexivity.
Qed.

(** [JSON.stringify] without indentation writes no line break. *)
Lemma stringify_no_newline : forall v : JSON.value,
  Chars.all notNewline (JSON.stringify v) = true.
Proof.
  fix IH 1. intros [| [|] | n | s | items | fields]; try reflexivity.
  - apply number_no_newline.
  - apply quote_no_newline.
  - cbn [JSON.stringify]. rewrite !CharFacts.all_app.
    rewrite join_no_newline; [reflexivity | reflexivity |].
    induction items as [|v items IHitems]; constructor; [apply IH | exact IHitems].
  - cbn [JSON.stringify]. rewrite !CharFacts.all_app.
    rewrite join_no_newline; [reflexivity | reflexivity |].
    induction fields as [|[k v] fields IHfields]; constructor; [|exact IHfields].
    cbn [fst snd]. rewrite !CharFacts.all_app, quote_no_newline, IH. reflexivity.
Qed.

Lemma stringifyEntry_braced (e : EventLogEntry.t) : braced (EventLog.stringifyEntry e).
Proof.
  unfold EventLog.stringifyEntry, EventLog.encodeEntry. cbn [JSON.stringify].
  eexists. rewrite append_cons, append_empty. reflexivity.
Qed.

Lemma braced_not_empty (s : string) : braced s -> Str.isEmpty s = false.
Proof. intros (m & ->). reflexivity. Qed.

(** Read back with [count], the text written for [entries] has one line
    for each of them. *)
Lemma count_render (entries : list EventLogEntry.t) :
  EventLog.count (Some (EventLog.render entries)) = length entries.
Proof.
  unfold EventLog.count, EventLog.linesOf, EventLog.render.
  destruct entries as [|e entries]; [reflexivity|].
  assert (Hbraced : Forall braced (map EventLog.stringifyEntry (e :: entries))).
  { apply List.Forall_forall. intros s Hs. apply in_map_iff in Hs as (x & <- & _).
    apply stringifyEntry_braced. }
  assert (Hlines : Forall (fun x => Chars.all notNewline x = true)
                     (map EventLog.stringifyEntry (e :: entries))).
  { apply List.Forall_forall. intros s Hs. apply in_map_iff in Hs as (x & <- & _).
    apply stringify_no_newline. }
  cbn [map] in Hbraced, Hlines |- *.
  rewrite trim_braced_line
    by (inversion Hbraced; subst; apply join_braced; assumption).
  rewrite (split_join _ _ Hlines).
  rewrite <- (length_map EventLog.stringifyEntry (e :: entries)). cbn [map].
  f_equal. apply forallb_filter_id. apply forallb_forall.
  intros s Hs. rewrite List.Forall_forall in Hbraced.
  rewrite (braced_not_empty s (Hbraced s Hs)). reflexivity.
Qed.

Lemma rotate_unfold (parseEntry : string -> option EventLogEntry.t) (nowMs : num)
    (file : EventLog.File) :
  EventLog.rotate parseEntry nowMs file
  = let entries := EventLog.readAll parseEntry file in
    if (N.of_nat (length entries) <=? EventLog.MAX_LINES)%N then (0%nat, file)
    else (length entries - length (EventLog.kept nowMs entries),
          Some (EventLog.render (EventLog.kept nowMs entries))).
Proof. reflexivity. Qed.

(** For a finite clock the cutoff is 30 days before it, in seconds. *)
Lemma cutoff_finite (ms : Q) :
  exists c, EventLog.cutoff (JS.Fin ms) = JS.Fin c
            /\ (c == ms / 1000 - 30 * 86400)%Q.
Proof.
  eexists. split; [reflexivity|].
  unfold Qminus. apply Qplus_comp; [reflexivity|]. reflexivity.
Qed.




Example events_test_append_and_read :
  EventLog.readAll RotateSamples.parseEntry RotateSamples.short
  = [RotateSamples.stale; RotateSamples.fresh; RotateSamples.fresh]
  /\ EventLog.rotate RotateSamples.parseEntry RotateSamples.nowMs RotateSamples.short
     = (0%nat, RotateSamples.short).
Proof. vm_compute. split; reflexivity. Qed.

(** ** Rules engine: recording a push *)

Lemma evaluate_after_recordFired (tz : Date.TimeZone) (self : RulesEngine.t)
    (at_ : num) (event : DeviceEvent) (context : DeviceContext) :
  RulesEngine.isDebug event = false ->
  JS.truthy at_ = true ->
  JS.lt (JS.sub (firedAt event) at_) (RulesEngine.cooldownOf (subscriptionId event)) = true ->
  RulesEngine.evaluate tz (RulesEngine.recordFired (subscriptionId event) at_ self)
    event context
  = FilterDecision.mk Drop (RulesEngine.dedupReason event at_).
Proof.
  intros Hdebug Htruthy Hlt.
  unfold RulesEngine.evaluate. rewrite Hdebug.
  cbn [RulesEngine.recordFired RulesEngine.lastFired].
  rewrite lookup_insert_eq.
  unfold RulesEngine.inCooldown. rewrite Htruthy, Hlt. reflexivity.
Qed.

Lemma evaluate_recordFired_other (tz : Date.TimeZone) (self : RulesEngine.t)
    (sub : string) (at_ : num) (event : DeviceEvent) (context : DeviceContext) :
  subscriptionId event <> sub ->
  RulesEngine.evaluate tz (RulesEngine.recordFired sub at_ self) event context
  = RulesEngine.evaluate tz self event context.
Proof.
  intros Hne. unfold RulesEngine.evaluate.
  cbn [RulesEngine.recordFired RulesEngine.lastFired].
  rewrite lookup_insert_ne by congruence.
  reflexivity.
Qed.

(** X1.  [recordFired(sub, at)] starts the dedup cooldown of [sub] and of
    no other subscription.  For [sub] that names no member of
    [Object.prototype], with the cooldown of the table or else 1800: an
    event of [sub] that is not a debug event and fires less than the
    cooldown after a truthy [at] is dropped with the dedup reason.  The
    decision for an event of any other subscription is what it was before
    the call.  For [sub] that names a member of [Object.prototype] the
    call starts no cooldown at all: an event of [sub] that is not a debug
    event goes on to the later rules. *)
Theorem recordFired_starts_cooldown (tz : Date.TimeZone) (self : RulesEngine.t)
    (sub : string) (at_ : num) (event : DeviceEvent) (context : DeviceContext) :
  let self' := RulesEngine.recordFired sub at_ self in
  let cooldown := JS.nullish (prop sub RulesEngine.DEDUP_COOLDOWN) (JS.ofZ 1800) in
  (subscriptionId event = sub ->
   RulesEngine.isDebug event = false ->
   JS.truthy at_ = true ->
   JS.inherited sub = false ->
   JS.lt (JS.sub (firedAt event) at_) cooldown = true ->
   RulesEngine.evaluate tz self' event context
   = FilterDecision.mk Drop (RulesEngine.dedupReason event at_))
  /\ (subscriptionId event <> sub ->
      RulesEngine.evaluate tz self' event context
      = RulesEngine.evaluate tz self event context)
  /\ (subscriptionId event = sub ->
      RulesEngine.isDebug event = false ->
      JS.inherited sub = true ->
      RulesEngine.evaluate tz self' event context
      = RulesEngine.evaluateRules tz self event context).
Proof.
  cbn zeta. split; [|split].
  - intros <- Hdebug Htruthy Hown Hlt. apply evaluate_after_recordFired; auto.
    now rewrite (cooldownOf_own _ Hown).
  - apply evaluate_recordFired_other.
  - intros <- Hdebug Hinherited. unfold RulesEngine.evaluate. rewrite Hdebug.
    cbn [RulesEngine.recordFired RulesEngine.lastFired]. rewrite lookup_insert_eq.
    now rewrite (inCooldown_inherited _ _ Hinherited).
Qed.

Lemma recordFired_starts_cooldown_witness :
  RulesEngine.evaluate Date.UTC
    (RulesEngine.recordFired "default.battery-low" (JS.ofZ 1740000000)
       (RulesEngine.create (JS.ofZ 10)))
    DedupSamples.within ContextManager.empty
  = FilterDecision.mk Drop (RulesEngine.dedupReason DedupSamples.within (JS.ofZ 1740000000))
  /\ RulesEngine.evaluate Date.UTC
       (RulesEngine.recordFired "default.battery-low" (JS.ofZ 1740000000)
          (RulesEngine.create (JS.ofZ 10)))
       Samples.custom ContextManager.empty
     = RulesEngine.evaluate Date.UTC (RulesEngine.create (JS.ofZ 10))
         Samples.custom ContextManager.empty
  /\ RulesEngine.evaluate Date.UTC
       (RulesEngine.recordFired "constructor" (JS.ofZ 1740000000)
          (RulesEngine.create (JS.ofZ 10)))
       DedupSamples.constructorAgain ContextManager.empty
     = RulesEngine.evaluateRules Date.UTC (RulesEngine.create (JS.ofZ 10))
         DedupSamples.constructorAgain ContextManager.empty.
Proof.
  split; [|split].
  - refine (proj1 (recordFired_starts_cooldown Date.UTC (RulesEngine.create (JS.ofZ 10))
                     "default.battery-low" (JS.ofZ 1740000000) DedupSamples.within
                     ContextManager.empty) _ _ _ _ _); reflexivity.
  - refine (proj1 (proj2 (recordFired_starts_cooldown Date.UTC
                            (RulesEngine.create (JS.ofZ 10))
                            "default.battery-low" (JS.ofZ 1740000000) Samples.custom
                            ContextManager.empty)) _); discriminate.
  - refine (proj2 (proj2 (recordFired_starts_cooldown Date.UTC
                            (RulesEngine.create (JS.ofZ 10))
                            "constructor" (JS.ofZ 1740000000)
                            DedupSamples.constructorAgain ContextManager.empty))
              _ _ _); reflexivity.
Defined.

(** ** The order of numbers *)

Lemma Qltb_lt (a b : Q) : JS.Qltb a b = true <-> (a < b)%Q.
Proof.
  unfold JS.Qltb. rewrite Qlt_alt.
  destruct (a ?= b)%Q; split; intros H; congruence.
Qed.

Lemma Qeqb_eq (a b : Q) : JS.Qeqb a b = true <-> (a == b)%Q.
Proof.
  unfold JS.Qeqb. rewrite Qeq_alt.
  destruct (a ?= b)%Q; split; intros H; congruence.
Qed.

Lemma num_le_finite (a b : Q) : JS.le (JS.Fin a) (JS.Fin b) = true <-> (a <= b)%Q.
Proof.
  unfold JS.le. cbn [JS.lt JS.strict_eq].
  rewrite orb_true_iff, Qltb_lt, Qeqb_eq. split.
  - intros [H | H]; [now apply Qlt_le_weak | rewrite H; apply Qle_refl].
  - intros H. destruct (Qle_lt_or_eq _ _ H); auto.
Qed.

Lemma num_lt_finite (a b : Q) : JS.lt (JS.Fin a) (JS.Fin b) = true <-> (a < b)%Q.
Proof. apply Qltb_lt. Qed.

Lemma truthy_not_NaN (x : num) : JS.truthy x = true -> JS.isNaN x = false.
Proof. destruct x; cbn; congruence. Qed.

Lemma num_le_refl (x : num) : JS.isNaN x = false -> JS.le x x = true.
Proof.
  destruct x; cbn; try congruence; intros _.
  apply num_le_finite, Qle_refl.
Qed.

Lemma num_le_total (x y : num) :
  JS.isNaN x = false -> JS.isNaN y = false -> JS.lt x y = false -> JS.le y x = true.
Proof.
  destruct x as [| | |a], y as [| | |b]; cbn; try congruence; intros _ _ H.
  apply num_le_finite. apply Qnot_lt_le. intros Hlt.
  apply num_lt_finite in Hlt. cbn in Hlt. congruence.
Qed.

Lemma num_le_lt_trans (x y z : num) :
  JS.le x y = true -> JS.lt y z = true -> JS.le x z = true.
Proof.
  destruct x as [| | |a], y as [| | |b], z as [| | |c]; cbn; try congruence; intros H1 H2.
  apply num_le_finite. apply num_le_finite in H1. apply Qltb_lt in H2.
  apply Qlt_le_weak. eapply Qle_lt_trans; eassumption.
Qed.

(** ** Rules engine: restoring the cooldowns *)

Lemma restoreCooldowns_snoc (entries : list (string * num)) (entry : string * num)
    (self : RulesEngine.t) :
  RulesEngine.restoreCooldowns (entries ++ [entry])%list self
  = RulesEngine.restoreOne (RulesEngine.restoreCooldowns entries self) entry.
Proof. unfold RulesEngine.restoreCooldowns. now rewrite fold_left_app. Qed.

Lemma restoreCooldowns_pushBudget (entries : list (string * num)) :
  forall self : RulesEngine.t,
    RulesEngine.pushBudget (RulesEngine.restoreCooldowns entries self)
    = RulesEngine.pushBudget self.
Proof.
  induction entries as [|[k v] rest IH]; intros self; [reflexivity|].
  cbn [RulesEngine.restoreCooldowns fold_left]. fold (RulesEngine.restoreCooldowns rest).
  rewrite IH. unfold RulesEngine.restoreOne.
  destruct (RulesEngine.lastFired self !! k) as [m|]; [|reflexivity].
  destruct (negb (JS.truthy m) || JS.gt v m); reflexivity.
Qed.

Lemma restoreCooldowns_latest (entries : list (string * num)) (pushBudget : num) :
  Forall (fun e => JS.truthy (snd e) = true) entries ->
  forall sub,
    latestOf entries sub
      (RulesEngine.lastFired
         (RulesEngine.restoreCooldowns entries (RulesEngine.create pushBudget)) !! sub).
Proof.
  induction entries as [|[k v] entries IH] using rev_ind; intros Hall sub.
  - cbn. rewrite lookup_empty. intros at_ [].
  - apply Forall_app in Hall as [Hall Hv].
    apply Forall_cons_iff in Hv as [Hv _]. cbn [snd] in Hv.
    specialize (IH Hall).
    rewrite restoreCooldowns_snoc.
    set (self := RulesEngine.restoreCooldowns entries (RulesEngine.create pushBudget)) in *.
    assert (Hins :
      forall sub, latestOf (entries ++ [(k, v)])%list sub
        (RulesEngine.lastFired (RulesEngine.recordFired k v self) !! sub)
      \/ sub = k).
    { intros s. destruct (decide (s = k)) as [->|Hne]; [now right|left].
      cbn [RulesEngine.recordFired RulesEngine.lastFired].
      rewrite lookup_insert_ne by congruence.
      specialize (IH s). destruct (RulesEngine.lastFired self !! s) as [m|]; cbn in *.
      - destruct IH as [Hin Hmax]. split; [apply in_or_app; now left|].
        intros at_ Hat. apply in_app_or in Hat as [Hat | [Heq | []]]; [now apply Hmax|].
        congruence.
      - intros at_ Hat. apply in_app_or in Hat as [Hat | [Heq | []]]; [now apply (IH at_)|].
        congruence. }
    assert (Hkeep :
      forall s, s <> k ->
        latestOf (entries ++ [(k, v)])%list s (RulesEngine.lastFired self !! s)).
    { intros s Hne. specialize (IH s).
      destruct (RulesEngine.lastFired self !! s) as [m|]; cbn in *.
      - destruct IH as [Hin Hmax]. split; [apply in_or_app; now left|].
        intros at_ Hat. apply in_app_or in Hat as [Hat | [Heq | []]]; [now apply Hmax|].
        congruence.
      - intros at_ Hat. apply in_app_or in Hat as [Hat | [Heq | []]]; [now apply (IH at_)|].
        congruence. }
    assert (Htruthy : forall m, RulesEngine.lastFired self !! k = Some m -> JS.truthy m = true).
    { intros m Hm. pose proof (IH k) as Hk. rewrite Hm in Hk. destruct Hk as [Hin _].
      rewrite List.Forall_forall in Hall. exact (Hall _ Hin). }
    unfold RulesEngine.restoreOne.
    destruct (RulesEngine.lastFired self !! k) as [m|] eqn:Hk.
    + rewrite (Htruthy m eq_refl). cbn [negb orb].
      pose proof (IH k) as Hm. rewrite Hk in Hm. destruct Hm as [Hin Hmax].
      destruct (JS.gt v m) eqn:Hgt.
      * destruct (Hins sub) as [H | ->]; [exact H|].
        cbn [RulesEngine.recordFired RulesEngine.lastFired]. rewrite lookup_insert_eq.
        split; [apply in_or_app; right; now left|].
        intros at_ Hat. apply in_app_or in Hat as [Hat | [Heq | []]].
        -- eapply num_le_lt_trans; [now apply Hmax | exact Hgt].
        -- injection Heq as <-. apply num_le_refl. now apply truthy_not_NaN.
      * destruct (decide (sub = k)) as [->|Hne]; [|now apply Hkeep].
        rewrite Hk. split; [apply in_or_app; now left|].
        intros at_ Hat. apply in_app_or in Hat as [Hat | [Heq | []]]; [now apply Hmax|].
        injection Heq as <-.
        apply num_le_total; [apply truthy_not_NaN, (Htruthy m eq_refl)
                        | now apply truthy_not_NaN | exact Hgt].
    + destruct (Hins sub) as [H | ->]; [exact H|].
      cbn [RulesEngine.recordFired RulesEngine.lastFired]. rewrite lookup_insert_eq.
      pose proof (IH k) as Hnone. rewrite Hk in Hnone. cbn in Hnone.
      split; [apply in_or_app; right; now left|].
      intros at_ Hat. apply in_app_or in Hat as [Hat | [Heq | []]].
      * now destruct (Hnone at_).
      * injection Heq as <-. apply num_le_refl. now apply truthy_not_NaN.
Qed.

(** X2.  [restoreCooldowns], called on an engine without cooldowns with
    entries whose instants are all truthy (neither 0 nor NaN), leaves for
    each subscription the latest instant among its entries, and nothing
    for a subscription without an entry; the push budget is untouched. *)
Theorem restoreCooldowns_keeps_latest (entries : list (string * num))
    (pushBudget : num) (sub : string) :
  Forall (fun e => JS.truthy (snd e) = true) entries ->
  let restored :=
    RulesEngine.restoreCooldowns entries (RulesEngine.create pushBudget) in
  RulesEngine.pushBudget restored = pushBudget
  /\ match RulesEngine.lastFired restored !! sub with
     | Some latest =>
         In (sub, latest) entries
         /\ forall at_, In (sub, at_) entries -> JS.le at_ latest = true
     | None => forall at_, ~ In (sub, at_) entries
     end.
Proof.
  intros Hall. cbn zeta. split.
  - now rewrite restoreCooldowns_pushBudget.
  - exact (restoreCooldowns_latest entries pushBudget Hall sub).
Qed.

Lemma restoreCooldowns_keeps_latest_witness :
  let entries :=
    [ ("default.battery-low", JS.ofZ 1740000100);
      ("default.geofence", JS.ofZ 1740000200);
      ("default.battery-low", JS.ofZ 1740003700);
      ("default.battery-low", JS.ofZ 1740000300) ] in
  let restored := RulesEngine.restoreCooldowns entries (RulesEngine.create (JS.ofZ 10)) in
  RulesEngine.pushBudget restored = JS.ofZ 10
  /\ match RulesEngine.lastFired restored !! "default.battery-low" with
     | Some latest =>
         In ("default.battery-low", latest) entries
         /\ forall at_, In ("default.battery-low", at_) entries -> JS.le at_ latest = true
     | None => forall at_, ~ In ("default.battery-low", at_) entries
     end.
Proof.
  apply (restoreCooldowns_keeps_latest
           [ ("default.battery-low", JS.ofZ 1740000100);
             ("default.geofence", JS.ofZ 1740000200);
             ("default.battery-low", JS.ofZ 1740003700);
             ("default.battery-low", JS.ofZ 1740000300) ]
           (JS.ofZ 10) "default.battery-low").
  repeat constructor.
Defined.

(** ** Pipeline: the shape of a run *)

Section Run.

Variable JSON_parse : string -> option JSON.value.
Variable config : JudgmentLayer.Config.
Variable formatEnrichedMessage : DeviceEvent -> DeviceContext -> string.

Lemma decide_not_ambiguous (env : Pipeline.Env) (rules : RulesEngine.t)
    (event : DeviceEvent) (context : DeviceContext) :
  FilterDecision.action (fst (Pipeline.decide JSON_parse config env rules event context)) <> Ambiguous.
Proof.
  unfold Pipeline.decide.
  destruct (FilterDecision.action (RulesEngine.evaluate _ rules event context)) eqn:Ha;
    cbn [fst]; try (rewrite Ha; discriminate).
  destruct (JudgmentLayer.evaluate _ _ _ _ _ _) as [result logs]. cbn.
  destruct (JudgmentLayer.push result); discriminate.
Qed.

Lemma logEntries_app (a b : list Pipeline.Effect) :
  logEntries (a ++ b)%list = (logEntries a ++ logEntries b)%list.
Proof. apply omap_app. Qed.

Lemma deliveries_app (a b : list Pipeline.Effect) :
  deliveries (a ++ b)%list = (deliveries a ++ deliveries b)%list.
Proof. apply omap_app. Qed.

Lemma saves_app (a b : list Pipeline.Effect) :
  saves (a ++ b)%list = (saves a ++ saves b)%list.
Proof. apply omap_app. Qed.

Lemma logEntries_logged (logs : list LogLine) :
  logEntries (map Pipeline.Logged logs) = []
  /\ deliveries (map Pipeline.Logged logs) = []
  /\ saves (map Pipeline.Logged logs) = [].
Proof. induction logs as [|l logs [IH1 [IH2 IH3]]]; cbn; auto. Qed.

(** The run, case by case on the decision. *)
Lemma processEvent_unfold (env : Pipeline.Env) (st : Pipeline.State)
    (event : DeviceEvent) :
  let context1 := ContextManager.updateFromEvent event (Pipeline.context st) in
  let decision := fst (Pipeline.decide JSON_parse config env (Pipeline.rules st) event context1) in
  let judgmentLogs := snd (Pipeline.decide JSON_parse config env (Pipeline.rules st) event context1) in
  let entry :=
    {| EventLogEntry.event := event;
       EventLogEntry.decision := Pipeline.logged (FilterDecision.action decision);
       EventLogEntry.reason := FilterDecision.reason decision;
       EventLogEntry.timestamp := Pipeline.nowAppend env |} in
  exists line,
    Pipeline.processEvent JSON_parse config formatEnrichedMessage env st event
    = match FilterDecision.action decision with
      | Push =>
          let context2 := ContextManager.recordPush (Pipeline.nowPush env) context1 in
          ({| Pipeline.context := context2;
              Pipeline.rules :=
                RulesEngine.recordFired (subscriptionId event) (firedAt event)
                  (Pipeline.rules st) |},
           (map Pipeline.Logged judgmentLogs
            ++ [Pipeline.AppendLog entry;
                Pipeline.RunCommand
                  (Pipeline.deliveryCommand (formatEnrichedMessage event context2));
                Pipeline.Logged line;
                Pipeline.SaveContext context2])%list)
      | _ =>
          ({| Pipeline.context := context1; Pipeline.rules := Pipeline.rules st |},
           (map Pipeline.Logged judgmentLogs
            ++ [Pipeline.AppendLog entry;
                Pipeline.Logged line;
                Pipeline.SaveContext context1])%list)
      end.
Proof.
  cbn zeta. unfold Pipeline.processEvent.
  destruct (Pipeline.decide _ _ _ _ _ _) as [decision logs]. cbn [fst snd].
  destruct (FilterDecision.action decision); eexists;
    rewrite <- ?app_assoc; cbn [app]; reflexivity.
Qed.

(** X3.  A run of [processEvent] does its effects in one order: the lines
    of the judgment layer, then one append to the event log of an entry
    for the event, with a decision that is never [ambiguous] and the time
    of the append; then, only when the decision is [push], the delivery
    command for the message formatted from the final context; then one
    log line, and last the save of the final context. *)
Theorem processEvent_effects_in_order (env : Pipeline.Env) (st : Pipeline.State)
    (event : DeviceEvent) :
  let result :=
    Pipeline.processEvent JSON_parse config formatEnrichedMessage env st event in
  exists (logs : list LogLine) (entry : EventLogEntry.t) (line : LogLine),
    EventLogEntry.event entry = event
    /\ EventLogEntry.timestamp entry = Pipeline.nowAppend env
    /\ EventLogEntry.decision entry <> Ambiguous
    /\ snd result
       = (map Pipeline.Logged logs
          ++ [Pipeline.AppendLog entry]
          ++ match EventLogEntry.decision entry with
             | Push =>
                 [Pipeline.RunCommand
                    (Pipeline.deliveryCommand
                       (formatEnrichedMessage event (Pipeline.context (fst result))))]
             | _ => []
             end
          ++ [Pipeline.Logged line; Pipeline.SaveContext (Pipeline.context (fst result))])%list.
Proof.
  cbn zeta.
  destruct (processEvent_unfold env st event) as [line Hrun]. cbn zeta in Hrun.
  rewrite Hrun. clear Hrun.
  pose proof (decide_not_ambiguous env (Pipeline.rules st) event
                (ContextManager.updateFromEvent event (Pipeline.context st))) as Hna.
  destruct (Pipeline.decide _ _ _ _ _ _) as [decision logs]. cbn [fst snd] in *.
  exists logs.
  eexists {| EventLogEntry.event := event;
             EventLogEntry.decision := Pipeline.logged (FilterDecision.action decision);
             EventLogEntry.reason := FilterDecision.reason decision;
             EventLogEntry.timestamp := Pipeline.nowAppend env |}.
  exists line. cbn [EventLogEntry.event EventLogEntry.timestamp EventLogEntry.decision].
  destruct (FilterDecision.action decision); cbn; try congruence;
    (split; [reflexivity | split; [reflexivity | split; [discriminate | reflexivity]]]).
Qed.

(** X4.  The state after a run: the context is always the one that
    [updateFromEvent] gives; only when the logged decision is [push] is
    the push recorded on top of it, in the rules engine (the cooldown of
    the subscription starts at [firedAt]) and in the context
    ([pushesToday] goes up by one, [lastAgentPushAt] is the clock); on any
    other decision the rules engine is untouched. *)
Theorem processEvent_records_only_pushes (env : Pipeline.Env) (st : Pipeline.State)
    (event : DeviceEvent) :
  let result :=
    Pipeline.processEvent JSON_parse config formatEnrichedMessage env st event in
  let context1 := ContextManager.updateFromEvent event (Pipeline.context st) in
  match loggedDecision (snd result) with
  | Some Push =>
      Pipeline.rules (fst result)
      = RulesEngine.recordFired (subscriptionId event) (firedAt event) (Pipeline.rules st)
      /\ RulesEngine.lastFired (Pipeline.rules (fst result)) !! subscriptionId event
         = Some (firedAt event)
      /\ Pipeline.context (fst result)
         = ContextManager.recordPush (Pipeline.nowPush env) context1
      /\ ContextMeta.pushesToday (meta (Pipeline.context (fst result)))
         = JS.add (ContextMeta.pushesToday (meta context1)) (JS.ofZ 1)
      /\ ContextMeta.lastAgentPushAt (meta (Pipeline.context (fst result)))
         = Pipeline.nowPush env
      /\ deliveries (snd result)
         = [Pipeline.deliveryCommand
              (formatEnrichedMessage event (Pipeline.context (fst result)))]
  | Some _ =>
      Pipeline.rules (fst result) = Pipeline.rules st
      /\ Pipeline.context (fst result) = context1
      /\ deliveries (snd result) = []
  | None => False
  end
  /\ saves (snd result) = [Pipeline.context (fst result)].
Proof.
  cbn zeta.
  destruct (processEvent_unfold env st event) as [line Hrun]. cbn zeta in Hrun.
  rewrite Hrun. clear Hrun.
  destruct (Pipeline.decide _ _ _ _ _ _) as [decision logs]. cbn [fst snd].
  unfold loggedDecision.
  destruct (logEntries_logged logs) as [Hl [Hd Hs]].
  destruct (FilterDecision.action decision); cbn [fst snd];
    rewrite logEntries_app, deliveries_app, saves_app, Hl, Hd, Hs; cbn;
    rewrite ?lookup_insert_eq; auto 10.
Qed.

(** X5.  The outcome of the delivery command changes nothing but the log
    line that follows it: the state after the run, the entry appended to
    the event log, the command and the context saved are the same whether
    the command succeeds, exits with an error or throws.  A failed
    delivery is neither retried nor rolled back. *)
Theorem processEvent_ignores_delivery_outcome (env : Pipeline.Env)
    (deliver : list string -> Pipeline.CommandOutcome)
    (st : Pipeline.State) (event : DeviceEvent) :
  let result :=
    Pipeline.processEvent JSON_parse config formatEnrichedMessage env st event in
  let result' :=
    Pipeline.processEvent JSON_parse config formatEnrichedMessage
      (withDelivery deliver env) st event in
  fst result' = fst result
  /\ logEntries (snd result') = logEntries (snd result)
  /\ deliveries (snd result') = deliveries (snd result)
  /\ saves (snd result') = saves (snd result)
  /\ length (snd result') = length (snd result).
Proof.
  cbn zeta.
  destruct (processEvent_unfold env st event) as [line Hrun].
  destruct (processEvent_unfold (withDelivery deliver env) st event) as [line' Hrun'].
  cbn zeta in Hrun, Hrun'. rewrite Hrun, Hrun'. clear Hrun Hrun'.
  change (Pipeline.decide JSON_parse config (withDelivery deliver env))
    with (Pipeline.decide JSON_parse config env).
  cbn [withDelivery Pipeline.nowAppend Pipeline.nowPush].
  destruct (Pipeline.decide _ _ _ _ _ _) as [decision logs]. cbn [fst snd].
  destruct (logEntries_logged logs) as [Hl [Hd Hs]].
  destruct (FilterDecision.action decision); cbn [fst snd];
    rewrite !logEntries_app, !deliveries_app, !saves_app, !length_app; cbn;
    auto 10.
Qed.

(** ** Pipeline: the push budget *)

Lemma evaluateRules_ambiguous (tz : Date.TimeZone) (self : RulesEngine.t)
    (event : DeviceEvent) (context : DeviceContext) :
  FilterDecision.action (RulesEngine.evaluateRules tz self event context) = Ambiguous ->
  JS.ge (ContextMeta.pushesToday (meta context)) (RulesEngine.pushBudget self) = false.
Proof.
  unfold RulesEngine.evaluateRules.
  destruct (String.eqb (subscriptionId event) "default.battery-critical"); [discriminate|].
  destruct (String.eqb (source event) "geofence.triggered"); [discriminate|].
  destruct (String.eqb (subscriptionId event) "default.battery-low").
  { destruct (RulesEngine.levelUnchanged _ _); discriminate. }
  destruct (String.eqb (subscriptionId event) "default.daily-health").
  { destruct (_ && _); discriminate. }
  destruct (JS.ge _ _); [discriminate | reflexivity].
Qed.

Lemma evaluate_ambiguous (tz : Date.TimeZone) (self : RulesEngine.t)
    (event : DeviceEvent) (context : DeviceContext) :
  FilterDecision.action (RulesEngine.evaluate tz self event context) = Ambiguous ->
  JS.ge (ContextMeta.pushesToday (meta context)) (RulesEngine.pushBudget self) = false.
Proof.
  unfold RulesEngine.evaluate.
  destruct (RulesEngine.isDebug event); [discriminate|].
  destruct (RulesEngine.lastFired self !! subscriptionId event) as [lastFiredAt|].
  - destruct (RulesEngine.inCooldown event lastFiredAt); [discriminate|].
    apply evaluateRules_ambiguous.
  - apply evaluateRules_ambiguous.
Qed.

Lemma evaluateRules_unnamed (tz : Date.TimeZone) (self : RulesEngine.t)
    (event : DeviceEvent) (context : DeviceContext) :
  ~ namedByRule event ->
  JS.ge (ContextMeta.pushesToday (meta context)) (RulesEngine.pushBudget self) = true ->
  RulesEngine.evaluateRules tz self event context
  = FilterDecision.mk Drop
      ("push budget exhausted ("
       ++ Number.toString (ContextMeta.pushesToday (meta context)) ++ "/"
       ++ Number.toString (RulesEngine.pushBudget self) ++ " today)").
Proof.
  intros Hnot Hge. unfold namedByRule in Hnot.
  unfold RulesEngine.evaluateRules.
  destruct (String.eqb_spec (subscriptionId event) "default.battery-critical") as [H|_];
    [tauto|].
  destruct (String.eqb_spec (source event) "geofence.triggered") as [H|_]; [tauto|].
  destruct (String.eqb_spec (subscriptionId event) "default.battery-low") as [H|_];
    [tauto|].
  destruct (String.eqb_spec (subscriptionId event) "default.daily-health") as [H|_];
    [tauto|].
  now rewrite Hge.
Qed.

(** X6.  With the push budget exhausted ([pushesToday] of the context
    after [updateFromEvent] is at or above the budget of the rules
    engine) the LLM is never consulted: the run is the same whatever the
    LLM transport would have answered.  An event that no rule names is
    then logged as dropped and no command is run; its reason is the dedup
    reason or the exhausted budget. *)
Theorem exhausted_budget_skips_judgment (env : Pipeline.Env) (st : Pipeline.State)
    (event : DeviceEvent) :
  let context1 := ContextManager.updateFromEvent event (Pipeline.context st) in
  let result :=
    Pipeline.processEvent JSON_parse config formatEnrichedMessage env st event in
  JS.ge (ContextMeta.pushesToday (meta context1))
        (RulesEngine.pushBudget (Pipeline.rules st)) = true ->
  (forall run : JudgmentLayer.Runner,
     Pipeline.processEvent JSON_parse config formatEnrichedMessage
       (withRunner run env) st event = result)
  /\ (~ namedByRule event ->
      loggedDecision (snd result) = Some Drop
      /\ deliveries (snd result) = []
      /\ Pipeline.rules (fst result) = Pipeline.rules st
      /\ exists reason,
           option_map EventLogEntry.reason (head (logEntries (snd result))) = Some reason
           /\ (Str.contains "dedup" reason = true
               \/ Str.contains "push budget exhausted" reason = true)).
Proof.
  cbn zeta. intros Hge. split.
  - intros run. unfold Pipeline.processEvent, Pipeline.decide.
    cbn [withRunner Pipeline.tz Pipeline.nowAppend Pipeline.nowPush Pipeline.deliver].
    pose proof (evaluate_ambiguous (Pipeline.tz env) (Pipeline.rules st) event
                  (ContextManager.updateFromEvent event (Pipeline.context st))) as Hamb.
    destruct (FilterDecision.action (RulesEngine.evaluate _ _ _ _)) eqn:Ha;
      try reflexivity.
    rewrite (Hamb eq_refl) in Hge. discriminate.
  - intros Hnot.
    assert (Hdebug : RulesEngine.isDebug event = false).
    { destruct (RulesEngine.isDebug event) eqn:H; [|reflexivity].
      exfalso. apply Hnot. now left. }
    unfold Pipeline.processEvent, Pipeline.decide, RulesEngine.evaluate.
    rewrite Hdebug.
    destruct (RulesEngine.lastFired (Pipeline.rules st) !! subscriptionId event)
      as [lastFiredAt|].
    + destruct (RulesEngine.inCooldown event lastFiredAt).
      * cbn. repeat split. eexists. split; [reflexivity|].
        left. apply dedupReason_mentions_dedup.
      * rewrite (evaluateRules_unnamed _ _ _ _ Hnot Hge). cbn.
        repeat split. eexists. split; [reflexivity|].
        right. apply (contains_here "push budget exhausted").
    + rewrite (evaluateRules_unnamed _ _ _ _ Hnot Hge). cbn.
      repeat split. eexists. split; [reflexivity|].
      right. apply (contains_here "push budget exhausted").
Qed.

(** ** Pipeline: a push starts the cooldown *)

Lemma processEvent_pushed (env : Pipeline.Env) (st : Pipeline.State)
    (event : DeviceEvent) :
  loggedDecision
    (snd (Pipeline.processEvent JSON_parse config formatEnrichedMessage env st event))
  = Some Push ->
  Pipeline.rules
    (fst (Pipeline.processEvent JSON_parse config formatEnrichedMessage env st event))
  = RulesEngine.recordFired (subscriptionId event) (firedAt event) (Pipeline.rules st).
Proof.
  destruct (processEvent_unfold env st event) as [line Hrun]. cbn zeta in Hrun.
  rewrite Hrun. clear Hrun.
  destruct (Pipeline.decide _ _ _ _ _ _) as [decision logs]. cbn [fst snd].
  unfold loggedDecision.
  destruct (logEntries_logged logs) as [Hl _].
  destruct (FilterDecision.action decision); cbn [fst snd];
    rewrite logEntries_app, Hl; cbn; congruence.
Qed.

(** X7.  A push starts the dedup cooldown for the runs that follow: after
    a run that logged [push] for an event with a truthy [firedAt], whose
    subscription names no member of [Object.prototype], a run for an
    event of the same subscription that is not a debug event and fires
    less than the cooldown later (the entry of the table for the
    subscription, or else 1800) appends one entry, [drop] with the dedup
    reason, runs no command and leaves the rules engine as it was. *)
Theorem pushed_event_is_deduplicated (env env' : Pipeline.Env) (st : Pipeline.State)
    (event event' : DeviceEvent) :
  let first :=
    Pipeline.processEvent JSON_parse config formatEnrichedMessage env st event in
  let second :=
    Pipeline.processEvent JSON_parse config formatEnrichedMessage env' (fst first) event' in
  loggedDecision (snd first) = Some Push ->
  JS.truthy (firedAt event) = true ->
  subscriptionId event' = subscriptionId event ->
  RulesEngine.isDebug event' = false ->
  JS.inherited (subscriptionId event) = false ->
  JS.lt (JS.sub (firedAt event') (firedAt event))
        (JS.nullish (prop (subscriptionId event) RulesEngine.DEDUP_COOLDOWN)
           (JS.ofZ 1800)) = true ->
  logEntries (snd second)
  = [ {| EventLogEntry.event := event';
         EventLogEntry.decision := Drop;
         EventLogEntry.reason := RulesEngine.dedupReason event' (firedAt event);
         EventLogEntry.timestamp := Pipeline.nowAppend env' |} ]
  /\ deliveries (snd second) = []
  /\ Pipeline.rules (fst second) = Pipeline.rules (fst first).
Proof.
  cbn zeta. intros Hpush Htruthy Hsub Hdebug Hown Hlt.
  rewrite <- (cooldownOf_own _ Hown) in Hlt.
  rewrite <- Hsub in Hlt.
  pose proof (processEvent_pushed env st event Hpush) as Hrules.
  set (first := Pipeline.processEvent JSON_parse config formatEnrichedMessage env st event)
    in *.
  unfold Pipeline.processEvent at 1 2 3, Pipeline.decide.
  rewrite Hrules, <- Hsub.
  rewrite (evaluate_after_recordFired _ _ _ _ _ Hdebug Htruthy Hlt).
  cbn. auto.
Qed.

End Run.

Lemma exhausted_budget_skips_judgment_witness :
  let result :=
    Pipeline.processEvent JudgmentSamples.parse JudgmentSamples.config
      PipelineSamples.format PipelineSamples.env BudgetSamples.exhausted Samples.custom in
  Pipeline.processEvent JudgmentSamples.parse JudgmentSamples.config
    PipelineSamples.format
    (withRunner (JudgmentSamples.answers JudgmentSamples.reply) PipelineSamples.env)
    BudgetSamples.exhausted Samples.custom
  = result
  /\ loggedDecision (snd result) = Some Drop.
Proof.
  split.
  - refine (proj1 (exhausted_budget_skips_judgment JudgmentSamples.parse
                     JudgmentSamples.config PipelineSamples.format PipelineSamples.env
                     BudgetSamples.exhausted Samples.custom _) _).
    reflexivity.
  - refine (proj1 (proj2 (exhausted_budget_skips_judgment JudgmentSamples.parse
                            JudgmentSamples.config PipelineSamples.format
                            PipelineSamples.env BudgetSamples.exhausted Samples.custom _)
                     _)).
    + reflexivity.
    + unfold namedByRule. cbn. intuition discriminate.
Defined.

Lemma pushed_event_is_deduplicated_witness :
  let first :=
    Pipeline.processEvent JudgmentSamples.parse JudgmentSamples.config
      PipelineSamples.format PipelineSamples.env PipelineSamples.fresh Samples.enterHome in
  let second :=
    Pipeline.processEvent JudgmentSamples.parse JudgmentSamples.config
      PipelineSamples.format BudgetSamples.later (fst first) BudgetSamples.enterAgain in
  logEntries (snd second)
  = [ {| EventLogEntry.event := BudgetSamples.enterAgain;
         EventLogEntry.decision := Drop;
         EventLogEntry.reason :=
           RulesEngine.dedupReason BudgetSamples.enterAgain (firedAt Samples.enterHome);
         EventLogEntry.timestamp := JS.ofZ 1740000061 |} ]
  /\ deliveries (snd second) = []
  /\ Pipeline.rules (fst second) = Pipeline.rules (fst first).
Proof.
  apply (pushed_event_is_deduplicated JudgmentSamples.parse JudgmentSamples.config
           PipelineSamples.format PipelineSamples.env BudgetSamples.later
           PipelineSamples.fresh Samples.enterHome BudgetSamples.enterAgain);
    reflexivity.
Defined.

(** ** Context store: invariants *)

Lemma coherent_empty : coherent ContextManager.empty.
Proof. unfold coherent. cbn. intuition congruence. Qed.

Lemma coherent_updateFromEvent (event : DeviceEvent) (context : DeviceContext) :
  coherent context -> coherent (ContextManager.updateFromEvent event context).
Proof.
  unfold coherent, ContextManager.updateFromEvent. intros H.
  destruct (String.eqb (source event) "device.battery"); [exact H|].
  destruct (String.eqb (source event) "geofence.triggered").
  - cbn [activity device Device.location LocationState.label].
    unfold ContextManager.applyTransition.
    destruct (ContextManager.isEnter (data event)); cbn;
      intuition (try congruence; auto).
  - destruct (Str.startsWith "health" (source event)); exact H.
Qed.

Lemma coherent_applyAll (events : list DeviceEvent) :
  forall start, coherent start -> coherent (applyAll events start).
Proof.
  induction events as [|e events IH]; intros start H; [exact H|].
  apply IH. now apply coherent_updateFromEvent.
Qed.

(** X8.  The geofence state machine keeps the activity and the location
    coherent.  The empty context is coherent, every event keeps a
    coherent context coherent, and so is every context built from the
    empty one: [zoneEnteredAt] equals [stationarySince]; a current zone
    has an entry time and an entry time means stationary; the last
    transition leads to the current zone, and there is none exactly as
    long as no location is known; the label of the location is the
    current zone. *)
Theorem updateFromEvent_keeps_coherent :
  coherent ContextManager.empty
  /\ (forall (event : DeviceEvent) (context : DeviceContext),
        coherent context -> coherent (ContextManager.updateFromEvent event context))
  /\ (forall (now : num) (context : DeviceContext),
        coherent context -> coherent (ContextManager.recordPush now context))
  /\ forall events : list DeviceEvent, coherent (applyAll events ContextManager.empty).
Proof.
  split; [exact coherent_empty|].
  split; [exact coherent_updateFromEvent|].
  split; [intros now context H; exact H|].
  intros events. apply coherent_applyAll, coherent_empty.
Qed.

Lemma updateFromEvent_keeps_coherent_witness :
  coherent (ContextManager.updateFromEvent Samples.exitHome
              (ContextManager.updateFromEvent Samples.enterHome ContextManager.empty)).
Proof.
  apply (proj1 (proj2 updateFromEvent_keeps_coherent) Samples.exitHome).
  apply (proj1 (proj2 updateFromEvent_keeps_coherent) Samples.enterHome).
  exact (proj1 updateFromEvent_keeps_coherent).
Defined.

Lemma unfilled_updateFromEvent (event : DeviceEvent) (context : DeviceContext) :
  unfilled context -> unfilled (ContextManager.updateFromEvent event context).
Proof.
  unfold unfilled, ContextManager.updateFromEvent. intros [Hb Hl].
  destruct (String.eqb (source event) "device.battery").
  { cbn. split; [|exact Hl].
    destruct (Device.battery (device context)); cbn; auto. }
  destruct (String.eqb (source event) "geofence.triggered").
  { cbn. split; [exact Hb|].
    destruct (Device.location (device context)); cbn; auto. }
  destruct (Str.startsWith "health" (source event)); cbn; auto.
Qed.

(** X9.  No event fills in the state of the battery or the accuracy of
    the location: in every context built from the empty one by events, a
    battery has the state [unknown] and a location the horizontal
    accuracy 0, whatever the events carried. *)
Theorem battery_state_never_filled (events : list DeviceEvent) :
  let context := applyAll events ContextManager.empty in
  match Device.battery (device context) with
  | Some b => BatteryState.state b = "unknown"
  | None => True
  end
  /\ match Device.location (device context) with
     | Some l => LocationState.horizontalAccuracy l = JS.ofZ 0
     | None => True
     end.
Proof.
  cbn zeta. change (unfilled (applyAll events ContextManager.empty)).
  assert (H : forall start, unfilled start -> unfilled (applyAll events start)).
  { induction events as [|e events IH]; intros start Hs; [exact Hs|].
    apply IH. now apply unfilled_updateFromEvent. }
  apply H. unfold unfilled. cbn. auto.
Qed.

(** ** Pipeline: the counters of the day *)

Lemma pushesWithinEvents_update (now : num) (m : ContextMeta.t) :
  pushesWithinEvents m -> pushesWithinEvents (ContextManager.updateMeta now m)
  /\ exists p e : Q,
       ContextMeta.pushesToday (ContextManager.updateMeta now m) = JS.Fin p
       /\ ContextMeta.eventsToday (ContextManager.updateMeta now m) = JS.Fin e
       /\ (0 <= p)%Q /\ (p + 1 <= e)%Q.
Proof.
  intros (p & e & Hp & He & H0 & Hpe).
  assert (Hgoal : exists p e : Q,
       ContextMeta.pushesToday (ContextManager.updateMeta now m) = JS.Fin p
       /\ ContextMeta.eventsToday (ContextManager.updateMeta now m) = JS.Fin e
       /\ (0 <= p)%Q /\ (p + 1 <= e)%Q).
  { unfold ContextManager.updateMeta.
    destruct (ContextManager.rollover _ now); cbn.
    - exists 0%Q, (0 + 1)%Q.
      split; [reflexivity | split; [reflexivity | split; [apply Qle_refl | apply Qle_refl]]].
    - rewrite Hp, He. exists p, (e + 1)%Q.
      split; [reflexivity | split; [reflexivity | split; [exact H0|]]].
      apply Qplus_le_compat; [exact Hpe | apply Qle_refl]. }
  split; [|exact Hgoal].
  destruct Hgoal as (p' & e' & Hp' & He' & H0' & Hpe').
  exists p', e'. split; [exact Hp' | split; [exact He' | split; [exact H0'|]]].
  eapply Qle_trans; [|exact Hpe'].
  rewrite <- (Qplus_0_r p') at 1. apply Qplus_le_compat; [apply Qle_refl | discriminate].
Qed.

Lemma meta_updateFromEvent (event : DeviceEvent) (context : DeviceContext) :
  meta (ContextManager.updateFromEvent event context)
  = ContextManager.updateMeta (firedAt event) (meta context).
Proof.
  unfold ContextManager.updateFromEvent.
  destruct (String.eqb (source event) "device.battery"); [reflexivity|].
  destruct (String.eqb (source event) "geofence.triggered"); [reflexivity|].
  destruct (Str.startsWith "health" (source event)); reflexivity.
Qed.

Section Counters.

Variable JSON_parse : string -> option JSON.value.
Variable config : JudgmentLayer.Config.
Variable formatEnrichedMessage : DeviceEvent -> DeviceContext -> string.

Lemma pushesWithinEvents_processEvent (env : Pipeline.Env) (st : Pipeline.State)
    (event : DeviceEvent) :
  pushesWithinEvents (meta (Pipeline.context st)) ->
  pushesWithinEvents
    (meta (Pipeline.context
             (fst (Pipeline.processEvent JSON_parse config formatEnrichedMessage
                     env st event)))).
Proof.
  intros H.
  destruct (pushesWithinEvents_update (firedAt event) _ H) as [H1 (p & e & Hp & He & H0 & Hpe)].
  rewrite <- meta_updateFromEvent in H1, Hp, He.
  destruct (processEvent_unfold JSON_parse config formatEnrichedMessage env st event)
    as [line Hrun].
  cbn zeta in Hrun. rewrite Hrun. clear Hrun.
  destruct (FilterDecision.action _); cbn [fst Pipeline.context]; try exact H1.
  unfold pushesWithinEvents, ContextManager.recordPush. cbn.
  rewrite Hp, He. exists (p + 1)%Q, e.
  split; [reflexivity | split; [reflexivity | split; [|exact Hpe]]].
  apply Qle_trans with p; [exact H0|].
  rewrite <- (Qplus_0_r p) at 1. apply Qplus_le_compat; [apply Qle_refl | discriminate].
Qed.

(** X10.  From a context whose counters are finite with no more pushes
    than events (the empty context is one), every sequence of runs of the
    pipeline leads to such a context again: [pushesToday] never exceeds
    [eventsToday], across day changes and failed deliveries alike. *)
Theorem pushesToday_within_eventsToday (runs : list (Pipeline.Env * DeviceEvent))
    (start : Pipeline.State) :
  pushesWithinEvents (meta (Pipeline.context start)) ->
  pushesWithinEvents
    (meta (Pipeline.context
             (runAll JSON_parse config formatEnrichedMessage runs start))).
Proof.
  revert start. induction runs as [|[env event] runs IH]; intros start H; [exact H|].
  cbn [runAll fold_left]. apply IH. cbn [fst snd].
  now apply pushesWithinEvents_processEvent.
Qed.

End Counters.

Lemma pushesToday_within_eventsToday_witness :
  pushesWithinEvents
    (meta (Pipeline.context
             (runAll JudgmentSamples.parse JudgmentSamples.config PipelineSamples.format
                [ (PipelineSamples.env, Samples.enterHome);
                  (BudgetSamples.later, BudgetSamples.enterAgain) ]
                PipelineSamples.fresh))).
Proof.
  apply (pushesToday_within_eventsToday JudgmentSamples.parse JudgmentSamples.config
           PipelineSamples.format
           [ (PipelineSamples.env, Samples.enterHome);
             (BudgetSamples.later, BudgetSamples.enterAgain) ]
           PipelineSamples.fresh).
  exists 0%Q, 0%Q.
  split; [reflexivity | split; [reflexivity | split; apply Qle_refl]].
Defined.

(** ** Event log: what is appended is read back *)

Lemma join_snoc (sep : string) (l : list string) (x y : string) :
  Str.join sep ((x :: l) ++ [y])%list = Str.join sep (x :: l) ++ sep ++ y.
Proof.
  revert x. induction l as [|z l IH]; intros x; [reflexivity|].
  change (Str.join sep ((x :: z :: l) ++ [y])%list)
    with (x ++ sep ++ Str.join sep ((z :: l) ++ [y])%list).
  rewrite IH.
  change (Str.join sep (x :: z :: l)) with (x ++ sep ++ Str.join sep (z :: l)).
  now rewrite !append_assoc.
Qed.

Lemma render_snoc (e : EventLogEntry.t) (entries : list EventLogEntry.t)
    (entry : EventLogEntry.t) :
  EventLog.render ((e :: entries) ++ [entry])%list
  = EventLog.render (e :: entries) ++ EventLog.stringifyEntry entry ++ EventLog.lineBreak.
Proof.
  unfold EventLog.render. rewrite map_app. cbn [map].
  rewrite join_snoc, !append_assoc. reflexivity.
Qed.

Lemma appendAll_render (entries : list EventLogEntry.t) :
  forall (e : EventLogEntry.t) (written : list EventLogEntry.t),
    appendAll entries (Some (EventLog.render (e :: written)))
    = Some (EventLog.render ((e :: written) ++ entries)%list).
Proof.
  induction entries as [|entry entries IH]; intros e written.
  - now rewrite app_nil_r.
  - cbn [appendAll fold_left]. fold (appendAll entries).
    unfold EventLog.append. cbn [JS.nullish].
    rewrite <- render_snoc. change ((e :: written) ++ [entry])%list
      with (e :: (written ++ [entry]))%list.
    rewrite IH. cbn [app]. now rewrite <- app_assoc.
Qed.

Lemma appendAll_fresh (e : EventLogEntry.t) (entries : list EventLogEntry.t) :
  appendAll (e :: entries) None = Some (EventLog.render (e :: entries)).
Proof.
  cbn [appendAll fold_left]. fold (appendAll entries).
  change (EventLog.append e None) with (Some (EventLog.render [e])).
  apply appendAll_render.
Qed.

Lemma linesOf_render (entries : list EventLogEntry.t) :
  EventLog.linesOf (EventLog.render entries) = map EventLog.stringifyEntry entries.
Proof.
  unfold EventLog.linesOf, EventLog.render.
  destruct entries as [|e entries]; [reflexivity|].
  assert (Hbraced : Forall braced (map EventLog.stringifyEntry (e :: entries))).
  { apply List.Forall_forall. intros s Hs. apply in_map_iff in Hs as (x & <- & _).
    apply stringifyEntry_braced. }
  assert (Hlines : Forall (fun x => Chars.all notNewline x = true)
                     (map EventLog.stringifyEntry (e :: entries))).
  { apply List.Forall_forall. intros s Hs. apply in_map_iff in Hs as (x & <- & _).
    apply stringify_no_newline. }
  cbn [map] in Hbraced, Hlines |- *.
  rewrite trim_braced_line
    by (inversion Hbraced; subst; apply join_braced; assumption).
  rewrite (split_join _ _ Hlines).
  apply forallb_filter_id. apply forallb_forall.
  intros s Hs. rewrite List.Forall_forall in Hbraced.
  rewrite (braced_not_empty s (Hbraced s Hs)). reflexivity.
Qed.

Section ReadBack.

Variable parseEntry : string -> option EventLogEntry.t.

Lemma parseLines_readsBack (entries : list EventLogEntry.t) :
  Forall (readsBack parseEntry) entries ->
  EventLog.parseLines parseEntry (map EventLog.stringifyEntry entries) = Some entries.
Proof.
  induction 1 as [|e entries He _ IH]; [reflexivity|].
  cbn [map EventLog.parseLines]. unfold readsBack in He. now rewrite He, IH.
Qed.

Lemma readAll_render (entries : list EventLogEntry.t) :
  Forall (readsBack parseEntry) entries ->
  EventLog.readAll parseEntry (Some (EventLog.render entries)) = entries.
Proof.
  intros H. unfold EventLog.readAll.
  now rewrite linesOf_render, (parseLines_readsBack _ H).
Qed.

Lemma appendAll_cases (entries : list EventLogEntry.t) :
  appendAll entries None
  = match entries with
    | [] => None
    | _ => Some (EventLog.render entries)
    end.
Proof. destruct entries; [reflexivity | apply appendAll_fresh]. Qed.

(** X11.  What is appended to a new log is read back: when [JSON.parse]
    gives back each entry from its line, after [append] of the entries in
    turn [readAll] returns the same entries in the same order, [count]
    their number, and [readSince] those whose timestamp is at or after
    the bound. *)
Theorem readAll_returns_appended (entries : list EventLogEntry.t) (sinceEpoch : num) :
  Forall (readsBack parseEntry) entries ->
  let file := appendAll entries None in
  EventLog.readAll parseEntry file = entries
  /\ EventLog.count file = length entries
  /\ EventLog.readSince parseEntry sinceEpoch file
     = List.filter (fun e => JS.ge (EventLogEntry.timestamp e) sinceEpoch) entries.
Proof.
  intros H. cbn zeta. unfold EventLog.readSince.
  rewrite appendAll_cases. destruct entries as [|e entries]; [now cbn|].
  rewrite (readAll_render _ H), count_render. auto.
Qed.

(** ** Event log: a line that does not parse *)

Lemma parseLines_corrupt (lines : list string) (line : string) :
  In line lines -> parseEntry line = None ->
  EventLog.parseLines parseEntry lines = None.
Proof.
  intros Hin Hnone. induction lines as [|l lines IH]; [destruct Hin|].
  cbn [EventLog.parseLines]. destruct Hin as [-> | Hin].
  - now rewrite Hnone.
  - destruct (parseEntry l); [|reflexivity]. now rewrite (IH Hin).
Qed.

(** X12.  One line that does not parse hides the whole log: [readAll]
    and [readSince] then return no entry at all, and [rotate] returns 0
    and leaves the file as it is, however many lines [count] still
    counts. *)
Theorem corrupt_line_hides_log (raw line : string) (sinceEpoch nowMs : num) :
  In line (EventLog.linesOf raw) ->
  parseEntry line = None ->
  EventLog.readAll parseEntry (Some raw) = []
  /\ EventLog.readSince parseEntry sinceEpoch (Some raw) = []
  /\ EventLog.rotate parseEntry nowMs (Some raw) = (0%nat, Some raw)
  /\ (0 < EventLog.count (Some raw))%nat.
Proof.
  intros Hin Hnone.
  assert (Hall : EventLog.readAll parseEntry (Some raw) = []).
  { unfold EventLog.readAll. now rewrite (parseLines_corrupt _ _ Hin Hnone). }
  split; [exact Hall|].
  split; [unfold EventLog.readSince; now rewrite Hall|].
  split; [rewrite rotate_unfold, Hall; reflexivity|].
  unfold EventLog.count. destruct (EventLog.linesOf raw); [destruct Hin | cbn; lia].
Qed.

(** ** Event log: rotating twice *)

(** X13.  After [rotate] a second [rotate] does nothing, whatever the
    clock: when [JSON.parse] gives back each entry of the log from its
    line, the file that [rotate] leaves is read back as the entries it
    kept, and rotating it returns 0 and leaves it as it is. *)
Theorem rotate_twice (nowMs nowMs' : num) (file : EventLog.File) :
  Forall (readsBack parseEntry) (EventLog.readAll parseEntry file) ->
  let entries := EventLog.readAll parseEntry file in
  let once := EventLog.rotate parseEntry nowMs file in
  EventLog.readAll parseEntry (snd once)
  = (if (N.of_nat (length entries) <=? EventLog.MAX_LINES)%N then entries
     else EventLog.kept nowMs entries)
  /\ EventLog.rotate parseEntry nowMs' (snd once) = (0%nat, snd once).
Proof.
  intros H. cbn zeta. rewrite rotate_unfold. cbn zeta.
  destruct (N.of_nat (length (EventLog.readAll parseEntry file)) <=? EventLog.MAX_LINES)%N
    eqn:Hshort; cbn [snd].
  - split; [reflexivity|]. rewrite rotate_unfold. cbn zeta. now rewrite Hshort.
  - destruct (kept_spec nowMs (EventLog.readAll parseEntry file)) as (Hlen & Hin & _).
    assert (Hkept : Forall (readsBack parseEntry)
                      (EventLog.kept nowMs (EventLog.readAll parseEntry file))).
    { apply List.Forall_forall. intros e He.
      rewrite List.Forall_forall in H. apply H. now apply Hin. }
    rewrite rotate_unfold. cbn zeta. rewrite (readAll_render _ Hkept).
    split; [reflexivity|].
    assert (Hle : (N.of_nat (length (EventLog.kept nowMs (EventLog.readAll parseEntry file)))
                   <=? EventLog.MAX_LINES)%N = true).
    { apply N.leb_le. lia. }
    now rewrite Hle.
Qed.

End ReadBack.

Lemma readAll_returns_appended_witness :
  let entries := [RotateSamples.stale; RotateSamples.fresh; RotateSamples.fresh] in
  let file := appendAll entries None in
  EventLog.readAll RotateSamples.parseEntry file = entries
  /\ EventLog.count file = length entries
  /\ EventLog.readSince RotateSamples.parseEntry (JS.ofZ 1739990000) file
     = List.filter (fun e => JS.ge (EventLogEntry.timestamp e) (JS.ofZ 1739990000)) entries.
Proof.
  apply (readAll_returns_appended RotateSamples.parseEntry
           [RotateSamples.stale; RotateSamples.fresh; RotateSamples.fresh]
           (JS.ofZ 1739990000)).
  repeat (apply List.Forall_cons; [vm_compute; reflexivity|]). apply List.Forall_nil.
Defined.

Lemma corrupt_line_hides_log_witness :
  EventLog.readAll RotateSamples.parseEntry (Some LogSamples.corrupt) = []
  /\ EventLog.readSince RotateSamples.parseEntry (JS.ofZ 0) (Some LogSamples.corrupt) = []
  /\ EventLog.rotate RotateSamples.parseEntry RotateSamples.nowMs (Some LogSamples.corrupt)
     = (0%nat, Some LogSamples.corrupt)
  /\ (0 < EventLog.count (Some LogSamples.corrupt))%nat.
Proof.
  apply (corrupt_line_hides_log RotateSamples.parseEntry LogSamples.corrupt "{"
           (JS.ofZ 0) RotateSamples.nowMs).
  - vm_compute. right. left. reflexivity.
  - reflexivity.
Defined.

(** *** A log of more than 10,000 lines *)

Lemma filter_repeat {A : Type} (f : A -> bool) (x : A) (n : nat) :
  List.filter f (repeat x n) = if f x then repeat x n else [].
Proof.
  induction n as [|n IH]; [now destruct (f x)|].
  cbn [repeat List.filter]. rewrite IH. now destruct (f x).
Qed.

Lemma skipn_repeat {A : Type} (x : A) (k n : nat) :
  skipn k (repeat x n) = repeat x (n - k).
Proof.
  revert n. induction k as [|k IH]; intros [|n]; try reflexivity.
  cbn [repeat skipn Nat.sub]. apply IH.
Qed.

Lemma sample_lines_read_back (n m : nat) :
  Forall (readsBack RotateSamples.parseEntry)
    (repeat RotateSamples.stale n ++ repeat RotateSamples.fresh m).
Proof.
  apply List.Forall_forall. intros e He. apply in_app_or in He as [He | He];
    apply repeat_spec in He; subst e; vm_compute; reflexivity.
Qed.

Lemma long_is_rendered :
  RotateSamples.long
  = Some (EventLog.render (repeat RotateSamples.stale 3
                           ++ repeat RotateSamples.fresh (N.to_nat 10005))).
Proof.
  unfold RotateSamples.long, EventLog.render. rewrite map_app, !map_repeat.
  assert (Hstale : EventLog.stringifyEntry RotateSamples.stale = RotateSamples.staleLine)
    by (vm_compute; reflexivity).
  assert (Hfresh : EventLog.stringifyEntry RotateSamples.fresh = RotateSamples.freshLine)
    by (vm_compute; reflexivity).
  now rewrite Hstale, Hfresh.
Qed.

Lemma readAll_long :
  EventLog.readAll RotateSamples.parseEntry RotateSamples.long
  = (repeat RotateSamples.stale 3 ++ repeat RotateSamples.fresh (N.to_nat 10005))%list.
Proof.
  rewrite long_is_rendered. apply readAll_render. apply sample_lines_read_back.
Qed.

Lemma kept_long :
  EventLog.kept RotateSamples.nowMs
    (repeat RotateSamples.stale 3 ++ repeat RotateSamples.fresh (N.to_nat 10005))
  = repeat RotateSamples.fresh (N.to_nat 10000).
Proof.
  unfold EventLog.kept, EventLog.lastN. rewrite List.filter_app, !filter_repeat.
  assert (Hstale : JS.ge (EventLogEntry.timestamp RotateSamples.stale)
                     (EventLog.cutoff RotateSamples.nowMs) = false)
    by (vm_compute; reflexivity).
  assert (Hfresh : JS.ge (EventLogEntry.timestamp RotateSamples.fresh)
                     (EventLog.cutoff RotateSamples.nowMs) = true)
    by (vm_compute; reflexivity).
  rewrite Hstale, Hfresh. cbn [app]. rewrite skipn_repeat, repeat_length.
  change EventLog.MAX_LINES with 10000%N. f_equal; lia.
Qed.

(** On a log of three entries 40 days old followed by 10,005 entries an
    hour old, [rotate] drops the three old entries and the five oldest of
    the others. *)
Example rotate_drops_stale_entries :
  EventLog.rotate RotateSamples.parseEntry RotateSamples.nowMs RotateSamples.long
  = (8%nat, Some (EventLog.render (repeat RotateSamples.fresh (N.to_nat 10000)))).
Proof.
  rewrite rotate_unfold, readAll_long. cbv zeta. rewrite kept_long.
  rewrite length_app, !repeat_length.
  assert (Hlong : (N.of_nat (3 + N.to_nat 10005) <=? EventLog.MAX_LINES)%N = false).
  { apply N.leb_gt. change EventLog.MAX_LINES with 10000%N. lia. }
  rewrite Hlong. f_equal; lia.
Qed.

Lemma rotate_twice_witness :
  (N.of_nat (length (EventLog.readAll RotateSamples.parseEntry RotateSamples.long))
   <=? EventLog.MAX_LINES)%N = false
  /\ (let once :=
        EventLog.rotate RotateSamples.parseEntry RotateSamples.nowMs RotateSamples.long in
      EventLog.readAll RotateSamples.parseEntry (snd once)
      = (if (N.of_nat (length (EventLog.readAll RotateSamples.parseEntry
                                 RotateSamples.long))
             <=? EventLog.MAX_LINES)%N
         then EventLog.readAll RotateSamples.parseEntry RotateSamples.long
         else EventLog.kept RotateSamples.nowMs
                (EventLog.readAll RotateSamples.parseEntry RotateSamples.long))
      /\ EventLog.rotate RotateSamples.parseEntry (JS.ofZ 1750000000000) (snd once)
         = (0%nat, snd once)).
Proof.
  split.
  - rewrite readAll_long, length_app, !repeat_length.
    apply N.leb_gt. change EventLog.MAX_LINES with 10000%N. lia.
  - refine (rotate_twice RotateSamples.parseEntry RotateSamples.nowMs
              (JS.ofZ 1750000000000) RotateSamples.long _).
    rewrite readAll_long. apply sample_lines_read_back.
Defined.

(** ** Judgment layer: the fences around a reply *)

Lemma trimStart_spaces (ws s : string) :
  Chars.all Str.is_space ws = true -> Str.trimStart (ws ++ s) = Str.trimStart s.
Proof.
  induction ws as [|c ws IH]; intros H; [reflexivity|].
  cbn [Chars.all] in H. apply andb_prop in H as [Hc H].
  rewrite append_cons. cbn [Str.trimStart]. rewrite Hc. now apply IH.
Qed.

Lemma trimStart_keeps (c : ascii) (s : string) :
  Str.is_space c = false -> Str.trimStart (String c s) = String c s.
Proof. intros H. cbn [Str.trimStart]. now rewrite H. Qed.

Lemma all_rev (P : ascii -> bool) (s : string) :
  Chars.all P (Str.rev s) = Chars.all P s.
Proof.
  induction s as [|c s IH]; [reflexivity|].
  rewrite rev_cons, CharFacts.all_app, IH. cbn [Chars.all Str.str].
  rewrite andb_true_r. apply andb_comm.
Qed.

Lemma trimEnd_spaces (s ws : string) :
  Chars.all Str.is_space ws = true -> Str.trimEnd (s ++ ws) = Str.trimEnd s.
Proof.
  intros H. unfold Str.trimEnd. rewrite rev_append, trimStart_spaces; [reflexivity|].
  now rewrite all_rev.
Qed.

Lemma braced_rev (s : string) :
  braced s -> exists m, Str.rev s = String "}" (m ++ "{").
Proof.
  intros (m & ->). exists (Str.rev m).
  rewrite rev_cons, rev_append. reflexivity.
Qed.

Lemma trim_braced (ws1 s ws2 : string) :
  braced s ->
  Chars.all Str.is_space ws1 = true ->
  Chars.all Str.is_space ws2 = true ->
  Str.trim (ws1 ++ s ++ ws2) = s.
Proof.
  intros Hs H1 H2. unfold Str.trim. rewrite (trimStart_spaces _ _ H1).
  destruct Hs as (m & ->). rewrite append_cons, trimStart_keeps by reflexivity.
  rewrite <- append_cons, (trimEnd_spaces _ _ H2).
  change (String "{" (m ++ "}")) with (String "{" m ++ Str.str "}").
  now apply trimEnd_keeps.
Qed.

(** A text that does not begin with a backtick has no opening fence. *)
Lemma stripOpeningFence_none (c : ascii) (s : string) :
  Ascii.eqb c Str.backtick = false ->
  JudgmentLayer.stripOpeningFence (String c s) = String c s.
Proof.
  intros H. unfold JudgmentLayer.stripOpeningFence, JudgmentLayer.fence.
  cbn [String.prefix]. destruct (ascii_dec Str.backtick c) as [<-|_]; [|reflexivity].
  now rewrite Ascii.eqb_refl in H.
Qed.

Lemma space_not_backtick (c : ascii) :
  Str.is_space c = true -> Ascii.eqb c Str.backtick = false.
Proof. destruct c as [[] [] [] [] [] [] [] []]; vm_compute; congruence. Qed.

Lemma space_not_j (c : ascii) :
  Str.is_space c = true -> Ascii.eqb (Str.lower c) "j" = false.
Proof. destruct c as [[] [] [] [] [] [] [] []]; vm_compute; congruence. Qed.

(** The head of white space followed by a braced text. *)
Lemma head_of_padded (ws s rest : string) :
  braced s -> Chars.all Str.is_space ws = true ->
  exists c tail,
    ws ++ s ++ rest = String c tail
    /\ Ascii.eqb c Str.backtick = false
    /\ Ascii.eqb (Str.lower c) "j" = false.
Proof.
  intros (m & ->) H. destruct ws as [|c ws].
  - exists "{"%char. eexists. rewrite append_empty, append_cons.
    split; [reflexivity|]. split; reflexivity.
  - cbn [Chars.all] in H. apply andb_prop in H as [Hc _].
    exists c. eexists. rewrite append_cons. split; [reflexivity|].
    split; [now apply space_not_backtick | now apply space_not_j].
Qed.

Lemma lowercase_json (tag : string) :
  Str.lowercase tag = "json" ->
  exists a b c d, tag = String a (String b (String c (String d EmptyString))).
Proof.
  destruct tag as [|a [|b [|c [|d [|e tag]]]]]; cbn; try discriminate.
  intros _. now exists a, b, c, d.
Qed.

Lemma stripOpeningFence_padded (opened : bool) (tag ws s rest : string) :
  braced s -> Chars.all Str.is_space ws = true ->
  tag = EmptyString \/ Str.lowercase tag = "json" ->
  JudgmentLayer.stripOpeningFence
    ((if opened then JudgmentLayer.fence ++ tag else EmptyString) ++ ws ++ s ++ rest)
  = if opened then s ++ rest else ws ++ s ++ rest.
Proof.
  intros Hs Hws Htag.
  destruct (head_of_padded ws s rest Hs Hws) as (c & tail & Heq & Hc & Hj).
  assert (Htrim : Str.trimStart (ws ++ s ++ rest) = s ++ rest).
  { rewrite (trimStart_spaces _ _ Hws). destruct Hs as (m & ->).
    rewrite append_cons. now apply trimStart_keeps. }
  destruct opened.
  - unfold JudgmentLayer.stripOpeningFence.
    rewrite append_assoc, prefix_append.
    change (Str.drop 3 (JudgmentLayer.fence ++ tag ++ ws ++ s ++ rest))
      with (tag ++ ws ++ s ++ rest).
    destruct Htag as [-> | Htag].
    + rewrite append_empty, Heq.
      cbn [String.substring Str.lowercase String.prefix].
      destruct (ascii_dec "j" (Str.lower c)) as [Heqj|_].
      { rewrite <- Heqj in Hj. discriminate. }
      now rewrite <- Heq.
    + destruct (lowercase_json tag Htag) as (a & b & c' & d & ->).
      rewrite !append_cons, append_empty.
      assert (Hsub : forall t, String.substring 0 4
                (String a (String b (String c' (String d t))))
              = String a (String b (String c' (String d EmptyString)))).
      { intros t. cbn [String.substring]. destruct t; reflexivity. }
      rewrite Hsub, Htag. cbn [String.prefix Str.drop].
      repeat match goal with
             | |- context [ascii_dec ?x ?y] => destruct (ascii_dec x y); [|congruence]
             end.
      exact Htrim.
  - rewrite append_empty, Heq. rewrite stripOpeningFence_none by exact Hc.
    reflexivity.
Qed.

Lemma stripClosingFence_padded (closed : bool) (pre s ws : string) :
  braced s -> Chars.all Str.is_space ws = true ->
  JudgmentLayer.stripClosingFence
    (pre ++ s ++ ws ++ (if closed then JudgmentLayer.fence else EmptyString))
  = if closed then pre ++ s else pre ++ s ++ ws.
Proof.
  intros Hs Hws. destruct (braced_rev s Hs) as (m & Hrev).
  unfold JudgmentLayer.stripClosingFence.
  destruct closed.
  - rewrite !rev_append.
    change (Str.rev JudgmentLayer.fence) with JudgmentLayer.fence.
    rewrite !append_assoc, prefix_append.
    change (Str.drop 3 (JudgmentLayer.fence ++ Str.rev ws ++ Str.rev s ++ Str.rev pre))
      with (Str.rev ws ++ Str.rev s ++ Str.rev pre).
    rewrite trimStart_spaces by now rewrite all_rev.
    rewrite Hrev, append_cons, trimStart_keeps by reflexivity.
    rewrite <- append_cons, <- Hrev, <- rev_append, rev_involutive. reflexivity.
  - rewrite append_empty_r.
    assert (Hhead : exists c tail,
              Str.rev (pre ++ s ++ ws) = String c tail
              /\ Ascii.eqb c Str.backtick = false).
    { rewrite !rev_append, Hrev. destruct (Str.rev ws) as [|c r] eqn:Hr.
      - eexists. eexists. rewrite append_empty, !append_cons.
        split; [reflexivity | reflexivity].
      - exists c. eexists. rewrite !append_cons. split; [reflexivity|].
        apply space_not_backtick.
        assert (H : Chars.all Str.is_space (Str.rev ws) = true) by now rewrite all_rev.
        rewrite Hr in H. cbn [Chars.all] in H. now apply andb_prop in H as [H _]. }
    destruct Hhead as (c & tail & -> & Hc).
    unfold JudgmentLayer.fence. cbn [String.prefix].
    destruct (ascii_dec Str.backtick c) as [<-|_]; [|reflexivity].
    now rewrite Ascii.eqb_refl in Hc.
Qed.

(** X14.  [cleanReply] unwraps a JSON object from its code fence: for a
    reply between braces, with white space before and after it, an
    opening fence (bare or tagged [json] in any case) and a closing fence
    are each stripped whether or not the other is there, and what is left
    is the reply alone. *)
Theorem cleanReply_unwraps_reply (opened closed : bool) (tag ws1 reply ws2 : string) :
  braced reply ->
  Chars.all Str.is_space ws1 = true ->
  Chars.all Str.is_space ws2 = true ->
  tag = EmptyString \/ Str.lowercase tag = "json" ->
  JudgmentLayer.cleanReply (fenced opened closed tag ws1 reply ws2) = reply.
Proof.
  intros Hs H1 H2 Htag. unfold JudgmentLayer.cleanReply, fenced.
  rewrite (stripOpeningFence_padded opened tag ws1 reply _ Hs H1 Htag).
  destruct opened.
  - rewrite <- (append_empty (reply ++ _)).
    rewrite (stripClosingFence_padded closed EmptyString reply ws2 Hs H2).
    destruct closed; rewrite append_empty.
    + rewrite <- (append_empty reply), <- (append_empty_r reply) at 1.
      rewrite append_empty. apply (trim_braced EmptyString reply EmptyString Hs);
        reflexivity.
    + rewrite <- (append_empty (reply ++ ws2)).
      apply (trim_braced EmptyString reply ws2 Hs); [reflexivity | exact H2].
  - rewrite (stripClosingFence_padded closed ws1 reply ws2 Hs H2).
    destruct closed.
    + rewrite <- (append_empty_r reply) at 1.
      apply (trim_braced ws1 reply EmptyString Hs); [exact H1 | reflexivity].
    + now apply trim_braced.
Qed.

Lemma cleanReply_unwraps_reply_witness :
  JudgmentLayer.cleanReply
    (fenced true true "JSON" EventLog.lineBreak JudgmentSamples.reply EventLog.lineBreak)
  = JudgmentSamples.reply.
Proof.
  apply (cleanReply_unwraps_reply true true "JSON" EventLog.lineBreak
           JudgmentSamples.reply EventLog.lineBreak).
  - eexists. unfold JudgmentSamples.reply. rewrite append_cons, append_empty.
    rewrite <- !append_assoc. reflexivity.
  - reflexivity.
  - reflexivity.
  - right. reflexivity.
Defined.

(** ** Judgment layer: provider and model *)

Lemma split_acc_skip (sep : ascii) (cur s rest : string) :
  Chars.all (fun c => negb (Ascii.eqb c sep)) s = true ->
  Str.split_acc sep cur (s ++ rest) = Str.split_acc sep (Str.rev s ++ cur) rest.
Proof.
  revert cur. induction s as [|c s IH]; intros cur Hs; [reflexivity|].
  cbn [Chars.all] in Hs. apply andb_prop in Hs as [Hc Hs].
  rewrite append_cons. cbn [Str.split_acc].
  apply negb_true_iff in Hc. rewrite Hc.
  rewrite (IH _ Hs), rev_cons, append_assoc. reflexivity.
Qed.

Lemma split_acc_not_nil (sep : ascii) (s cur : string) : Str.split_acc sep cur s <> [].
Proof.
  revert cur. induction s as [|c s IH]; intros cur; cbn [Str.split_acc]; [discriminate|].
  destruct (Ascii.eqb c sep); [discriminate | apply IH].
Qed.

Lemma join_cons (sep x : string) (l : list string) :
  l <> [] -> Str.join sep (x :: l) = x ++ sep ++ Str.join sep l.
Proof. destruct l; [congruence | reflexivity]. Qed.

(** Joining the pieces of a split with the separator gives the text back. *)
Lemma join_split_acc (sep : ascii) (s cur : string) :
  Str.join (Str.str sep) (Str.split_acc sep cur s) = Str.rev cur ++ s.
Proof.
  revert cur. induction s as [|c s IH]; intros cur; cbn [Str.split_acc].
  - cbn [Str.join]. now rewrite append_empty_r.
  - destruct (Ascii.eqb_spec c sep) as [->|_].
    + rewrite join_cons by apply split_acc_not_nil. rewrite IH. reflexivity.
    + rewrite IH, rev_cons, append_assoc. reflexivity.
Qed.

Lemma split_at_first (sep : ascii) (p m : string) :
  Chars.all (fun c => negb (Ascii.eqb c sep)) p = true ->
  Str.split sep (p ++ String sep m) = p :: Str.split sep m.
Proof.
  intros Hp. unfold Str.split. rewrite (split_acc_skip _ _ _ _ Hp), append_empty_r.
  cbn [Str.split_acc]. now rewrite Ascii.eqb_refl, rev_involutive.
Qed.

Lemma split_without (sep : ascii) (s : string) :
  Chars.all (fun c => negb (Ascii.eqb c sep)) s = true -> Str.split sep s = [s].
Proof.
  intros Hs. unfold Str.split. rewrite <- (append_empty_r s) at 1.
  rewrite (split_acc_skip _ _ _ _ Hs), append_empty_r.
  cbn [Str.split_acc]. now rewrite rev_involutive.
Qed.

(** X15.  The configured model is cut at its first slash only: for a
    provider [p] without a slash, [p/m] gives the provider [p] and the
    model [m], slashes of [m] included.  A configured model without any
    slash has an empty model part, and [evaluate] then fails open
    without consulting the LLM, whatever the transport would answer. *)
Theorem llmModel_cut_at_first_slash (JSON_parse : string -> option JSON.value) :
  (forall p m : string,
     Chars.all notSlash p = true ->
     JudgmentLayer.provider (p ++ "/" ++ m) = p
     /\ JudgmentLayer.model (p ++ "/" ++ m) = m)
  /\ (forall (s : string) (pushBudgetPerDay : num) (run : JudgmentLayer.Runner)
             (isoNow : string) (event : DeviceEvent) (context : DeviceContext),
        Chars.all notSlash s = true ->
        JudgmentLayer.provider s = s
        /\ JudgmentLayer.model s = EmptyString
        /\ JudgmentLayer.evaluate JSON_parse (JudgmentLayer.mkConfig s pushBudgetPerDay)
             run isoNow event context
           = (JudgmentLayer.failOpen "llm model not configured — fail open",
              [LogWarn "betterclaw: invalid llmModel config, defaulting to push"])).
Proof.
  split.
  - intros p m Hp. unfold JudgmentLayer.provider, JudgmentLayer.model.
    change (p ++ "/" ++ m) with (p ++ String "/" m).
    rewrite (split_at_first "/" p m Hp). cbn [hd tl]. split; [reflexivity|].
    unfold Str.split. change "/" with (Str.str "/") at 1.
    rewrite join_split_acc. reflexivity.
  - intros s budget run isoNow event context Hs.
    unfold JudgmentLayer.evaluate, JudgmentLayer.provider, JudgmentLayer.model.
    cbn [JudgmentLayer.llmModel].
    rewrite (split_without "/" s Hs). cbn [hd tl Str.join Str.isEmpty].
    now rewrite orb_true_r.
Qed.

Lemma llmModel_cut_at_first_slash_witness :
  (JudgmentLayer.provider ("openrouter" ++ "/" ++ "meta-llama/llama-3") = "openrouter"
   /\ JudgmentLayer.model ("openrouter" ++ "/" ++ "meta-llama/llama-3")
      = "meta-llama/llama-3")
  /\ JudgmentLayer.model "gpt-4o-mini" = EmptyString.
Proof.
  split.
  - apply (proj1 (llmModel_cut_at_first_slash JudgmentSamples.parse)
             "openrouter" "meta-llama/llama-3").
    reflexivity.
  - refine (proj1 (proj2 (proj2 (llmModel_cut_at_first_slash JudgmentSamples.parse)
                            "gpt-4o-mini" (JS.ofZ 10) JudgmentSamples.timesOut
                            JudgmentSamples.isoNow Samples.custom ContextManager.empty
                            _))).
    reflexivity.
Defined.

(** ** Patterns: trends *)

Lemma gt_not_lt_band (ratio : num) :
  JS.gt ratio (JS.Fin (11 # 10)) = true -> JS.lt ratio (JS.Fin (9 # 10)) = false.
Proof.
  destruct ratio as [| | |q]; cbn; try congruence. intros H.
  apply Qltb_lt in H. destruct (JS.Qltb q (9 # 10)) eqn:Hlt; [|reflexivity].
  apply Qltb_lt in Hlt. exfalso.
  apply (Qlt_irrefl q). eapply Qlt_trans; [exact Hlt|].
  eapply Qlt_trans; [|exact H]. reflexivity.
Qed.

(** X16.  [computeInverseTrend] is [computeTrend] read the other way
    round, for all inputs: where one says improving the other says
    declining, they agree on stable, and both are [null] exactly when an
    average is missing. *)
Theorem computeInverseTrend_mirrors_computeTrend (recent baseline : option num) :
  PatternEngine.computeInverseTrend recent baseline
  = option_map inverse (PatternEngine.computeTrend recent baseline)
  /\ (PatternEngine.computeTrend recent baseline = None
      <-> recent = None \/ baseline = None).
Proof.
  unfold PatternEngine.computeInverseTrend, PatternEngine.computeTrend.
  destruct recent as [r|], baseline as [b|]; cbn zeta;
    try (split; [reflexivity | split; [auto | intros _; reflexivity]]).
  pose proof (gt_not_lt_band (JS.div r b)) as Hband.
  destruct (JS.gt (JS.div r b) (JS.Fin (11 # 10))) eqn:Hgt.
  - rewrite (Hband eq_refl). split; [reflexivity|].
    split; [discriminate | intros [H | H]; discriminate].
  - destruct (JS.lt (JS.div r b) (JS.Fin (9 # 10))); (split; [reflexivity|]);
      (split; [discriminate | intros [H | H]; discriminate]).
Qed.

Lemma div_positive (r b : Q) :
  (0 < b)%Q -> JS.div (JS.Fin r) (JS.Fin b) = JS.Fin (r / b).
Proof.
  intros Hb. cbn [JS.div].
  destruct (JS.Qeqb b 0) eqn:H; [|reflexivity].
  apply Qeqb_eq in H. rewrite H in Hb. now apply Qlt_irrefl in Hb.
Qed.

(** ** Patterns: averages *)

Lemma average_none (values : list num) :
  PatternEngine.average values = None <-> values = [].
Proof. destruct values; cbn; split; congruence. Qed.

Lemma metricValues_filter (k : string) (keep : EventLogEntry.t -> bool)
    (events : list EventLogEntry.t) :
  PatternEngine.metricValues k events = [] ->
  PatternEngine.metricValues k (List.filter keep events) = [].
Proof.
  unfold PatternEngine.metricValues.
  induction events as [|e events IH]; [reflexivity|].
  cbn [List.filter]. change (omap ?f (e :: events))
    with (match f e with Some y => y :: omap f events | None => omap f events end).
  cbv beta.
  destruct (prop k (data (EventLogEntry.event e))) eqn:Hk; [discriminate|].
  intros H. destruct (keep e); [|now apply IH].
  change (omap ?f (e :: ?l))
    with (match f e with Some y => y :: omap f l | None => omap f l end).
  cbv beta. rewrite Hk. now apply IH.
Qed.

Lemma average_filter (k : string) (keep : EventLogEntry.t -> bool)
    (events : list EventLogEntry.t) :
  PatternEngine.average (PatternEngine.metricValues k events) = None ->
  PatternEngine.average (PatternEngine.metricValues k (List.filter keep events)) = None.
Proof. rewrite !average_none. apply metricValues_filter. Qed.

Lemma computeTrend_none (recent baseline : option num) :
  (baseline = None -> recent = None) ->
  PatternEngine.computeTrend recent baseline = None <-> recent = None.
Proof.
  unfold PatternEngine.computeTrend. intros H.
  destruct recent as [r|], baseline as [b|]; cbn zeta.
  - destruct (JS.gt _ _); [|destruct (JS.lt _ _)]; split; discriminate.
  - specialize (H eq_refl). discriminate.
  - tauto.
  - tauto.
Qed.

Lemma computeInverseTrend_none (recent baseline : option num) :
  (baseline = None -> recent = None) ->
  PatternEngine.computeInverseTrend recent baseline = None <-> recent = None.
Proof.
  unfold PatternEngine.computeInverseTrend. intros H.
  destruct recent as [r|], baseline as [b|]; cbn zeta.
  - destruct (JS.lt _ _); [|destruct (JS.gt _ _)]; split; discriminate.
  - specialize (H eq_refl). discriminate.
  - tauto.
  - tauto.
Qed.

(** X18.  In the health trends a trend is missing exactly when its 7-day
    average is: the entries of the last 7 days are among those of the
    window, so a 7-day average always comes with a baseline, and two
    averages always give a trend.  The averages themselves are missing
    exactly when no health entry in their range carries the metric. *)
Theorem computeHealthTrends_trend_iff_recent (now : num) (entries : list EventLogEntry.t) :
  let trends := PatternEngine.computeHealthTrends now entries in
  (HealthTrends.stepsTrend trends = None <-> HealthTrends.stepsAvg7d trends = None)
  /\ (HealthTrends.sleepTrend trends = None <-> HealthTrends.sleepAvg7d trends = None)
  /\ (HealthTrends.restingHrTrend trends = None
      <-> HealthTrends.restingHrAvg7d trends = None)
  /\ (HealthTrends.stepsAvg30d trends = None -> HealthTrends.stepsAvg7d trends = None)
  /\ (HealthTrends.stepsAvg30d trends = None
      <-> PatternEngine.metricValues "stepsToday"
            (List.filter PatternEngine.isHealth entries) = []).
Proof.
  cbn zeta. unfold PatternEngine.computeHealthTrends. cbn zeta.
  cbn [HealthTrends.stepsTrend HealthTrends.stepsAvg7d HealthTrends.sleepTrend
       HealthTrends.sleepAvg7d HealthTrends.restingHrTrend HealthTrends.restingHrAvg7d
       HealthTrends.stepsAvg30d].
  split; [apply computeTrend_none, average_filter|].
  split; [apply computeTrend_none, average_filter|].
  split; [apply computeInverseTrend_none, average_filter|].
  split; [apply average_filter | apply average_none].
Qed.

(** ** Patterns: sorting *)

Section SortBy.

Variable A : Type.
Variable cmp : A -> A -> num.
Variable key : A -> Q.

(** The comparator orders by the key. *)
Hypothesis cmp_key :
  forall x y, JS.lt (cmp x y) PatternEngine.zero = JS.Qltb (key x) (key y).

Lemma insertBy_perm (x : A) (l : list A) :
  Permutation (PatternEngine.insertBy cmp x l) (x :: l).
Proof.
  induction l as [|y l IH]; [reflexivity|].
  cbn [PatternEngine.insertBy]. destruct (JS.lt (cmp x y) PatternEngine.zero);
    [reflexivity|].
  rewrite IH. apply perm_swap.
Qed.

Lemma insertBy_ascending (x : A) (l : list A) :
  ascending key l -> ascending key (PatternEngine.insertBy cmp x l).
Proof.
  induction l as [|y l IH]; intros Hl.
  - cbn. auto.
  - cbn [PatternEngine.insertBy]. rewrite cmp_key.
    destruct Hl as [Hy Hl].
    destruct (JS.Qltb (key x) (key y)) eqn:Hlt.
    + apply Qltb_lt in Hlt. cbn [ascending]. split; [|split; assumption].
      apply List.Forall_cons; [now apply Qlt_le_weak|].
      eapply List.Forall_impl; [|exact Hy]. cbn. intros z Hz.
      eapply Qle_trans; [apply Qlt_le_weak; exact Hlt | exact Hz].
    + assert (Hle : (key y <= key x)%Q).
      { apply Qnot_lt_le. intros H. apply Qltb_lt in H. congruence. }
      cbn [ascending]. split; [|now apply IH].
      apply List.Forall_forall. intros z Hz.
      apply (Permutation_in _ (insertBy_perm x l)) in Hz.
      destruct Hz as [<- | Hz]; [exact Hle|].
      rewrite List.Forall_forall in Hy. now apply Hy.
Qed.

Lemma sortBy_acc (l : list A) :
  forall acc : list A,
    ascending key acc ->
    let sorted := fold_left (fun acc x => PatternEngine.insertBy cmp x acc) l acc in
    ascending key sorted /\ Permutation sorted (acc ++ l)%list.
Proof.
  induction l as [|x l IH]; intros acc Hacc; cbn zeta.
  - cbn [fold_left]. rewrite app_nil_r. auto.
  - cbn [fold_left].
    destruct (IH _ (insertBy_ascending x acc Hacc)) as [Hs Hp].
    split; [exact Hs|]. rewrite Hp, insertBy_perm.
    apply Permutation_middle.
Qed.

Lemma sortBy_sorts (l : list A) :
  ascending key (PatternEngine.sortBy cmp l)
  /\ Permutation (PatternEngine.sortBy cmp l) l.
Proof. apply (sortBy_acc l []). exact I. Qed.

End SortBy.

Lemma insertBy_map {A B : Type} (f : A -> B) (cmp : B -> B -> num) (x : A) (l : list A) :
  PatternEngine.insertBy cmp (f x) (map f l)
  = map f (PatternEngine.insertBy (fun a b => cmp (f a) (f b)) x l).
Proof.
  induction l as [|y l IH]; [reflexivity|].
  cbn [map PatternEngine.insertBy].
  destruct (JS.lt (cmp (f x) (f y)) PatternEngine.zero); [reflexivity|].
  cbn [map]. now rewrite IH.
Qed.

Lemma sortBy_map {A B : Type} (f : A -> B) (cmp : B -> B -> num) (l : list A) :
  PatternEngine.sortBy cmp (map f l)
  = map f (PatternEngine.sortBy (fun a b => cmp (f a) (f b)) l).
Proof.
  unfold PatternEngine.sortBy.
  change (@nil B) with (map f []). generalize (@nil A) as acc.
  induction l as [|x l IH]; intros acc; [reflexivity|].
  cbn [map fold_left]. rewrite insertBy_map. apply IH.
Qed.

Lemma lt_sub_finite (a b : Q) :
  JS.lt (JS.sub (JS.Fin a) (JS.Fin b)) PatternEngine.zero = JS.Qltb a b.
Proof.
  cbn. apply eq_true_iff_eq. rewrite !Qltb_lt. split; intros H.
  - apply (Qplus_lt_l _ _ (- b)). now rewrite Qplus_opp_r.
  - apply (Qplus_lt_l _ _ (- b)) in H. now rewrite Qplus_opp_r in H.
Qed.

Lemma ascending_app {A : Type} (key : A -> Q) (l1 l2 : list A) :
  ascending key (l1 ++ l2)%list ->
  ascending key l1 /\ ascending key l2
  /\ forall x y, In x l1 -> In y l2 -> (key x <= key y)%Q.
Proof.
  induction l1 as [|a l1 IH]; cbn [app ascending].
  - intros H. split; [exact I|]. split; [exact H|]. intros x y [].
  - intros [Ha H]. destruct (IH H) as (H1 & H2 & Hcross).
    apply Forall_app in Ha as [Ha1 Ha2].
    split; [split; assumption|]. split; [exact H2|].
    intros x y [<- | Hx] Hy.
    + rewrite List.Forall_forall in Ha2. now apply Ha2.
    + now apply Hcross.
Qed.

Lemma midpoint_between (a b : Q) :
  (a <= b)%Q -> (a <= (a + b) / 2)%Q /\ ((a + b) / 2 <= b)%Q.
Proof.
  intros H. split.
  - apply Qle_shift_div_l; [reflexivity|].
    setoid_replace (a * 2)%Q with (a + a)%Q using relation Qeq by ring.
    apply Qplus_le_compat; [apply Qle_refl | exact H].
  - apply Qle_shift_div_r; [reflexivity|].
    setoid_replace (b * 2)%Q with (b + b)%Q using relation Qeq by ring.
    apply Qplus_le_compat; [exact H | apply Qle_refl].
Qed.

Lemma at_middle (lower : list Q) (b : Q) (upper : list Q) :
  PatternEngine.at_ (map JS.Fin (lower ++ b :: upper)) (Z.of_nat (length lower))
  = JS.Fin b.
Proof.
  unfold PatternEngine.at_.
  destruct (Z.ltb_spec (Z.of_nat (length lower)) 0) as [H|_]; [lia|].
  rewrite Nat2Z.id, map_app. cbn [map].
  rewrite <- (length_map JS.Fin lower). apply nth_middle.
Qed.

(** X20.  [median] of finite values splits them in two halves around
    it: the values can be arranged as a lower part, none above the
    median, followed by an upper part, none below it, the upper part as
    long as the lower one or longer by one.  Of no value at all the
    median is NaN. *)
Theorem median_splits_values (qs : list Q) :
  PatternEngine.median [] = JS.NaN
  /\ (qs <> [] ->
      exists (m : Q) (lower upper : list Q),
        PatternEngine.median (map JS.Fin qs) = JS.Fin m
        /\ Permutation (lower ++ upper)%list qs
        /\ Forall (fun q => q <= m)%Q lower
        /\ Forall (fun q => m <= q)%Q upper
        /\ (length upper = length lower \/ length upper = S (length lower))).
Proof.
  split; [reflexivity|]. intros Hne.
  unfold PatternEngine.median.
  rewrite (sortBy_map JS.Fin (fun a b => JS.sub a b) qs).
  destruct (sortBy_sorts Q (fun a b => JS.sub (JS.Fin a) (JS.Fin b)) (fun q => q)
              lt_sub_finite qs) as [Hasc Hperm].
  set (sq := PatternEngine.sortBy (fun a b => JS.sub (JS.Fin a) (JS.Fin b)) qs) in *.
  cbn zeta. rewrite length_map.
  assert (Hlen : length sq = length qs) by now apply Permutation_length.
  assert (Hpos : (0 < length sq)%nat).
  { rewrite Hlen. destruct qs; [congruence | cbn; lia]. }
  set (n := length sq) in *.
  set (mid := (n / 2)%nat).
  assert (Hmid : (Z.of_nat n / 2 = Z.of_nat mid)%Z).
  { unfold mid. now rewrite Nat2Z.inj_div. }
  assert (Hmod : (Z.of_nat n mod 2 = Z.of_nat (n mod 2))%Z).
  { now rewrite Nat2Z.inj_mod. }
  assert (Hdiv : n = (2 * mid + n mod 2)%nat) by (unfold mid; apply Nat.div_mod_eq).
  assert (Hlt : (n mod 2 < 2)%nat) by (apply Nat.mod_upper_bound; lia).
  rewrite Hmid, Hmod. clearbody mid.
  assert (Hn : length sq = n) by reflexivity. clearbody n.
  pose proof (firstn_skipn mid sq) as Hsplit.
  assert (Hlower : length (firstn mid sq) = mid).
  { apply firstn_length_le. lia. }
  assert (Hupper : length (skipn mid sq) = (n - mid)%nat)
    by (rewrite length_skipn; lia).
  destruct (skipn mid sq) as [|b upper] eqn:Hskip.
  { cbn in Hupper. lia. }
  cbn [length] in Hupper.
  remember (firstn mid sq) as half eqn:Hhalf. clear Hhalf.
  destruct (n mod 2)%nat as [|[|k]] eqn:Hparity; [| |lia].
  - (* an even number of values *)
    change (Z.of_nat 0 =? 0)%Z with true. cbv iota.
    destruct (exists_last (l := half)) as (lower & a & Hlast).
    { intros E. rewrite E in Hlower. cbn in Hlower. lia. }
    rewrite Hlast in Hsplit, Hlower. rewrite length_app in Hlower. cbn in Hlower.
    assert (Hsq : sq = (lower ++ a :: b :: upper)%list).
    { rewrite <- Hsplit, <- app_assoc. reflexivity. }
    assert (Ha : PatternEngine.at_ (map JS.Fin sq) (Z.of_nat mid - 1) = JS.Fin a).
    { replace (Z.of_nat mid - 1)%Z with (Z.of_nat (length lower)) by lia.
      rewrite Hsq. apply at_middle. }
    assert (Hb : PatternEngine.at_ (map JS.Fin sq) (Z.of_nat mid) = JS.Fin b).
    { replace (Z.of_nat mid) with (Z.of_nat (length (lower ++ [a])%list))
        by (rewrite length_app; cbn; lia).
      rewrite <- Hsplit. apply at_middle. }
    rewrite Ha, Hb.
    rewrite <- Hsplit in Hasc.
    destruct (ascending_app _ _ _ Hasc) as (Hl & Hu & Hcross).
    destruct (ascending_app _ _ _ Hl) as (_ & _ & Hbelow).
    assert (Hab : (a <= b)%Q).
    { apply Hcross; [apply in_or_app; right; now left | now left]. }
    destruct (midpoint_between a b Hab) as [Hm1 Hm2].
    exists ((a + b) / 2)%Q, (lower ++ [a])%list, (b :: upper).
    split; [reflexivity|].
    split; [now rewrite Hsplit|].
    split.
    { apply Forall_app. split.
      - apply List.Forall_forall. intros x Hx.
        eapply Qle_trans; [|exact Hm1]. apply Hbelow; [exact Hx | now left].
      - apply List.Forall_cons; [exact Hm1 | apply List.Forall_nil]. }
    split.
    { apply List.Forall_cons; [exact Hm2|].
      destruct Hu as [Hu _]. eapply List.Forall_impl; [|exact Hu].
      cbn. intros y Hy. eapply Qle_trans; [exact Hm2 | exact Hy]. }
    left. rewrite length_app. cbn. lia.
  - (* an odd number of values *)
    change (Z.of_nat 1 =? 0)%Z with false. cbv iota.
    assert (Hb : PatternEngine.at_ (map JS.Fin sq) (Z.of_nat mid) = JS.Fin b).
    { rewrite <- Hsplit, <- Hlower. apply at_middle. }
    rewrite Hb. rewrite <- Hsplit in Hasc.
    destruct (ascending_app _ _ _ Hasc) as (Hl & Hu & Hcross).
    exists b, half, (b :: upper).
    split; [reflexivity|].
    split; [now rewrite Hsplit|].
    split.
    { apply List.Forall_forall. intros x Hx. apply Hcross; [exact Hx | now left]. }
    split.
    { apply List.Forall_cons; [apply Qle_refl|]. now destruct Hu. }
    right. cbn [length]. lia.
Qed.

Lemma median_splits_values_witness :
  exists (m : Q) (lower upper : list Q),
    PatternEngine.median (map JS.Fin [9; 7; 8]%Q) = JS.Fin m
    /\ Permutation (lower ++ upper)%list [9; 7; 8]%Q
    /\ Forall (fun q => q <= m)%Q lower
    /\ Forall (fun q => m <= q)%Q upper
    /\ (length upper = length lower \/ length upper = S (length lower)).
Proof.
  apply (proj2 (median_splits_values [9; 7; 8]%Q)). discriminate.
Defined.

(** ** Patterns: event statistics *)

Lemma div_counts (a b : nat) :
  (0 < b)%nat ->
  JS.div (JS.ofZ (Z.of_nat a)) (JS.ofZ (Z.of_nat b))
  = JS.Fin (inject_Z (Z.of_nat a) / inject_Z (Z.of_nat b)).
Proof.
  intros Hb. apply div_positive. rewrite <- (Zlt_Qlt 0). lia.
Qed.

Lemma ratio_bounds (a b : nat) :
  (a <= b)%nat -> (0 < b)%nat ->
  (0 <= inject_Z (Z.of_nat a) / inject_Z (Z.of_nat b))%Q
  /\ (inject_Z (Z.of_nat a) / inject_Z (Z.of_nat b) <= 1)%Q.
Proof.
  intros Hab Hb.
  assert (Hpos : (0 < inject_Z (Z.of_nat b))%Q) by (rewrite <- (Zlt_Qlt 0); lia).
  split.
  - apply Qle_shift_div_l; [exact Hpos|]. rewrite Qmult_0_l.
    rewrite <- (Zle_Qle 0). lia.
  - apply Qle_shift_div_r; [exact Hpos|]. rewrite Qmult_1_l.
    rewrite <- Zle_Qle. lia.
Qed.

Lemma filter_length_le {A : Type} (f : A -> bool) (l : list A) :
  (length (List.filter f l) <= length l)%nat.
Proof.
  induction l as [|x l IH]; [reflexivity|].
  cbn [List.filter]. destruct (f x); cbn [length]; lia.
Qed.

(** X21.  The rates of [computeEventStats] are finite and in range: the
    events and the pushes per day are the counts of the last 7 days over
    7, with no more pushes than events, and the drop rate lies between 0
    and 1; it is 0 when the last 7 days hold no entry. *)
Theorem computeEventStats_rates_in_range (now : num) (entries : list EventLogEntry.t) :
  let stats := PatternEngine.computeEventStats now entries in
  let recent := last7d now entries in
  exists e p d : Q,
    EventStats.eventsPerDay7d stats = JS.Fin e
    /\ EventStats.pushesPerDay7d stats = JS.Fin p
    /\ EventStats.dropRate7d stats = JS.Fin d
    /\ (e == inject_Z (Z.of_nat (length recent)) / 7)%Q
    /\ (0 <= p)%Q /\ (p <= e)%Q
    /\ (0 <= d)%Q /\ (d <= 1)%Q
    /\ match recent with
       | [] => EventStats.dropRate7d stats = JS.ofZ 0
       | _ => True
       end.
Proof.
  cbn zeta. unfold PatternEngine.computeEventStats. cbn zeta. fold (last7d now entries).
  set (recent := last7d now entries).
  cbn [EventStats.eventsPerDay7d EventStats.pushesPerDay7d EventStats.dropRate7d].
  change (JS.max (JS.ofZ 1) (JS.ofZ 7)) with (JS.ofZ (Z.of_nat 7)).
  rewrite !div_counts by lia.
  pose proof (filter_length_le (PatternEngine.isDecision Push) recent) as Hp.
  pose proof (filter_length_le (PatternEngine.isDecision Drop) recent) as Hd.
  set (np := length (List.filter (PatternEngine.isDecision Push) recent)) in *.
  set (nd := length (List.filter (PatternEngine.isDecision Drop) recent)) in *.
  assert (H7 : (0 < inject_Z (Z.of_nat 7))%Q) by reflexivity.
  assert (Hrate : exists d : Q,
            match recent with
            | [] => JS.ofZ 0
            | _ :: _ => JS.div (JS.ofZ (Z.of_nat nd)) (JS.ofZ (Z.of_nat (length recent)))
            end = JS.Fin d /\ (0 <= d)%Q /\ (d <= 1)%Q).
  { destruct recent as [|r recent'] eqn:Hr.
    - exists 0%Q. split; [reflexivity|]. split; discriminate.
    - rewrite div_counts by (cbn; lia). eexists. split; [reflexivity|].
      apply ratio_bounds; [exact Hd | cbn; lia]. }
  destruct Hrate as (d & Hd1 & Hd2 & Hd3).
  eexists. eexists. exists d.
  split; [reflexivity|]. split; [reflexivity|]. split; [exact Hd1|].
  split; [reflexivity|].
  split.
  { apply Qle_shift_div_l; [exact H7|]. rewrite Qmult_0_l.
    rewrite <- (Zle_Qle 0). lia. }
  split.
  { apply Qmult_le_compat_r; [rewrite <- Zle_Qle; lia|].
    apply Qinv_le_0_compat. discriminate. }
  split; [exact Hd2|]. split; [exact Hd3|].
  destruct recent; [reflexivity | exact I].
Qed.

(** ** Patterns: the most frequent sources *)

Lemma bump_prop (src s : string) (counts : list (string * Z)) :
  prop s (PatternEngine.bump src counts)
  = if String.eqb s src then Some (JS.nullish (prop src counts) 0 + 1)%Z
    else prop s counts.
Proof.
  induction counts as [|[k n] counts IH].
  - cbn [PatternEngine.bump prop JS.nullish]. destruct (String.eqb s src); reflexivity.
  - cbn [PatternEngine.bump prop].
    destruct (String.eqb_spec k src) as [->|Hk].
    + cbn [prop]. rewrite String.eqb_refl. cbn [JS.nullish].
      destruct (String.eqb s src); reflexivity.
    + cbn [prop]. rewrite IH.
      destruct (String.eqb_spec src k) as [E|_]; [congruence|].
      destruct (String.eqb_spec s k) as [->|_]; [|reflexivity].
      destruct (String.eqb_spec k src) as [E|_]; [congruence | reflexivity].
Qed.

Lemma bump_keys (src : string) (counts : list (string * Z)) :
  List.NoDup (map fst counts) ->
  List.NoDup (map fst (PatternEngine.bump src counts))
  /\ forall s, In s (map fst (PatternEngine.bump src counts))
               <-> s = src \/ In s (map fst counts).
Proof.
  induction counts as [|[k n] counts IH]; intros Hnd.
  - cbn [PatternEngine.bump map fst].
    split; [constructor; [intros [] | constructor]|]. intros s. cbn [In]. intuition auto.
  - cbn [PatternEngine.bump]. inversion Hnd as [|? ? Hk Hnd']; subst.
    destruct (String.eqb_spec k src) as [->|Hne].
    + cbn [map fst]. split; [exact Hnd|]. intros s. cbn [In]. intuition auto.
    + destruct (IH Hnd') as [IH1 IH2]. cbn [map fst]. split.
      * constructor; [|exact IH1]. rewrite IH2. intros [E | Hin]; [congruence | auto].
      * intros s. cbn [In]. rewrite IH2. intuition auto.
Qed.

Lemma prop_in (s : string) (c : Z) (counts : list (string * Z)) :
  List.NoDup (map fst counts) -> In (s, c) counts -> prop s counts = Some c.
Proof.
  induction counts as [|[k n] counts IH]; intros Hnd Hin; [destruct Hin|].
  inversion Hnd as [|? ? Hk Hnd']; subst. cbn [prop].
  destruct Hin as [E | Hin].
  - injection E as -> ->. now rewrite String.eqb_refl.
  - destruct (String.eqb_spec s k) as [->|_]; [|now apply IH].
    exfalso. apply Hk. apply in_map_iff. now exists (k, c).
Qed.

Lemma prop_none (s : string) (counts : list (string * Z)) :
  prop s counts = None <-> ~ In s (map fst counts).
Proof.
  induction counts as [|[k n] counts IH]; cbn [prop map fst In]; [tauto|].
  destruct (String.eqb_spec s k) as [->|Hne].
  - split; [discriminate | tauto].
  - rewrite IH. intuition congruence.
Qed.

(** The counts that the loop of [computeEventStats] leaves. *)
Lemma sourceCounts_spec (entries : list EventLogEntry.t) :
  forall acc : list (string * Z),
    List.NoDup (map fst acc) ->
    let counts :=
      fold_left (fun acc e => PatternEngine.bump (source (EventLogEntry.event e)) acc)
        entries acc in
    List.NoDup (map fst counts)
    /\ forall s,
         prop s counts
         = match occurrences s entries with
           | O => prop s acc
           | n => Some (JS.nullish (prop s acc) 0 + Z.of_nat n)%Z
           end.
Proof.
  unfold occurrences.
  induction entries as [|e entries IH]; intros acc Hacc; cbn zeta.
  - cbn. auto.
  - cbn [fold_left].
    destruct (bump_keys (source (EventLogEntry.event e)) acc Hacc) as [Hnd _].
    destruct (IH _ Hnd) as [H1 H2]. cbn zeta in H1, H2.
    split; [exact H1|]. intros s. rewrite H2, bump_prop. cbn [List.filter].
    rewrite (String.eqb_sym s).
    destruct (String.eqb_spec (source (EventLogEntry.event e)) s) as [->|_].
    + cbn [length JS.nullish].
      destruct (length (List.filter _ entries)) as [|n]; [f_equal; lia|].
      f_equal. lia.
    + reflexivity.
Qed.

Lemma lt_counts (x y : string * Z) :
  JS.lt (JS.sub (JS.ofZ (snd y)) (JS.ofZ (snd x))) PatternEngine.zero
  = JS.Qltb (inject_Z (- snd x)) (inject_Z (- snd y)).
Proof.
  unfold JS.ofZ. rewrite lt_sub_finite.
  apply eq_true_iff_eq. rewrite !Qltb_lt, <- !Zlt_Qlt. lia.
Qed.

(** X22.  [topSources] lists the most frequent sources of the last 7
    days: at most five, each once, each the source of an entry, and no
    source left out has more entries than a source listed; nothing is
    left out unless five are listed. *)
Theorem topSources_most_frequent (now : num) (entries : list EventLogEntry.t) :
  let top := EventStats.topSources (PatternEngine.computeEventStats now entries) in
  let recent := last7d now entries in
  (length top <= 5)%nat
  /\ List.NoDup top
  /\ Forall (fun s => (0 < occurrences s recent)%nat) top
  /\ Forall (fun s =>
               forall s', ~ In s' top ->
                          (occurrences s' recent <= occurrences s recent)%nat) top
  /\ forall s', (0 < occurrences s' recent)%nat -> In s' top \/ length top = 5%nat.
Proof.
  cbn zeta. unfold PatternEngine.computeEventStats. cbn zeta. fold (last7d now entries).
  set (recent := last7d now entries).
  cbn [EventStats.topSources].
  destruct (sourceCounts_spec recent [] (List.NoDup_nil _)) as [Hnd Hprop].
  cbn zeta in Hnd, Hprop.
  set (counts :=
         fold_left (fun acc e => PatternEngine.bump (source (EventLogEntry.event e)) acc)
           recent []) in *.
  destruct (sortBy_sorts (string * Z)
              (fun a b => JS.sub (JS.ofZ (snd b)) (JS.ofZ (snd a)))
              (fun a => inject_Z (- snd a)) lt_counts counts) as [Hasc Hperm].
  set (sorted :=
         PatternEngine.sortBy (fun a b => JS.sub (JS.ofZ (snd b)) (JS.ofZ (snd a))) counts)
    in *.
  assert (Hcount : forall s c, In (s, c) sorted -> c = Z.of_nat (occurrences s recent)
                                                   /\ (0 < occurrences s recent)%nat).
  { intros s c Hin. apply (Permutation_in _ Hperm) in Hin.
    pose proof (prop_in s c counts Hnd Hin) as Hs. rewrite Hprop in Hs.
    cbn [prop JS.nullish] in Hs.
    destruct (occurrences s recent) as [|n]; [discriminate|].
    injection Hs as <-. split; lia. }
  assert (Hkeys : forall s, (0 < occurrences s recent)%nat -> In s (map fst sorted)).
  { intros s Hs. apply (Permutation_in s (Permutation_map fst (Permutation_sym Hperm))).
    destruct (in_dec string_dec s (map fst counts)) as [Hin|Hnot]; [exact Hin|].
    apply prop_none in Hnot. rewrite Hprop in Hnot.
    destruct (occurrences s recent); [lia | discriminate]. }
  assert (Hnds : List.NoDup (map fst sorted)).
  { eapply Permutation.Permutation_NoDup; [|exact Hnd].
    apply Permutation_map, Permutation_sym, Hperm. }
  pose proof (firstn_skipn 5 sorted) as Hsplit.
  rewrite <- Hsplit in Hasc, Hnds. rewrite map_app in Hnds.
  destruct (ascending_app _ _ _ Hasc) as (_ & _ & Hcross).
  split; [rewrite length_map; apply firstn_le_length|].
  split; [exact (List.NoDup_app_remove_r _ _ Hnds)|].
  split.
  { apply List.Forall_forall. intros s Hs. apply in_map_iff in Hs as ([s0 c] & <- & Hin).
    cbn [fst]. apply (Hcount s0 c). rewrite <- Hsplit. apply in_or_app. now left. }
  split.
  { apply List.Forall_forall. intros s Hs s' Hnot.
    apply in_map_iff in Hs as ([s0 c] & <- & Hin). cbn [fst].
    destruct (Nat.eq_dec (occurrences s' recent) 0) as [->|Hpos]; [lia|].
    assert (Hin' : In s' (map fst sorted)) by (apply Hkeys; lia).
    rewrite <- Hsplit, map_app in Hin'. apply in_app_or in Hin' as [Hin' | Hin'];
      [contradiction|].
    apply in_map_iff in Hin' as ([s1 c'] & E & Hin'). cbn [fst] in E. subst s1.
    specialize (Hcross _ _ Hin Hin'). cbn [snd] in Hcross.
    rewrite <- Zle_Qle in Hcross.
    destruct (Hcount s0 c) as [-> _]; [rewrite <- Hsplit; apply in_or_app; now left|].
    destruct (Hcount s' c') as [-> _]; [rewrite <- Hsplit; apply in_or_app; now right|].
    lia. }
  intros s' Hs'. rewrite length_map.
  pose proof (Hkeys s' Hs') as Hin. rewrite <- Hsplit, map_app in Hin.
  apply in_app_or in Hin as [Hin | Hin]; [now left|]. right.
  destruct (skipn 5 sorted) as [|x rest] eqn:Hskip; [destruct Hin|].
  apply firstn_length_le.
  assert (Hlen : length (skipn 5 sorted) = (length sorted - 5)%nat) by apply length_skipn.
  rewrite Hskip in Hlen. cbn [length] in Hlen. lia.
Qed.

Lemma topSources_most_frequent_witness :
  let top :=
    EventStats.topSources
      (PatternEngine.computeEventStats (JS.ofZ 1740000000) PatternSamples.entries) in
  In "health.summary" top \/ length top = 5%nat.
Proof.
  refine (proj2 (proj2 (proj2 (proj2
            (topSources_most_frequent (JS.ofZ 1740000000) PatternSamples.entries))))
            "health.summary" _).
  vm_compute. lia.
Defined.

(** ** Patterns: location routines *)

Lemma record_keys (zone : string) (enter : bool) (hour : num) (zones : PatternEngine.Zones) :
  forall s, In s (map fst (PatternEngine.record zone enter hour zones))
            <-> s = zone \/ In s (map fst zones).
Proof.
  induction zones as [|[z [arrives leaves]] zones IH]; intros s.
  - cbn. intuition auto.
  - cbn [PatternEngine.record]. destruct (String.eqb_spec z zone) as [->|Hne].
    + cbn [map fst In]. intuition auto.
    + cbn [map fst In]. rewrite IH. intuition auto.
Qed.

Lemma record_zonesOf (entries : list EventLogEntry.t) (e : EventLogEntry.t)
    (enter : bool) (hour : num) (zones : PatternEngine.Zones) :
  In e entries -> PatternEngine.isGeofence e = true ->
  zonesOf entries zones ->
  zonesOf entries (PatternEngine.record (zoneOf e) enter hour zones).
Proof.
  intros Hin Hgeo. unfold zonesOf.
  induction zones as [|[z [arrives leaves]] zones IH]; intros [Hnd Hall].
  - cbn [PatternEngine.record map fst]. split.
    + constructor; [intros [] | constructor].
    + apply List.Forall_cons; [|apply List.Forall_nil]. cbn [fst snd]. split.
      * destruct enter; [left | right]; discriminate.
      * now exists e.
  - cbn [PatternEngine.record].
    inversion Hnd as [|? ? Hz Hnd']; subst.
    inversion Hall as [|? ? [Hne Hsrc] Hall']; subst.
    cbn [fst snd] in Hne, Hsrc.
    destruct (String.eqb_spec z (zoneOf e)) as [Heq|Hneq].
    + split; [exact Hnd|]. apply List.Forall_cons; [|exact Hall']. cbn [fst snd].
      split; [|exact Hsrc].
      destruct enter; cbn [fst snd]; [left | right];
        intros E; apply app_eq_nil in E as [_ E]; discriminate.
    + destruct (IH (conj Hnd' Hall')) as [IH1 IH2]. split.
      * cbn [map fst]. constructor; [|exact IH1].
        rewrite record_keys. intros [E | Hin']; [congruence | contradiction].
      * apply List.Forall_cons; [|exact IH2]. cbn [fst snd]. split; assumption.
Qed.

Lemma formatRoutines_zonesOf (entries : list EventLogEntry.t) (zones : PatternEngine.Zones) :
  zonesOf entries zones -> routinesOf entries (PatternEngine.formatRoutines zones).
Proof.
  unfold zonesOf, routinesOf, PatternEngine.formatRoutines. intros [Hnd Hall]. split.
  - rewrite map_map.
    replace (map (fun zd => LocationRoutine.zone _) zones) with (map fst zones);
      [exact Hnd|].
    apply map_ext. now intros [z [a l]].
  - apply List.Forall_forall. intros r Hr.
    apply in_map_iff in Hr as ([z [arrives leaves]] & <- & Hin).
    rewrite List.Forall_forall in Hall. destruct (Hall _ Hin) as [Hne Hsrc].
    cbn [fst snd] in Hne, Hsrc.
    cbn [LocationRoutine.typicalArrive LocationRoutine.typicalLeave LocationRoutine.zone].
    split; [|exact Hsrc].
    destruct Hne as [Hne | Hne]; [left | right].
    + destruct arrives; [congruence | discriminate].
    + destruct leaves; [congruence | discriminate].
Qed.

(** X23.  The location routines name each zone once per list, each with
    an arrival or a departure time, and only zones of [geofence.triggered]
    entries of the log (the zone name of the entry, or [Unknown] without
    one); without such entries both lists are empty. *)
Theorem computeLocationRoutines_zones (tz : Date.TimeZone)
    (entries : list EventLogEntry.t) :
  let routines := PatternEngine.computeLocationRoutines tz entries in
  routinesOf entries (Routines.weekday routines)
  /\ routinesOf entries (Routines.weekend routines)
  /\ match List.filter PatternEngine.isGeofence entries with
     | [] => Routines.weekday routines = [] /\ Routines.weekend routines = []
     | _ => True
     end.
Proof.
  cbn zeta. unfold PatternEngine.computeLocationRoutines.
  match goal with
  | |- context [fold_left ?f _ _] => set (step := f)
  end.
  assert (Hfold : forall geos acc,
            (forall e, In e geos -> In e entries /\ PatternEngine.isGeofence e = true) ->
            zonesOf entries (fst acc) -> zonesOf entries (snd acc) ->
            zonesOf entries (fst (fold_left step geos acc))
            /\ zonesOf entries (snd (fold_left step geos acc))).
  { induction geos as [|e geos IH]; intros [wd we] Hgeos Hwd Hwe; [now split|].
    cbn [fold_left]. apply IH.
    - intros e' He'. apply Hgeos. now right.
    - destruct (Hgeos e (or_introl eq_refl)) as [Hin Hgeo].
      unfold step. cbn [fst snd] in *.
      destruct (_ || _); cbn [fst]; [exact Hwd|].
      now apply (record_zonesOf entries e).
    - destruct (Hgeos e (or_introl eq_refl)) as [Hin Hgeo].
      unfold step. cbn [fst snd] in *.
      destruct (_ || _); cbn [snd]; [|exact Hwe].
      now apply (record_zonesOf entries e). }
  assert (Hempty : zonesOf entries []).
  { split; [constructor | apply List.Forall_nil]. }
  destruct (Hfold (List.filter PatternEngine.isGeofence entries) ([], [])) as [Hwd Hwe];
    [|exact Hempty|exact Hempty|].
  { intros e He. apply filter_In in He. exact He. }
  destruct (List.filter PatternEngine.isGeofence entries) as [|g geos] eqn:Hgeos.
  - cbn. repeat split; constructor.
  - destruct (fold_left step (g :: geos) ([], [])) as [wd we].
    cbn [fst snd Routines.weekday Routines.weekend] in *.
    split; [now apply formatRoutines_zonesOf|].
    split; [now apply formatRoutines_zonesOf | exact I].
Qed.

(** ** Patterns and triggers: the hour of a routine *)

Lemma Qfloor_unique (x : Q) (z : Z) :
  (inject_Z z <= x)%Q -> (x < inject_Z (z + 1))%Q -> Qfloor x = z.
Proof.
  intros Hle Hlt.
  assert (H1 : (z <= Qfloor x)%Z).
  { rewrite <- (Qfloor_Z z). now apply Qfloor_resp_le. }
  assert (H2 : (Qfloor x < z + 1)%Z).
  { rewrite Zlt_Qlt. eapply Qle_lt_trans; [apply Qfloor_le | exact Hlt]. }
  lia.
Qed.

Lemma twoDigits_below_60 (n : Z) : (0 <= n < 60)%Z -> twoDigits n = true.
Proof.
  intros Hn.
  assert (Hall : forallb twoDigits (map Z.of_nat (seq 0 60)) = true)
    by (vm_compute; reflexivity).
  rewrite forallb_forall in Hall. apply Hall.
  apply in_map_iff. exists (Z.to_nat n). split; [lia|].
  apply in_seq. lia.
Qed.

Lemma twoDigits_spec (n : Z) :
  twoDigits n = true ->
  let s := Str.padStart2 (Number.toString (JS.ofZ n)) in
  Chars.all (fun c => negb (Ascii.eqb c ":")) s = true
  /\ String.length s = 2%nat
  /\ Number.ofString s = JS.ofZ n.
Proof.
  unfold twoDigits. cbn zeta. intros H.
  apply andb_prop in H as [H H3]. apply andb_prop in H as [H1 H2].
  split; [exact H1|]. split; [now apply Nat.eqb_eq|].
  destruct (Number.ofString _) as [| | |[a [d|d|]]]; try discriminate.
  apply Z.eqb_eq in H3. now subst.
Qed.

Lemma hourOfDay_value (hours minutes : Z) :
  hourOfDay hours minutes = JS.Fin (inject_Z hours + inject_Z minutes / inject_Z 60).
Proof. reflexivity. Qed.

Lemma length_append (a b : string) :
  String.length (a ++ b) = (String.length a + String.length b)%nat.
Proof. induction a as [|c a IH]; [reflexivity|]. rewrite append_cons. cbn. now rewrite IH. Qed.

(** X24.  The trigger reads back the hour that the pattern engine
    prints: for a time of day [h:m], [formatHour] of
    [getHours() + getMinutes() / 60] is a text of five characters from
    which [routine-deviation] computes the same number again. *)
Theorem leaveHour_reads_formatHour (hours minutes : Z) :
  (0 <= hours < 24)%Z -> (0 <= minutes < 60)%Z ->
  let hour := hourOfDay hours minutes in
  PatternEngine.formatHour hour
  = Str.padStart2 (Number.toString (JS.ofZ hours)) ++ ":"
    ++ Str.padStart2 (Number.toString (JS.ofZ minutes))
  /\ String.length (PatternEngine.formatHour hour) = 5%nat
  /\ ProactiveEngine.leaveHour (PatternEngine.formatHour hour) = hour.
Proof.
  intros Hh Hm. cbn zeta.
  assert (Hfrac0 : (0 <= inject_Z minutes / inject_Z 60)%Q).
  { apply Qle_shift_div_l; [reflexivity|]. rewrite Qmult_0_l, <- (Zle_Qle 0). lia. }
  assert (Hfrac1 : (inject_Z minutes / inject_Z 60 < 1)%Q).
  { apply Qlt_shift_div_r; [reflexivity|]. rewrite Qmult_1_l, <- Zlt_Qlt. lia. }
  assert (Hformat :
    PatternEngine.formatHour (hourOfDay hours minutes)
    = Str.padStart2 (Number.toString (JS.ofZ hours)) ++ ":"
      ++ Str.padStart2 (Number.toString (JS.ofZ minutes))).
  { rewrite hourOfDay_value. unfold PatternEngine.formatHour.
    cbn [JS.floor].
    assert (Hfloor : Qfloor (inject_Z hours + inject_Z minutes / inject_Z 60) = hours).
    { apply Qfloor_unique.
      - rewrite <- (Qplus_0_r (inject_Z hours)) at 1.
        apply Qplus_le_compat; [apply Qle_refl | exact Hfrac0].
      - rewrite inject_Z_plus. apply Qplus_lt_r. exact Hfrac1. }
    rewrite Hfloor.
    unfold JS.ofZ at 2 3. cbn [JS.sub JS.neg JS.add JS.mul JS.round].
    assert (Hround :
      Qfloor ((inject_Z hours + inject_Z minutes / inject_Z 60 + - inject_Z hours)
              * inject_Z 60 + (1 # 2)) = minutes).
    { apply Qfloor_unique.
      - setoid_replace ((inject_Z hours + inject_Z minutes / inject_Z 60 + - inject_Z hours)
                        * inject_Z 60 + (1 # 2))%Q
          with (inject_Z minutes + (1 # 2))%Q using relation Qeq by (field; discriminate).
        rewrite <- (Qplus_0_r (inject_Z minutes)) at 1.
        apply Qplus_le_compat; [apply Qle_refl | discriminate].
      - setoid_replace ((inject_Z hours + inject_Z minutes / inject_Z 60 + - inject_Z hours)
                        * inject_Z 60 + (1 # 2))%Q
          with (inject_Z minutes + (1 # 2))%Q using relation Qeq by (field; discriminate).
        rewrite inject_Z_plus. apply Qplus_lt_r. reflexivity. }
    rewrite Hround. reflexivity. }
  destruct (twoDigits_spec hours (twoDigits_below_60 hours ltac:(lia))) as (Hh1 & Hh2 & Hh3).
  destruct (twoDigits_spec minutes (twoDigits_below_60 minutes Hm)) as (Hm1 & Hm2 & Hm3).
  cbn zeta in Hh1, Hh2, Hh3, Hm1, Hm2, Hm3.
  split; [exact Hformat|]. rewrite Hformat.
  split.
  - rewrite !length_append, Hh2, Hm2. reflexivity.
  - unfold ProactiveEngine.leaveHour.
    change (?a ++ ":" ++ ?b) with (a ++ String ":" b).
    rewrite (split_at_first ":" _ _ Hh1), (split_without ":" _ Hm1).
    cbn [map nth]. rewrite Hh3, Hm3. reflexivity.
Qed.

Lemma leaveHour_reads_formatHour_witness :
  PatternEngine.formatHour (hourOfDay 8 5) = "08:05"
  /\ ProactiveEngine.leaveHour "08:05" = hourOfDay 8 5.
Proof.
  destruct (leaveHour_reads_formatHour 8 5 ltac:(lia) ltac:(lia)) as (H1 & _ & H2).
  cbn zeta in H1, H2. split.
  - rewrite H1. reflexivity.
  - rewrite <- H2, H1. reflexivity.
Defined.

(** ** Proactive engine: a pass changes the cooldowns only *)

Lemma sameAnalysis_refl (p : Patterns) : sameAnalysis p p.
Proof. unfold sameAnalysis. auto. Qed.

Section Pass.

Variable env : ProactiveEngine.Env.
Variable ctx : DeviceContext.

Lemma scan_cons (t : ProactiveEngine.Trigger) (rest : list ProactiveEngine.Trigger)
    (patterns : Patterns) :
  ProactiveEngine.scan env ctx (t :: rest) patterns
  = match ProactiveEngine.firing env ctx patterns t with
    | Some result =>
        (fst (ProactiveEngine.scan env ctx rest
                (ProactiveEngine.stamp env (ProactiveEngine.trigger_id t) patterns)),
         (ProactiveEngine.fire env t result patterns
          ++ snd (ProactiveEngine.scan env ctx rest
                    (ProactiveEngine.stamp env (ProactiveEngine.trigger_id t) patterns)))%list)
    | None => ProactiveEngine.scan env ctx rest patterns
    end.
Proof.
  cbn [ProactiveEngine.scan].
  destruct (ProactiveEngine.firing env ctx patterns t); [|reflexivity].
  now destruct (ProactiveEngine.scan env ctx rest _).
Qed.

(** Every document of a pass has the analysis of the first, and the
    cooldown of every id that is not in the table. *)
Lemma scan_frame (table : list ProactiveEngine.Trigger) :
  forall patterns : Patterns,
    let result := ProactiveEngine.scan env ctx table patterns in
    Forall (fun p =>
              sameAnalysis p patterns
              /\ forall id, ~ In id (idsOf table) ->
                            triggerCooldowns p !! id = triggerCooldowns patterns !! id)
      (fst result :: writes (snd result)).
Proof.
  induction table as [|t table IH]; intros patterns; cbn zeta.
  - cbn. apply List.Forall_cons; [|apply List.Forall_nil].
    split; [apply sameAnalysis_refl | reflexivity].
  - rewrite scan_cons.
    destruct (ProactiveEngine.firing env ctx patterns t) as [result|].
    + cbn [fst snd]. rewrite writes_app.
      destruct (writes_fire env t result patterns) as [-> _].
      specialize (IH (ProactiveEngine.stamp env (ProactiveEngine.trigger_id t) patterns)).
      cbn zeta in IH.
      assert (Hstep : forall p,
                sameAnalysis p (ProactiveEngine.stamp env (ProactiveEngine.trigger_id t) patterns)
                /\ (forall id, ~ In id (idsOf table) ->
                      triggerCooldowns p !! id
                      = triggerCooldowns
                          (ProactiveEngine.stamp env (ProactiveEngine.trigger_id t) patterns)
                        !! id) ->
                sameAnalysis p patterns
                /\ forall id, ~ In id (idsOf (t :: table)) ->
                              triggerCooldowns p !! id = triggerCooldowns patterns !! id).
      { intros p [Hsame Hcool]. split.
        - unfold sameAnalysis in *. cbn in Hsame. exact Hsame.
        - intros id Hnot. cbn [idsOf map In] in Hnot.
          rewrite Hcool by (intros Hin; apply Hnot; now right).
          cbn [ProactiveEngine.stamp triggerCooldowns].
          apply lookup_insert_ne. intros E. apply Hnot. now left. }
      inversion IH as [|? ? Hfinal Hwrites]; subst.
      apply List.Forall_cons; [now apply Hstep|].
      cbn [app]. apply List.Forall_cons.
      * apply Hstep. split; [apply sameAnalysis_refl | reflexivity].
      * eapply List.Forall_impl; [|exact Hwrites]. exact Hstep.
    + specialize (IH patterns). cbn zeta in IH.
      eapply List.Forall_impl; [|exact IH]. cbn beta.
      intros p [Hsame Hcool]. split; [exact Hsame|].
      intros id Hnot. apply Hcool. intros Hin. apply Hnot. cbn [idsOf map In]. now right.
Qed.

(** The file after a pass holds the last document written, which is the
    document in memory at the end. *)
Lemma written_scan (table : list ProactiveEngine.Trigger) :
  forall (patterns : Patterns) (before : option Patterns),
    ProactiveEngine.written (snd (ProactiveEngine.scan env ctx table patterns)) before
    = match writes (snd (ProactiveEngine.scan env ctx table patterns)) with
      | [] => before
      | _ => Some (fst (ProactiveEngine.scan env ctx table patterns))
      end
    /\ (writes (snd (ProactiveEngine.scan env ctx table patterns)) = [] ->
        fst (ProactiveEngine.scan env ctx table patterns) = patterns).
Proof.
  induction table as [|t table IH]; intros patterns before.
  - cbn. auto.
  - rewrite scan_cons.
    destruct (ProactiveEngine.firing env ctx patterns t) as [result|]; [|apply IH].
    cbn [fst snd]. rewrite writes_app.
    destruct (writes_fire env t result patterns) as [-> _]. cbn [app].
    split; [|discriminate].
    unfold ProactiveEngine.written. rewrite fold_left_app.
    fold (ProactiveEngine.written (ProactiveEngine.fire env t result patterns) before).
    fold (ProactiveEngine.written
            (snd (ProactiveEngine.scan env ctx table
                    (ProactiveEngine.stamp env (ProactiveEngine.trigger_id t) patterns)))
            (ProactiveEngine.written (ProactiveEngine.fire env t result patterns) before)).
    destruct (IH (ProactiveEngine.stamp env (ProactiveEngine.trigger_id t) patterns)
                (ProactiveEngine.written (ProactiveEngine.fire env t result patterns) before))
      as [Hw Hnone].
    rewrite Hw.
    destruct (writes (snd (ProactiveEngine.scan env ctx table _))) eqn:Hwr; [|reflexivity].
    rewrite (Hnone eq_refl).
    unfold ProactiveEngine.fire.
    destruct (Pipeline.deliveryError _); reflexivity.
Qed.


End Pass.



Lemma triggers_ids_distinct : List.NoDup (idsOf ProactiveEngine.triggers).
Proof.
  unfold idsOf, ProactiveEngine.triggers. cbn [map ProactiveEngine.trigger_id].
  repeat (constructor; [cbn [In]; intuition discriminate|]). constructor.
Qed.



(** ** Proactive engine: the cooldown of a trigger that fired *)

Lemma scan_app_fst (env : ProactiveEngine.Env) (ctx : DeviceContext)
    (before after : list ProactiveEngine.Trigger) :
  forall patterns : Patterns,
    fst (ProactiveEngine.scan env ctx (before ++ after)%list patterns)
    = fst (ProactiveEngine.scan env ctx after
             (fst (ProactiveEngine.scan env ctx before patterns))).
Proof.
  induction before as [|t before IH]; intros patterns; [reflexivity|].
  cbn [app]. rewrite !scan_cons.
  destruct (ProactiveEngine.firing env ctx patterns t); cbn [fst]; apply IH.
Qed.

Lemma scan_keeps_cooldown (env : ProactiveEngine.Env) (ctx : DeviceContext)
    (table : list ProactiveEngine.Trigger) (patterns : Patterns) (id : string) :
  ~ In id (idsOf table) ->
  triggerCooldowns (fst (ProactiveEngine.scan env ctx table patterns)) !! id
  = triggerCooldowns patterns !! id.
Proof.
  intros Hnot. pose proof (scan_frame env ctx table patterns) as H. cbn zeta in H.
  inversion H as [|? ? [_ Hcool] _]; subst. now apply Hcool.
Qed.

Lemma ids_split (before after : list ProactiveEngine.Trigger) (t : ProactiveEngine.Trigger) :
  List.NoDup (idsOf (before ++ t :: after)%list) ->
  ~ In (ProactiveEngine.trigger_id t) (idsOf before)
  /\ ~ In (ProactiveEngine.trigger_id t) (idsOf after).
Proof.
  unfold idsOf. rewrite map_app. cbn [map]. intros H.
  apply NoDup_remove_2 in H. split; intros Hin; apply H, in_or_app; auto.
Qed.

(** X26.  A trigger that fired stays quiet for its cooldown: after a pass
    in which it fired, [patterns.json] holds its cooldown, the instant of
    the firing, and in a later pass the trigger does not fire as long as
    the clock is less than its cooldown past that instant, whatever the
    context and whether or not the delivery had succeeded. *)
Theorem fired_trigger_cools_down (env1 env2 : ProactiveEngine.Env)
    (ctx1 ctx2 : DeviceContext) (files : Files)
    (before : list ProactiveEngine.Trigger) (t : ProactiveEngine.Trigger)
    (after : list ProactiveEngine.Trigger) (result : ProactiveEngine.TriggerResult) :
  ProactiveEngine.triggers = (before ++ t :: after)%list ->
  ProactiveEngine.firing env1 ctx1 (reached env1 ctx1 files before) t = Some result ->
  let id := ProactiveEngine.trigger_id t in
  let firedAt := ProactiveEngine.seconds (ProactiveEngine.nowFired env1 id) in
  let files1 := fst (ProactiveEngine.checkAll env1 ctx1 files) in
  (exists p, patternsFile files1 = Some p /\ triggerCooldowns p !! id = Some firedAt)
  /\ (JS.lt (JS.sub (ProactiveEngine.seconds (ProactiveEngine.nowGuard env2 id)) firedAt)
            (triggerCooldown id) = true ->
      ProactiveEngine.firing env2 ctx2 (reached env2 ctx2 files1 before) t = None).
Proof.
  intros Htable Hfires. cbn zeta.
  pose proof triggers_ids_distinct as Hnd. rewrite Htable in Hnd.
  destruct (ids_split before after t Hnd) as [Hbefore Hafter].
  set (start := JS.nullish (patternsFile files) emptyPatterns).
  set (final := fst (ProactiveEngine.scan env1 ctx1 ProactiveEngine.triggers start)).
  assert (Hfinal : triggerCooldowns final !! ProactiveEngine.trigger_id t
                   = Some (ProactiveEngine.seconds
                             (ProactiveEngine.nowFired env1 (ProactiveEngine.trigger_id t)))).
  { unfold final. rewrite Htable, scan_app_fst, scan_cons.
    change (fst (ProactiveEngine.scan env1 ctx1 before start))
      with (reached env1 ctx1 files before). rewrite Hfires. cbn [fst].
    rewrite scan_keeps_cooldown by exact Hafter.
    cbn [ProactiveEngine.stamp triggerCooldowns]. apply lookup_insert_eq. }
  assert (Hfile : patternsFile (fst (ProactiveEngine.checkAll env1 ctx1 files)) = Some final).
  { unfold ProactiveEngine.checkAll. fold start.
    destruct (written_scan env1 ctx1 ProactiveEngine.triggers start (patternsFile files))
      as [Hw _].
    fold final in Hw.
    destruct (ProactiveEngine.scan env1 ctx1 ProactiveEngine.triggers start)
      as [final' effects] eqn:Hscan.
    cbn [fst snd patternsFile] in *. rewrite Hw.
    assert (Heffects : effects = snd (ProactiveEngine.scan env1 ctx1
                                        ProactiveEngine.triggers start))
      by now rewrite Hscan.
    rewrite Heffects, Htable, scan_app, scan_step.
    change (fst (ProactiveEngine.scan env1 ctx1 before start))
      with (reached env1 ctx1 files before). rewrite Hfires.
    rewrite !writes_app.
    destruct (writes_fire env1 t result (reached env1 ctx1 files before)) as [-> _].
    destruct (writes (snd (ProactiveEngine.scan env1 ctx1 before start))); reflexivity. }
  split; [exists final; now split|].
  intros Hlt. unfold ProactiveEngine.firing, ProactiveEngine.coolingDown, reached.
  rewrite Hfile. cbn [JS.nullish].
  rewrite scan_keeps_cooldown by exact Hbefore.
  rewrite Hfinal. cbn [JS.nullish]. fold (triggerCooldown (ProactiveEngine.trigger_id t)).
  now rewrite Hlt.
Qed.

Lemma fired_trigger_cools_down_witness :
  let files1 :=
    fst (ProactiveEngine.checkAll ProactiveSamples.env ProactiveSamples.away
           ProactiveSamples.noFiles) in
  ProactiveEngine.firing CooldownSamples.hourLater ProactiveSamples.away
    (reached CooldownSamples.hourLater ProactiveSamples.away files1 [])
    CooldownSamples.lowBatteryAway
  = None.
Proof.
  refine (proj2 (fired_trigger_cools_down ProactiveSamples.env CooldownSamples.hourLater
                   ProactiveSamples.away ProactiveSamples.away ProactiveSamples.noFiles
                   [] CooldownSamples.lowBatteryAway
                   (tl ProactiveEngine.triggers) _ eq_refl eq_refl) _).
  reflexivity.
Defined.

(** ** Proactive engine: a pass in which nothing fires *)

Lemma scan_idle (env : ProactiveEngine.Env) (ctx : DeviceContext)
    (table : list ProactiveEngine.Trigger) (patterns : Patterns) :
  (snd (ProactiveEngine.scan env ctx table patterns) = []
   <-> forall t, In t table -> ProactiveEngine.firing env ctx patterns t = None)
  /\ (snd (ProactiveEngine.scan env ctx table patterns) = [] ->
      fst (ProactiveEngine.scan env ctx table patterns) = patterns).
Proof.
  induction table as [|t table IH].
  - cbn. split; [split; [intros _ t [] | reflexivity] | reflexivity].
  - rewrite scan_cons.
    destruct (ProactiveEngine.firing env ctx patterns t) as [r|] eqn:Hf.
    + cbn [fst snd]. split; [split|]; try discriminate.
      intros H. specialize (H t (or_introl eq_refl)). congruence.
    + destruct IH as [[IH1 IH2] IH3]. split; [split|exact IH3].
      * intros H t' [<- | Hin]; [exact Hf | now apply IH1].
      * intros H. apply IH2. intros t' Hin. apply H. now right.
Qed.

(** X27.  A pass of [checkAll] has no effect at all exactly when no
    trigger fires against the document it read, each being in its
    cooldown or having its check return [null]: then nothing is logged,
    written or run, and the files are as they were. *)
Theorem checkAll_idle (env : ProactiveEngine.Env) (ctx : DeviceContext) (files : Files) :
  let start := JS.nullish (patternsFile files) emptyPatterns in
  (snd (ProactiveEngine.checkAll env ctx files) = []
   <-> forall t, In t ProactiveEngine.triggers ->
                 ProactiveEngine.firing env ctx start t = None)
  /\ (snd (ProactiveEngine.checkAll env ctx files) = [] ->
      fst (ProactiveEngine.checkAll env ctx files) = files).
Proof.
  cbn zeta. rewrite checkAll_effects.
  destruct (scan_idle env ctx ProactiveEngine.triggers
              (JS.nullish (patternsFile files) emptyPatterns)) as [Hiff _].
  split; [exact Hiff|].
  intros Hnone. unfold ProactiveEngine.checkAll.
  destruct (ProactiveEngine.scan env ctx ProactiveEngine.triggers _) as [final effects].
  cbn [snd] in Hnone. subst effects. cbn [fst ProactiveEngine.written fold_left].
  now destruct files.
Qed.

Lemma checkAll_idle_witness :
  fst (ProactiveEngine.checkAll CooldownSamples.hourLater ContextManager.empty
         ProactiveSamples.noFiles)
  = ProactiveSamples.noFiles.
Proof.
  apply (proj2 (checkAll_idle CooldownSamples.hourLater ContextManager.empty
                  ProactiveSamples.noFiles)).
  reflexivity.
Defined.

(** ** Proactive engine: the trigger table *)

Lemma firstDeviation_id (host : ProactiveEngine.Host) (currentZone : option string)
    (hour : num) (routines : list LocationRoutine.t) (result : ProactiveEngine.TriggerResult) :
  ProactiveEngine.firstDeviation host currentZone hour routines = Some result ->
  ProactiveEngine.id result = "routine-deviation"
  /\ ProactiveEngine.priority result = ProactiveEngine.Low
  /\ exists routine, In routine routines
                     /\ currentZone = Some (LocationRoutine.zone routine).
Proof.
  induction routines as [|routine routines IH]; [discriminate|].
  cbn [ProactiveEngine.firstDeviation].
  assert (Hrest : ProactiveEngine.firstDeviation host currentZone hour routines = Some result ->
                  ProactiveEngine.id result = "routine-deviation"
                  /\ ProactiveEngine.priority result = ProactiveEngine.Low
                  /\ exists r, In r (routine :: routines)
                               /\ currentZone = Some (LocationRoutine.zone r)).
  { intros H. destruct (IH H) as (H1 & H2 & r & Hin & Hz).
    split; [exact H1|]. split; [exact H2|]. exists r. split; [now right | exact Hz]. }
  destruct (LocationRoutine.typicalLeave routine) as [typicalLeave|]; [|exact Hrest].
  destruct (Str.isEmpty typicalLeave); [exact Hrest|].
  destruct currentZone as [z|]; cbn [andb]; [|exact Hrest].
  destruct (String.eqb_spec z (LocationRoutine.zone routine)) as [->|_]; [|exact Hrest].
  cbn [andb]. destruct (JS.gt hour _); [|exact Hrest].
  intros H. injection H as <-. cbn. split; [reflexivity|]. split; [reflexivity|].
  exists routine. split; [now left | reflexivity].
Qed.

(** X28.  Each trigger answers under its own name: whenever the check of
    a trigger of the table returns a result, the id of the result is the
    id of the trigger, the one its cooldown is written under, and the
    priority is [low] for every trigger but [low-battery-away]. *)
Theorem trigger_result_carries_trigger_id (t : ProactiveEngine.Trigger)
    (host : ProactiveEngine.Host) (ctx : DeviceContext) (patterns : Patterns)
    (result : ProactiveEngine.TriggerResult) :
  In t ProactiveEngine.triggers ->
  ProactiveEngine.check t host ctx patterns = Some result ->
  ProactiveEngine.id result = ProactiveEngine.trigger_id t
  /\ (ProactiveEngine.priority result = ProactiveEngine.Low
      \/ ProactiveEngine.trigger_id t = "low-battery-away").
Proof.
  unfold ProactiveEngine.triggers. cbn [In].
  intros [<- | [<- | [<- | [<- | [<- | []]]]]];
    cbn [ProactiveEngine.check ProactiveEngine.trigger_id].
  - unfold ProactiveEngine.lowBatteryAway.
    destruct (Device.battery (device ctx)) as [battery|]; [|discriminate].
    destruct (JS.ge _ _); [discriminate|].
    destruct (match ActivityState.currentZone (activity ctx) with
              | Some z => String.eqb z "Home"
              | None => false
              end); [discriminate|].
    intros H. injection H as <-. cbn. auto.
  - unfold ProactiveEngine.unusualInactivity.
    destruct (JS.lt _ _); [discriminate|].
    destruct (match Device.health (device ctx) with
              | Some h => HealthState.stepsToday h
              | None => None
              end); [|discriminate].
    destruct (HealthTrends.stepsAvg7d (healthTrends patterns)); [|discriminate].
    destruct (JS.ge _ _); [discriminate|].
    intros H. injection H as <-. cbn. auto.
  - unfold ProactiveEngine.sleepDeficit.
    destruct (_ || _); [discriminate|].
    destruct (match Device.health (device ctx) with
              | Some h => HealthState.sleepDurationSeconds h
              | None => None
              end); [|discriminate].
    destruct (HealthTrends.sleepAvg7d (healthTrends patterns)); [|discriminate].
    destruct (JS.lt _ _); [discriminate|].
    intros H. injection H as <-. cbn. auto.
  - unfold ProactiveEngine.routineDeviation.
    destruct (negb _); [discriminate|].
    intros H. apply firstDeviation_id in H as (H1 & H2 & _). auto.
  - unfold ProactiveEngine.healthWeeklyDigest.
    destruct (negb _); [discriminate|].
    destruct (_ || _); [discriminate|].
    intros H. injection H as <-. cbn. auto.
Qed.

Lemma trigger_result_carries_trigger_id_witness :
  option_map ProactiveEngine.id
    (ProactiveEngine.lowBatteryAway ProactiveSamples.host ProactiveSamples.away
       emptyPatterns)
  = Some "low-battery-away".
Proof.
  destruct (ProactiveEngine.lowBatteryAway ProactiveSamples.host ProactiveSamples.away
              emptyPatterns) as [result|] eqn:Hcheck; [|discriminate].
  cbn [option_map]. f_equal.
  refine (proj1 (trigger_result_carries_trigger_id CooldownSamples.lowBatteryAway
                   ProactiveSamples.host ProactiveSamples.away emptyPatterns result _ _)).
  - left. reflexivity.
  - exact Hcheck.
Defined.

(** ** Plugin entry: the configuration *)


Example resolveConfig_trims_model :
  Plugin.llmModel
    (Plugin.resolveConfig
       (Some (JSON.Obj [("llmModel", JSON.Str "  anthropic/claude-haiku ")])))
  = "anthropic/claude-haiku"
  /\ Plugin.llmModel
       (Plugin.resolveConfig (Some (JSON.Obj [("llmModel", JSON.Str "   ")])))
     = "openai/gpt-4o-mini"
  /\ Plugin.llmModel
       (Plugin.resolveConfig (Some (JSON.Obj [("llmModel", JSON.Num (JS.ofZ 4))])))
     = "openai/gpt-4o-mini".
Proof. vm_compute. repeat split; reflexivity. Qed.

(** ** Plugin entry: the cooldowns after a restart *)

Section Restart.

Variable parseEntry : string -> option EventLogEntry.t.

Lemma recentPushes_in (nowMs : num) (file : EventLog.File) (sub : string) (at_ : num) :
  In (sub, at_) (Plugin.recentPushes parseEntry nowMs file)
  <-> exists e, restorable nowMs (EventLog.readAll parseEntry file) sub e
                /\ firedAt (EventLogEntry.event e) = at_.
Proof.
  unfold Plugin.recentPushes, EventLog.readSince, restorable. rewrite in_map_iff. split.
  - intros (e & Heq & Hin). injection Heq as <- <-.
    apply filter_In in Hin as [Hin Hpush]. apply filter_In in Hin as [Hin Hrecent].
    exists e. repeat split; auto.
    unfold PatternEngine.isDecision in Hpush.
    destruct (EventLogEntry.decision e); congruence.
  - intros (e & (Hin & Hpush & Hrecent & <-) & <-). exists e. split; [reflexivity|].
    apply filter_In. split; [apply filter_In; now split|].
    unfold PatternEngine.isDecision. now rewrite Hpush.
Qed.

(** X30.  The cooldowns survive a restart through the event log: after
    the initialisation the rules engine has the configured budget and,
    for each subscription, the latest [firedAt] among the pushes logged
    in the last 24 hours (when those instants are all truthy), and no
    cooldown for a subscription without such a push; entries that were
    dropped or deferred restore nothing. *)
Theorem init_restores_cooldowns (raw : option JSON.value) (loaded : option DeviceContext)
    (nowMs : num) (file : EventLog.File) (sub : string) :
  Forall (fun p => JS.truthy (snd p) = true) (Plugin.recentPushes parseEntry nowMs file) ->
  let st := Plugin.init parseEntry raw loaded nowMs file in
  let entries := EventLog.readAll parseEntry file in
  RulesEngine.pushBudget (Pipeline.rules st)
  = Plugin.pushBudgetPerDay (Plugin.resolveConfig raw)
  /\ match RulesEngine.lastFired (Pipeline.rules st) !! sub with
     | Some latest =>
         (exists e, restorable nowMs entries sub e
                    /\ firedAt (EventLogEntry.event e) = latest)
         /\ forall e, restorable nowMs entries sub e ->
                      JS.le (firedAt (EventLogEntry.event e)) latest = true
     | None => forall e, ~ restorable nowMs entries sub e
     end.
Proof.
  intros Hall. cbn zeta. unfold Plugin.init. cbn [Pipeline.rules].
  split; [now rewrite restoreCooldowns_pushBudget|].
  pose proof (restoreCooldowns_latest _ (Plugin.pushBudgetPerDay (Plugin.resolveConfig raw))
                Hall sub) as H.
  unfold latestOf in H.
  destruct (RulesEngine.lastFired _ !! sub) as [latest|].
  - destruct H as [Hin Hmax]. split; [now apply recentPushes_in|].
    intros e He. apply Hmax. apply recentPushes_in. now exists e.
  - intros e He. apply (H (firedAt (EventLogEntry.event e))).
    apply recentPushes_in. now exists e.
Qed.

End Restart.

Lemma init_restores_cooldowns_witness :
  let st :=
    Plugin.init RestartSamples.parseEntry ConfigSamples.noPushes None RotateSamples.nowMs
      RestartSamples.log in
  RulesEngine.pushBudget (Pipeline.rules st) = JS.ofZ 10
  /\ RulesEngine.lastFired (Pipeline.rules st) !! "default.geofence"
     = Some (JS.ofZ 1740000000)
  /\ RulesEngine.lastFired (Pipeline.rules st) !! "custom.something" = None.
Proof.
  assert (Hall : Forall (fun p => JS.truthy (snd p) = true)
                   (Plugin.recentPushes RestartSamples.parseEntry RotateSamples.nowMs
                      RestartSamples.log)).
  { vm_compute. repeat constructor. }
  split; [|split].
  - exact (proj1 (init_restores_cooldowns RestartSamples.parseEntry ConfigSamples.noPushes
                    None RotateSamples.nowMs RestartSamples.log "default.geofence" Hall)).
  - vm_compute. reflexivity.
  - vm_compute. reflexivity.
Defined.
